(** * Formerr webhook dispatch: a shallow embedding of
      [app/webhooks/service.py] and of the submission write path of
      [app/database/services.py].

    Conventions.
    - A Python [str] is a Rocq [string] holding the UTF-8 encoding of the
      text, so [s.encode('utf-8')] is the list of the bytes of [s].
    - A Python [int] is a [Z] (unbounded, no wrap-around).
    - A Python [dict] used as a keyed record (results, headers) is a
      [gmap string _]; a dict whose insertion order is visible (the JSON
      payload that is serialised) is an association list.
    - Effects (the SQLAlchemy session, the clock, [uuid.uuid4], the HTTP
      client) are threaded through a state-and-exception monad over a
      [World]; what the outside world answers is read from an [Env]. *)

From Stdlib Require Import ZArith Lia List String Ascii.
From Stdlib Require Import DecimalString.
From stdpp Require Import gmap strings list fin_maps.

#[local] Set Warnings "-register-all,-clear-no-such-hyp".

Local Open Scope string_scope.
Local Open Scope list_scope.
Local Open Scope Z_scope.

(** ** Bytes *)

Definition bytes := list Z.

Definition byte_of_ascii (c : ascii) : Z := Z.of_N (N_of_ascii c).

(** [s.encode('utf-8')] under the convention above. *)
Definition encode_utf8 (s : string) : bytes :=
  map byte_of_ascii (list_ascii_of_string s).

Definition hex_digit (d : Z) : ascii :=
  if d <? 10 then ascii_of_N (Z.to_N (48 + d)) else ascii_of_N (Z.to_N (87 + d)).

(** [bytes.hex()]: two lowercase hexadecimal digits per byte. *)
Fixpoint hex (bs : bytes) : string :=
  match bs with
  | [] => EmptyString
  | b :: bs' => String (hex_digit (b / 16)) (String (hex_digit (b mod 16)) (hex bs'))
  end.

(** ** SHA-256 (FIPS 180-4), the [hashlib.sha256] passed to [hmac.new] *)

Module SHA256.

Definition w32 (x : Z) : Z := x mod 2 ^ 32.
Definition add32 (x y : Z) : Z := w32 (x + y).
Definition rotr (n x : Z) : Z :=
  Z.lor (Z.shiftr x n) (w32 (Z.shiftl x (32 - n))).
Definition not32 (x : Z) : Z := Z.lxor x (2 ^ 32 - 1).

Definition Ch (x y z : Z) : Z := Z.lxor (Z.land x y) (Z.land (not32 x) z).
Definition Maj (x y z : Z) : Z :=
  Z.lxor (Z.lxor (Z.land x y) (Z.land x z)) (Z.land y z).
Definition Sigma0 (x : Z) : Z := Z.lxor (Z.lxor (rotr 2 x) (rotr 13 x)) (rotr 22 x).
Definition Sigma1 (x : Z) : Z := Z.lxor (Z.lxor (rotr 6 x) (rotr 11 x)) (rotr 25 x).
Definition sigma0 (x : Z) : Z := Z.lxor (Z.lxor (rotr 7 x) (rotr 18 x)) (Z.shiftr x 3).
Definition sigma1 (x : Z) : Z := Z.lxor (Z.lxor (rotr 17 x) (rotr 19 x)) (Z.shiftr x 10).

(** The round constants are the first 32 fractional bits of the cube
    roots of the first 64 primes, and the initial hash value those of the
    square roots of the first 8 primes; both are computed here. *)
Definition is_prime (p : Z) : bool :=
  forallb (fun d => negb (p mod d =? 0))
          (filter (fun d => d * d <=? p) (map Z.of_nat (seq 2 20))).

Definition primes64 : list Z :=
  filter is_prime (map Z.of_nat (seq 2 310)).

Fixpoint icbrt_bits (b : nat) (n r : Z) : Z :=
  match b with
  | O => r
  | S b' =>
      let c := r + 2 ^ Z.of_nat b' in
      icbrt_bits b' n (if c * c * c <=? n then c else r)
  end.

Definition frac_cbrt32 (p : Z) : Z := w32 (icbrt_bits 40 (p * 2 ^ 96) 0).
Definition frac_sqrt32 (p : Z) : Z := w32 (Z.sqrt (p * 2 ^ 64)).

Definition K : list Z := Eval vm_compute in map frac_cbrt32 primes64.
Definition H0 : list Z := Eval vm_compute in map frac_sqrt32 (firstn 8 primes64).

(** Big-endian encodings. *)
Fixpoint be_bytes (n : nat) (x : Z) : bytes :=
  match n with
  | O => []
  | S n' => (x / 256 ^ Z.of_nat n') mod 256 :: be_bytes n' x
  end.

Definition be_word (bs : bytes) : Z := fold_left (fun acc b => acc * 256 + b) bs 0.

Definition pad (msg : bytes) : bytes :=
  let L := Z.of_nat (length msg) in
  msg ++ [128] ++ repeat 0 (Z.to_nat ((55 - L) mod 64)) ++ be_bytes 8 (8 * L).

Fixpoint chunks (fuel : nat) (n : nat) (bs : bytes) : list bytes :=
  match fuel with
  | O => []
  | S fuel' =>
      match bs with
      | [] => []
      | _ => firstn n bs :: chunks fuel' n (skipn n bs)
      end
  end.

Definition words_of_block (blk : bytes) : list Z :=
  map be_word (chunks 16 4 blk).

(** The message schedule, produced from a window of the last 16 words. *)
Fixpoint schedule (n : nat) (win : list Z) : list Z :=
  match n with
  | O => []
  | S n' =>
      let w := add32 (add32 (sigma1 (nth 14 win 0)) (nth 9 win 0))
                     (add32 (sigma0 (nth 1 win 0)) (nth 0 win 0)) in
      w :: schedule n' (tl win ++ [w])
  end.

Record regs := Regs { ra : Z; rb : Z; rc : Z; rd : Z; re : Z; rf : Z; rg : Z; rh : Z }.

Definition round (s : regs) (kw : Z * Z) : regs :=
  let t1 := add32 (add32 (add32 (rh s) (Sigma1 (re s))) (Ch (re s) (rf s) (rg s)))
                  (add32 (fst kw) (snd kw)) in
  let t2 := add32 (Sigma0 (ra s)) (Maj (ra s) (rb s) (rc s)) in
  Regs (add32 t1 t2) (ra s) (rb s) (rc s) (add32 (rd s) t1) (re s) (rf s) (rg s).

Definition regs_of (h : list Z) : regs :=
  Regs (nth 0 h 0) (nth 1 h 0) (nth 2 h 0) (nth 3 h 0)
       (nth 4 h 0) (nth 5 h 0) (nth 6 h 0) (nth 7 h 0).

Definition list_of (s : regs) : list Z :=
  [ra s; rb s; rc s; rd s; re s; rf s; rg s; rh s].

Definition compress (h : list Z) (blk : bytes) : list Z :=
  let w16 := words_of_block blk in
  let w := w16 ++ schedule 48 w16 in
  let s := fold_left round (combine K w) (regs_of h) in
  map (fun p => add32 (fst p) (snd p)) (combine h (list_of s)).

Definition digest (msg : bytes) : bytes :=
  let p := pad msg in
  concat (map (be_bytes 4) (fold_left compress (chunks (length p) 64 p) H0)).

End SHA256.

(** ** HMAC (RFC 2104) with SHA-256: [hmac.new(key, msg, hashlib.sha256)] *)

Module HMAC.

Definition block_size : nat := 64.

Definition norm_key (key : bytes) : bytes :=
  let k := if (Nat.ltb block_size (length key)) then SHA256.digest key else key in
  k ++ repeat 0 (block_size - length k)%nat.

Definition xor_pad (c : Z) (key : bytes) : bytes := map (Z.lxor c) key.

Definition digest (key msg : bytes) : bytes :=
  let k := norm_key key in
  SHA256.digest (xor_pad 92 k ++ SHA256.digest (xor_pad 54 k ++ msg)).

(** [hmac.new(key, msg, hashlib.sha256).hexdigest()] *)
Definition hexdigest (key msg : bytes) : string := hex (digest key msg).

End HMAC.

(** ** Python values and [json.dumps] *)

(** The values that travel in payloads and results.  [PObject t] stands for
    any object of type [t] that [json] cannot serialise (a [datetime], a
    [set], ...).  Floats are not modelled. *)
Inductive pyval : Type :=
| PNone
| PBool (b : bool)
| PInt (n : Z)
| PStr (s : string)
| PList (l : list pyval)
| PDict (kvs : list (string * pyval))
| PObject (type_name : string).

(** Exceptions, all subclasses of [Exception]; [str(e)] is the message. *)
Inductive exn : Type :=
| TimeoutException (msg : string)   (* httpx.TimeoutException and its subclasses *)
| PyException (cls : string) (msg : string).   (* every other Exception *)

Definition str_exn (e : exn) : string :=
  match e with
  | TimeoutException m => m
  | PyException _ m => m
  end.

(** Python truthiness, as used by [if webhook.secret] and [not result["success"]]. *)
Definition truthy (v : pyval) : bool :=
  match v with
  | PNone => false
  | PBool b => b
  | PInt n => negb (n =? 0)
  | PStr s => negb (String.eqb s "")
  | PList l => match l with [] => false | _ => true end
  | PDict kvs => match kvs with [] => false | _ => true end
  | PObject _ => true
  end.

Definition str_int (n : Z) : string := NilZero.string_of_int (Z.to_int n).

Definition zfill (width : nat) (s : string) : string :=
  string_of_list_ascii (repeat "0"%char (width - String.length s)) +:+ s.

Module Json.

(** The one-character string holding a double quote (code 34). *)
Definition dq : string := String (ascii_of_N 34) EmptyString.

(** [json.encoder.py_encode_basestring]: the escapes applied when
    [ensure_ascii=False]; bytes of multi-byte UTF-8 sequences pass through. *)
Definition escape_char (c : ascii) : string :=
  let n := byte_of_ascii c in
  if n =? 34 then "\" +:+ dq
  else if n =? 92 then "\\"
  else if n =? 8 then "\b"
  else if n =? 12 then "\f"
  else if n =? 10 then "\n"
  else if n =? 13 then "\r"
  else if n =? 9 then "\t"
  else if n <? 32 then "\u00" +:+ hex [n]
  else String c EmptyString.

Fixpoint escape (s : string) : string :=
  match s with
  | EmptyString => EmptyString
  | String c s' => escape_char c +:+ escape s'
  end.

Definition quote (s : string) : string := dq +:+ escape s +:+ dq.

Fixpoint join (sep : string) (parts : list string) : string :=
  match parts with
  | [] => ""
  | [p] => p
  | p :: rest => p +:+ sep +:+ join sep rest
  end.

Definition not_serializable (t : string) : exn :=
  PyException "TypeError" ("Object of type " +:+ t +:+ " is not JSON serializable").

(** The pieces of a container in order, or the first exception raised
    while producing them. *)
Fixpoint collect (rs : list (exn + string)) : exn + list string :=
  match rs with
  | [] => inr []
  | inl e :: _ => inl e
  | inr s :: rest =>
      match collect rest with
      | inl e => inl e
      | inr ss => inr (s :: ss)
      end
  end.

Definition enclose (l r : string) (parts : exn + list string) : exn + string :=
  match parts with
  | inl e => inl e
  | inr ps => inr (l +:+ join ", " ps +:+ r)
  end.

Definition keyed (k : string) (r : exn + string) : exn + string :=
  match r with
  | inl e => inl e
  | inr s => inr (quote k +:+ ": " +:+ s)
  end.

(** [json.dumps(v, ensure_ascii=False)] with the default separators. *)
Fixpoint dumps (v : pyval) : exn + string :=
  match v with
  | PNone => inr "null"
  | PBool true => inr "true"
  | PBool false => inr "false"
  | PInt n => inr (str_int n)
  | PStr s => inr (quote s)
  | PList l => enclose "[" "]" (collect (map dumps l))
  | PDict kvs => enclose "{" "}" (collect (map (fun kv => keyed (fst kv) (dumps (snd kv))) kvs))
  | PObject t => inl (not_serializable t)
  end.

End Json.

(** ** [datetime] *)

Record datetime : Type := Datetime {
  year : Z; month : Z; day : Z; hour : Z; minute : Z; second : Z; microsecond : Z
}.

Definition dd (width : nat) (n : Z) : string := zfill width (str_int n).

(** [dt.isoformat()]: the fraction is printed only when it is not zero. *)
Definition isoformat (dt : datetime) : string :=
  dd 4 (year dt) +:+ "-" +:+ dd 2 (month dt) +:+ "-" +:+ dd 2 (day dt) +:+ "T"
  +:+ dd 2 (hour dt) +:+ ":" +:+ dd 2 (minute dt) +:+ ":" +:+ dd 2 (second dt)
  +:+ (if microsecond dt =? 0 then "" else "." +:+ dd 6 (microsecond dt)).

(** [dt.strftime('%Y%m%d_%H%M%S')] *)
Definition strftime_compact (dt : datetime) : string :=
  dd 4 (year dt) +:+ dd 2 (month dt) +:+ dd 2 (day dt) +:+ "_"
  +:+ dd 2 (hour dt) +:+ dd 2 (minute dt) +:+ dd 2 (second dt).

(** ** The database rows ([app/database/models.py]) *)

(** A row of [webhooks]; the primary key [id] is the key of the table. *)
Record Webhook : Type := {
  form_id : string;
  url : string;
  events : list string;
  secret : option string;          (* nullable *)
  active : bool;
  last_triggered : option datetime; (* nullable *)
  failure_count : Z
}.

Record Form : Type := {
  owner_id : Z;
  submission_count : Z;
  last_submission : option datetime
}.

Record Submission : Type := {
  sub_form_id : string;
  answers : list pyval;
  submitter_email : pyval;
  submitter_name : pyval;
  submitter_ip_hash : pyval;
  submitter_user_id : pyval;
  submitted_at : datetime
}.

Record Tables : Type := {
  webhooks : gmap string Webhook;
  forms : gmap string Form;
  submissions : gmap string Submission
}.

(** [class WebhookEvent(str, Enum)] of [app/webhooks/models.py]. *)
Inductive WebhookEvent : Type :=
| SUBMISSION_CREATED | SUBMISSION_UPDATED | FORM_CREATED
| FORM_UPDATED | FORM_DELETED | USER_REGISTERED.

Definition event_value (e : WebhookEvent) : string :=
  match e with
  | SUBMISSION_CREATED => "submission.created"
  | SUBMISSION_UPDATED => "submission.updated"
  | FORM_CREATED => "form.created"
  | FORM_UPDATED => "form.updated"
  | FORM_DELETED => "form.deleted"
  | USER_REGISTERED => "user.registered"
  end.

(** ** The outside world *)

(** One outbound [client.post(url, content=..., headers=...)]. *)
Record Request : Type := {
  req_url : string;
  req_content : string;
  req_headers : gmap string string
}.

(** The bytes httpx puts on the wire for a [str] content. *)
Definition wire_body (r : Request) : bytes := encode_utf8 (req_content r).

(** What a POST comes back with: a response (its [status_code] and
    [int(response.elapsed.total_seconds() * 1000)], the float arithmetic
    taken as given), an [httpx.TimeoutException], or any other exception. *)
Inductive PostOutcome : Type :=
| Responded (status_code : Z) (elapsed_ms : Z)
| TimedOut (msg : string)
| Failed (cls : string) (msg : string).

(** The answers of the environment.  Each is indexed by how many calls of
    its kind were made before, so that two calls may differ. *)
Record Env : Type := {
  utcnow_at : nat -> datetime;               (* datetime.utcnow() *)
  uuid4_at : nat -> string;                  (* str(uuid.uuid4()) *)
  post_at : nat -> Request -> PostOutcome;   (* the network *)
  db_fault_at : nat -> option string         (* a database call that raises *)
}.

Record World : Type := {
  stored : Tables;                           (* committed rows *)
  session : Tables;                          (* the AsyncSession: loaded rows with their pending changes *)
  pending : list (string * Submission);      (* objects given to db.add, not yet flushed *)
  clock_reads : nat;
  uuid_draws : nat;
  db_calls : nat;
  posts : list Request;                      (* every POST issued, oldest first *)
  stdout : list string
}.

(** ** The monad: state over [World], with Python exceptions *)

Definition M (A : Type) : Type := World -> (exn + A) * World.

#[export] Instance M_ret : MRet M := fun A (a : A) (w : World) => (inr a, w).

#[export] Instance M_bind : MBind M := fun A B (f : A -> M B) (c : M A) (w : World) =>
  match c w with
  | (inl e, w') => (inl e, w')
  | (inr a, w') => f a w'
  end.

Definition raise {A : Type} (e : exn) : M A := fun w => (inl e, w).

(** [try: c  except Exception as e: h e] *)
Definition try_except {A : Type} (c : M A) (h : exn -> M A) : M A := fun w =>
  match c w with
  | (inl e, w') => h e w'
  | (inr a, w') => (inr a, w')
  end.

Definition lift {A : Type} (r : exn + A) : M A :=
  match r with inl e => raise e | inr a => mret a end.

Definition gets {A : Type} (f : World -> A) : M A := fun w => (inr (f w), w).
Definition modify (f : World -> World) : M unit := fun w => (inr tt, f w).

(** The counters and logs of the world. *)
Definition tick (w : World) : World :=
  {| stored := stored w; session := session w; pending := pending w;
     clock_reads := S (clock_reads w); uuid_draws := uuid_draws w;
     db_calls := db_calls w; posts := posts w; stdout := stdout w |}.

Definition draw (w : World) : World :=
  {| stored := stored w; session := session w; pending := pending w;
     clock_reads := clock_reads w; uuid_draws := S (uuid_draws w);
     db_calls := db_calls w; posts := posts w; stdout := stdout w |}.

Definition bump_db (w : World) : World :=
  {| stored := stored w; session := session w; pending := pending w;
     clock_reads := clock_reads w; uuid_draws := uuid_draws w;
     db_calls := S (db_calls w); posts := posts w; stdout := stdout w |}.

Definition log_post (r : Request) (w : World) : World :=
  {| stored := stored w; session := session w; pending := pending w;
     clock_reads := clock_reads w; uuid_draws := uuid_draws w;
     db_calls := db_calls w; posts := posts w ++ [r]; stdout := stdout w |}.

Definition log_line (line : string) (w : World) : World :=
  {| stored := stored w; session := session w; pending := pending w;
     clock_reads := clock_reads w; uuid_draws := uuid_draws w;
     db_calls := db_calls w; posts := posts w; stdout := stdout w ++ [line] |}.

Definition add_pending (sid : string) (s : Submission) (w : World) : World :=
  {| stored := stored w; session := session w; pending := pending w ++ [(sid, s)];
     clock_reads := clock_reads w; uuid_draws := uuid_draws w;
     db_calls := db_calls w; posts := posts w; stdout := stdout w |}.

Definition set_session (t : Tables) (w : World) : World :=
  {| stored := stored w; session := t; pending := pending w;
     clock_reads := clock_reads w; uuid_draws := uuid_draws w;
     db_calls := db_calls w; posts := posts w; stdout := stdout w |}.

Definition set_webhooks (m : gmap string Webhook) (t : Tables) : Tables :=
  {| webhooks := m; forms := forms t; submissions := submissions t |}.

Definition set_forms (m : gmap string Form) (t : Tables) : Tables :=
  {| webhooks := webhooks t; forms := m; submissions := submissions t |}.

Definition set_submissions (m : gmap string Submission) (t : Tables) : Tables :=
  {| webhooks := webhooks t; forms := forms t; submissions := m |}.

(** Attribute writes on a loaded [Webhook]. *)
Definition with_last_triggered (now : datetime) (h : Webhook) : Webhook :=
  {| form_id := form_id h; url := url h; events := events h; secret := secret h;
     active := active h; last_triggered := Some now; failure_count := failure_count h |}.

Definition with_failure_count (n : Z) (h : Webhook) : Webhook :=
  {| form_id := form_id h; url := url h; events := events h; secret := secret h;
     active := active h; last_triggered := last_triggered h; failure_count := n |}.

(** Writing through a loaded object changes the session's row: every
    reference to the webhook [wid] sees it. *)
Definition alter_webhook (wid : string) (f : Webhook -> Webhook) (w : World) : World :=
  set_session (set_webhooks (alter f wid (webhooks (session w))) (session w)) w.

Definition update_webhook (wid : string) (f : Webhook -> Webhook) : M unit :=
  modify (alter_webhook wid f).

Definition update_form (fid : string) (f : Form -> Form) : M unit :=
  modify (fun w => set_session (set_forms (alter f fid (forms (session w))) (session w)) w).

(** [print(...)] *)
Definition print (line : string) : M unit := modify (log_line line).

(** [db.add(obj)] *)
Definition db_add (sid : string) (s : Submission) : M unit := modify (add_pending sid s).

(** Dict literals and subscription. *)
Definition dict (kvs : list (string * pyval)) : gmap string pyval := list_to_map kvs.

Definition getitem (d : gmap string pyval) (k : string) : M pyval :=
  match d !! k with
  | Some v => mret v
  | None => raise (PyException "KeyError" k)
  end.

(** The delivery envelope: the dict literal with the six keys [event],
    [timestamp], [form_id], [data], [delivery_id], [source] that both
    [trigger_webhooks] and [test_webhook] build. *)
Record Envelope : Type := {
  env_event : string;
  env_timestamp : string;
  env_form_id : string;
  env_data : list (string * pyval);
  env_delivery_id : string;
  env_source : string
}.

Definition envelope_dict (p : Envelope) : pyval :=
  PDict [("event", PStr (env_event p));
         ("timestamp", PStr (env_timestamp p));
         ("form_id", PStr (env_form_id p));
         ("data", PDict (env_data p));
         ("delivery_id", PStr (env_delivery_id p));
         ("source", PStr (env_source p))].

(** [if webhook.secret:] on a nullable string column. *)
Definition has_secret (h : Webhook) : bool :=
  match secret h with
  | Some s => negb (String.eqb s "")
  | None => false
  end.

(** ** [WebhookService] ([app/webhooks/service.py]) *)

(** [create_signature(payload, secret)] *)
Definition create_signature (payload : string) (secret : string) : string :=
  let signature := HMAC.hexdigest (encode_utf8 secret) (encode_utf8 payload) in
  "sha256=" +:+ signature.

Section WithEnv.

Variable env : Env.

Definition utcnow : M datetime := fun w =>
  (inr (utcnow_at env (clock_reads w)), tick w).

Definition uuid4 : M string := fun w =>
  (inr (uuid4_at env (uuid_draws w)), draw w).

(** A round trip to the database; it raises when the environment says so. *)
Definition db_call : M unit := fun w =>
  match db_fault_at env (db_calls w) with
  | Some m => (inl (PyException "SQLAlchemyError" m), bump_db w)
  | None => (inr tt, bump_db w)
  end.

(** [await db.execute(select(...))]: the rows come from the session. *)
Definition db_execute {A : Type} (q : Tables -> A) : M A :=
  _ ← db_call; gets (fun w => q (session w)).

(** [await db.refresh(obj)] *)
Definition db_refresh : M unit := db_call.

(** The flush that a commit performs: the added objects join the
    session's rows and everything becomes durable.  A primary key that
    is already stored is refused, and then nothing is stored. *)
Definition flush : M unit := fun w =>
  if existsb (fun p => bool_decide (is_Some (submissions (stored w) !! p.1))) (pending w)
  then (inl (PyException "IntegrityError" "duplicate key"), w)
  else
    let t := set_submissions
               (foldl (fun m p => <[p.1 := p.2]> m) (submissions (session w)) (pending w))
               (session w) in
    (inr tt,
     {| stored := t; session := t; pending := [];
        clock_reads := clock_reads w; uuid_draws := uuid_draws w;
        db_calls := db_calls w; posts := posts w; stdout := stdout w |}).

(** [await db.commit()] *)
Definition db_commit : M unit := _ ← db_call; flush.

(** [await client.post(url, content=..., headers=...)]; the request is
    logged in [posts] whatever the outcome. *)
Definition http_post (r : Request) : M (Z * Z) := fun w =>
  match post_at env (length (posts w)) r with
  | Responded code ms => (inr (code, ms), log_post r w)
  | TimedOut m => (inl (TimeoutException m), log_post r w)
  | Failed c m => (inl (PyException c m), log_post r w)
  end.

(** [_send_webhook(webhook, payload)] *)
Definition _send_webhook (wid : string) (webhook : Webhook) (payload : Envelope)
  : M (gmap string pyval) :=
  payload_str ← lift (Json.dumps (envelope_dict payload));
  let headers : gmap string string :=
    list_to_map [("Content-Type", "application/json");
                 ("User-Agent", "Formerr-Webhooks/1.0 (BrunoV7)");
                 ("X-Formerr-Event", env_event payload);
                 ("X-Formerr-Delivery", env_delivery_id payload);
                 ("X-Formerr-Timestamp", env_timestamp payload)] in
  let headers :=
    if has_secret webhook
    then <["X-Formerr-Signature" := create_signature payload_str (default "" (secret webhook))]> headers
    else headers in
  try_except
    (response ← http_post {| req_url := url webhook; req_content := payload_str;
                             req_headers := headers |};
     mret (dict [("webhook_id", PStr wid);
                 ("success", PBool (response.1 <? 400));
                 ("status_code", PInt response.1);
                 ("response_time_ms", PInt response.2);
                 ("url", PStr (url webhook));
                 ("delivery_id", PStr (env_delivery_id payload))]))
    (fun e =>
       match e with
       | TimeoutException _ =>
           mret (dict [("webhook_id", PStr wid);
                       ("success", PBool false);
                       ("error", PStr "timeout");
                       ("url", PStr (url webhook))])
       | _ =>
           mret (dict [("webhook_id", PStr wid);
                       ("success", PBool false);
                       ("error", PStr (str_exn e));
                       ("url", PStr (url webhook))])
       end).

(** The body of the [for webhook in webhooks:] loop of
    [trigger_webhooks], for one [webhook].  In the [try] block only the
    first statement can raise, so the handler always sees [results] as it
    was before the iteration. *)
Definition loop_body (wid : string) (webhook : Webhook) (payload : Envelope)
           (results : list (gmap string pyval)) : M (list (gmap string pyval)) :=
  try_except
    (result ← _send_webhook wid webhook payload;
     let results := results ++ [result] in
     now ← utcnow;
     _ ← update_webhook wid (with_last_triggered now);
     success ← getitem result "success";
     _ ← (if negb (truthy success)
          then update_webhook wid (fun h => with_failure_count (failure_count h + 1) h)
          else update_webhook wid (with_failure_count 0));
     mret results)
    (fun e =>
       let results := results ++ [dict [("webhook_id", PStr wid);
                                        ("success", PBool false);
                                        ("error", PStr (str_exn e));
                                        ("url", PStr (url webhook))]] in
       _ ← update_webhook wid (fun h => with_failure_count (failure_count h + 1) h);
       mret results).

(** The loop itself, over the rows the query returned. *)
Fixpoint send_each (webhooks : list (string * Webhook)) (payload : Envelope)
         (results : list (gmap string pyval)) : M (list (gmap string pyval)) :=
  match webhooks with
  | [] => mret results
  | (wid, webhook) :: rest =>
      results ← loop_body wid webhook payload results;
      send_each rest payload results
  end.

(** The rows selected by [trigger_webhooks]: same form, active, and
    subscribed to the event. *)
Definition matching (form_id0 : string) (event : WebhookEvent) (t : Tables)
  : list (string * Webhook) :=
  filter (fun p => form_id p.2 = form_id0 ∧ active p.2 = true
                   ∧ event_value event ∈ events p.2)
         (map_to_list (webhooks t)).

(** [trigger_webhooks(db, form_id, event, payload)] *)
Definition trigger_webhooks (form_id0 : string) (event : WebhookEvent)
           (payload : list (string * pyval)) : M (list (gmap string pyval)) :=
  webhooks ← db_execute (matching form_id0 event);
  match webhooks with
  | [] => mret []
  | _ =>
      now ← utcnow;
      delivery ← uuid4;
      let webhook_payload :=
        {| env_event := event_value event;
           env_timestamp := isoformat now;
           env_form_id := form_id0;
           env_data := payload;
           env_delivery_id := delivery;
           env_source := "formerr_brunov7_beast_mode" |} in
      results ← send_each webhooks webhook_payload [];
      _ ← db_commit;
      mret results
  end.

(** The row selected by [test_webhook]: the webhook [webhook_id], joined
    with its form, when that form belongs to [owner]. *)
Definition owned_webhook (webhook_id : string) (owner : Z) (t : Tables) : option Webhook :=
  h ← webhooks t !! webhook_id;
  f ← forms t !! form_id h;
  if bool_decide (owner_id f = owner) then Some h else None.

(** [test_webhook(db, webhook_id, owner_id)] *)
Definition test_webhook (webhook_id : string) (owner : Z) : M (gmap string pyval) :=
  found ← db_execute (owned_webhook webhook_id owner);
  match found with
  | None => mret (dict [("success", PBool false); ("error", PStr "Webhook not found")])
  | Some webhook =>
      now ← utcnow;
      delivery ← uuid4;
      let test_payload :=
        {| env_event := "webhook.test";
           env_timestamp := isoformat now;
           env_form_id := form_id webhook;
           env_data := [("test", PBool true);
                        ("message", PStr "This is a test webhook from Formerr Beast Mode");
                        ("brunov7_says", PStr "🚀 WEBHOOK TEST SUCCESSFUL! 🚀")];
           env_delivery_id := delivery;
           env_source := "formerr_test_brunov7" |} in
      result ← _send_webhook webhook_id webhook test_payload;
      now ← utcnow;
      _ ← update_webhook webhook_id (with_last_triggered now);
      success ← getitem result "success";
      _ ← (if negb (truthy success)
           then update_webhook webhook_id (fun h => with_failure_count (failure_count h + 1) h)
           else mret tt);
      _ ← db_commit;
      mret result
  end.

(** ** [app/database/services.py] *)

(** [FormsService.increment_submission_count(db, form_id)] *)
Definition increment_submission_count (form_id0 : string) : M unit :=
  form ← db_execute (fun t => forms t !! form_id0);
  match form with
  | Some _ =>
      _ ← update_form form_id0 (fun f =>
            {| owner_id := owner_id f; submission_count := submission_count f + 1;
               last_submission := last_submission f |});
      now ← utcnow;
      _ ← update_form form_id0 (fun f =>
            {| owner_id := owner_id f; submission_count := submission_count f;
               last_submission := Some now |});
      db_commit
  | None => mret tt
  end.

(** [SubmissionsService.generate_submission_id()] *)
Definition generate_submission_id : M string :=
  now ← utcnow;
  u ← uuid4;
  mret ("sub_" +:+ strftime_compact now +:+ "_" +:+ String.substring 0 8 u).

(** [submitter_data.get(k) if submitter_data else None] *)
Definition submitter_get (submitter_data : option (gmap string pyval)) (k : string) : pyval :=
  match submitter_data with
  | Some d => default PNone (d !! k)
  | None => PNone
  end.

(** [SubmissionsService.create_submission(db, form_id, answers, submitter_data)];
    the answers are given as their dicts.  The result is the submission
    object, with its [id]. *)
Definition create_submission (form_id0 : string) (answers0 : list pyval)
           (submitter_data : option (gmap string pyval)) : M (string * Submission) :=
  submission_id ← generate_submission_id;
  let answers_dict := answers0 in
  now ← utcnow;
  let submission :=
    {| sub_form_id := form_id0;
       answers := answers_dict;
       submitter_email := submitter_get submitter_data "email";
       submitter_name := submitter_get submitter_data "name";
       submitter_ip_hash := submitter_get submitter_data "ip_hash";
       submitter_user_id := submitter_get submitter_data "user_id";
       submitted_at := now |} in
  _ ← db_add submission_id submission;
  _ ← db_commit;
  _ ← db_refresh;
  _ ← increment_submission_count form_id0;
  let webhook_payload :=
    [("submission_id", PStr submission_id);
     ("submitter_email", submitter_email submission);
     ("submitter_name", submitter_name submission);
     ("answers", PList (answers submission));
     ("submitted_at", PStr (isoformat (submitted_at submission)));
     ("total_answers", PInt (Z.of_nat (length (answers submission))))] in
  _ ← try_except
        (_ ← trigger_webhooks form_id0 SUBMISSION_CREATED webhook_payload; mret tt)
        (fun e => print ("🚨 Erro ao disparar webhooks: " +:+ str_exn e));
  mret (submission_id, submission).

End WithEnv.

(** * Derived notions, used to state and prove the properties *)

(** The request that [_send_webhook] posts once the envelope has been
    serialised to [body]. *)
Definition request_of (h : Webhook) (p : Envelope) (body : string) : Request :=
  {| req_url := url h;
     req_content := body;
     req_headers :=
       let headers : gmap string string :=
         list_to_map [("Content-Type", "application/json");
                      ("User-Agent", "Formerr-Webhooks/1.0 (BrunoV7)");
                      ("X-Formerr-Event", env_event p);
                      ("X-Formerr-Delivery", env_delivery_id p);
                      ("X-Formerr-Timestamp", env_timestamp p)] in
       if has_secret h
       then <["X-Formerr-Signature" := create_signature body (default "" (secret h))]> headers
       else headers |}.

(** The result dict built for each outcome of the POST. *)
Definition result_of (wid : string) (h : Webhook) (p : Envelope) (o : PostOutcome)
  : gmap string pyval :=
  match o with
  | Responded code ms =>
      dict [("webhook_id", PStr wid); ("success", PBool (code <? 400));
            ("status_code", PInt code); ("response_time_ms", PInt ms);
            ("url", PStr (url h)); ("delivery_id", PStr (env_delivery_id p))]
  | TimedOut _ =>
      dict [("webhook_id", PStr wid); ("success", PBool false);
            ("error", PStr "timeout"); ("url", PStr (url h))]
  | Failed _ m =>
      dict [("webhook_id", PStr wid); ("success", PBool false);
            ("error", PStr m); ("url", PStr (url h))]
  end.

(** The result dict built by the handler of [trigger_webhooks]. *)
Definition raised_result (wid : string) (h : Webhook) (e : exn) : gmap string pyval :=
  dict [("webhook_id", PStr wid); ("success", PBool false);
        ("error", PStr (str_exn e)); ("url", PStr (url h))].

Definition succeeded (o : PostOutcome) : bool :=
  match o with
  | Responded code _ => code <? 400
  | _ => false
  end.

(** The body sent for the envelope [p] when its [data] serialises to [d]. *)
Definition serialised (p : Envelope) (d : string) : string :=
  "{" +:+ Json.join ", "
            [Json.quote "event" +:+ ": " +:+ Json.quote (env_event p);
             Json.quote "timestamp" +:+ ": " +:+ Json.quote (env_timestamp p);
             Json.quote "form_id" +:+ ": " +:+ Json.quote (env_form_id p);
             Json.quote "data" +:+ ": " +:+ d;
             Json.quote "delivery_id" +:+ ": " +:+ Json.quote (env_delivery_id p);
             Json.quote "source" +:+ ": " +:+ Json.quote (env_source p)]
      +:+ "}".

(** What one iteration contributes, given how the envelope serialised
    ([ser]) and the number [n] of POSTs issued before it. *)
Definition attempt_result (env : Env) (ser : exn + string) (p : Envelope)
           (n : nat) (kh : string * Webhook) : gmap string pyval :=
  match ser with
  | inl e => raised_result kh.1 kh.2 e
  | inr body => result_of kh.1 kh.2 p (post_at env n (request_of kh.2 p body))
  end.

Definition attempt_ok (env : Env) (ser : exn + string) (p : Envelope)
           (n : nat) (kh : string * Webhook) : bool :=
  match ser with
  | inl _ => false
  | inr body => succeeded (post_at env n (request_of kh.2 p body))
  end.

Definition attempt_posts (ser : exn + string) (p : Envelope) (kh : string * Webhook)
  : list Request :=
  match ser with
  | inl _ => []
  | inr body => [request_of kh.2 p body]
  end.

(** The parts of the world that the loop leaves alone. *)
Definition same_outside_webhooks (w w' : World) : Prop :=
  stored w' = stored w ∧ pending w' = pending w ∧ db_calls w' = db_calls w
  ∧ stdout w' = stdout w ∧ uuid_draws w' = uuid_draws w
  ∧ forms (session w') = forms (session w)
  ∧ submissions (session w') = submissions (session w).

Definition db_error (m : string) : exn := PyException "SQLAlchemyError" m.

(** The envelope that [trigger_webhooks] builds when called in world [w]:
    one clock read and one uuid for the whole call. *)
Definition trigger_envelope (env : Env) (form_id0 : string) (event : WebhookEvent)
           (payload : list (string * pyval)) (w : World) : Envelope :=
  {| env_event := event_value event;
     env_timestamp := isoformat (utcnow_at env (clock_reads w));
     env_form_id := form_id0;
     env_data := payload;
     env_delivery_id := uuid4_at env (uuid_draws w);
     env_source := "formerr_brunov7_beast_mode" |}.

(** The results and the requests of one [trigger_webhooks] call in world
    [w], read off the rows it selects and the answers of the network. *)
Definition trigger_results (env : Env) (f : string) (ev : WebhookEvent)
           (pl : list (string * pyval)) (w : World) : list (gmap string pyval) :=
  imap (fun i => attempt_result env
                   (Json.dumps (envelope_dict (trigger_envelope env f ev pl w)))
                   (trigger_envelope env f ev pl w) (length (posts w) + i))
       (matching f ev (session w)).

Definition trigger_posts (env : Env) (f : string) (ev : WebhookEvent)
           (pl : list (string * pyval)) (w : World) : list Request :=
  concat (map (attempt_posts (Json.dumps (envelope_dict (trigger_envelope env f ev pl w)))
                             (trigger_envelope env f ev pl w))
              (matching f ev (session w))).

(** The world in which the loop of [trigger_webhooks] ends, before the commit. *)
Definition after_loop (env : Env) (f : string) (ev : WebhookEvent)
           (pl : list (string * pyval)) (w : World) : World :=
  (send_each env (matching f ev (session w)) (trigger_envelope env f ev pl w) []
             (draw (tick (bump_db w)))).2.

Module Scenario.

(** Form [form_42] has three webhooks: [wh_signed] (a secret, three past
    failures, an endpoint that answers 200), [wh_slow] (no secret, no
    past failure, an endpoint that times out) and [wh_other], which is
    subscribed to another event. *)
Definition wh_signed : Webhook :=
  {| form_id := "form_42"; url := "https://example.com/hook";
     events := ["submission.created"]; secret := Some "whsec_abc";
     active := true; last_triggered := None; failure_count := 3 |}.

Definition wh_slow : Webhook :=
  {| form_id := "form_42"; url := "https://slow.example/hook";
     events := ["submission.created"; "form.updated"]; secret := None;
     active := true; last_triggered := None; failure_count := 0 |}.

Definition wh_other : Webhook :=
  {| form_id := "form_42"; url := "https://other.example/hook";
     events := ["form.updated"]; secret := Some "whsec_xyz";
     active := true; last_triggered := None; failure_count := 0 |}.

Definition tables : Tables :=
  {| webhooks := list_to_map [("wh_signed", wh_signed); ("wh_slow", wh_slow);
                              ("wh_other", wh_other)];
     forms := {[ "form_42" := {| owner_id := 7; submission_count := 0;
                                  last_submission := None |} ]};
     submissions := ∅ |}.

Definition world : World :=
  {| stored := tables; session := tables; pending := [];
     clock_reads := 0; uuid_draws := 0; db_calls := 0; posts := []; stdout := [] |}.

Definition network (n : nat) (r : Request) : PostOutcome :=
  if String.eqb (req_url r) "https://slow.example/hook"
  then TimedOut "timed out"
  else Responded 200 12.

(** The n-th clock read is n seconds after 2025-01-02T03:04:00, and the
    n-th uuid ends in the digit n. *)
Definition env : Env :=
  {| utcnow_at := fun n => Datetime 2025 1 2 3 4 (Z.of_nat n) 0;
     uuid4_at := fun n => "3f2b8c1e-0000-4000-8000-00000000000" +:+ str_int (Z.of_nat n);
     post_at := network;
     db_fault_at := fun _ => None |}.

(** The same, but the second database call (the commit of
    [trigger_webhooks]) fails. *)
Definition env_commit_fails : Env :=
  {| utcnow_at := utcnow_at env; uuid4_at := uuid4_at env; post_at := network;
     db_fault_at := fun n => if Nat.eqb n 1 then Some "connection lost" else None |}.

(** The same, but every POST fails and every database call after the
    fifth fails too: in [create_submission] that is the commit at the
    end of [trigger_webhooks]. *)
Definition env_all_down : Env :=
  {| utcnow_at := utcnow_at env; uuid4_at := uuid4_at env;
     post_at := fun _ _ => Failed "ConnectError" "All connection attempts failed";
     db_fault_at := fun n => if Nat.leb 5 n then Some "connection lost" else None |}.

(** The same, but every endpoint answers 500. *)
Definition env_rejecting : Env :=
  {| utcnow_at := utcnow_at env; uuid4_at := uuid4_at env;
     post_at := fun _ _ => Responded 500 7;
     db_fault_at := fun _ => None |}.

Definition data : list (string * pyval) := [("submission_id", PStr "sub_1")].

(** The JSON text of [data]. *)
Definition data_text : string :=
  Eval vm_compute in
    match Json.dumps (PDict data) with inr d => d | inl _ => "" end.

Definition envelope : Envelope :=
  trigger_envelope env "form_42" SUBMISSION_CREATED data world.

End Scenario.

Definition is_lower_hex (c : ascii) : bool :=
  let n := byte_of_ascii c in
  ((48 <=? n) && (n <=? 57)) || ((97 <=? n) && (n <=? 102)).

(** No field of a result dict holds the string [v]. *)
Definition no_field_holds (v : string) (r : gmap string pyval) : Prop :=
  ∀ k, r !! k ≠ Some (PStr v).

Definition test_data : list (string * pyval) :=
  [("test", PBool true);
   ("message", PStr "This is a test webhook from Formerr Beast Mode");
   ("brunov7_says", PStr "🚀 WEBHOOK TEST SUCCESSFUL! 🚀")].

(** The JSON text of [test_data]. *)
Definition test_data_text : string :=
  Eval vm_compute in match Json.dumps (PDict test_data) with inr d => d | inl _ => "" end.

(** The envelope that [test_webhook] builds for the webhook [h] in world [w]. *)
Definition test_envelope (env : Env) (h : Webhook) (w : World) : Envelope :=
  {| env_event := "webhook.test";
     env_timestamp := isoformat (utcnow_at env (clock_reads w));
     env_form_id := form_id h;
     env_data := test_data;
     env_delivery_id := uuid4_at env (uuid_draws w);
     env_source := "formerr_test_brunov7" |}.

(** The world in which [test_webhook] reaches its commit. *)
Definition test_before_commit (env : Env) (wid : string) (h : Webhook) (w : World) : World :=
  let p := test_envelope env h w in
  let r := request_of h p (serialised p test_data_text) in
  let w2 := alter_webhook wid (with_last_triggered (utcnow_at env (S (clock_reads w))))
              (tick (log_post r (draw (tick (bump_db w))))) in
  if succeeded (post_at env (length (posts w)) r)
  then w2
  else alter_webhook wid (fun x => with_failure_count (failure_count x + 1) x) w2.

Definition test_result (env : Env) (wid : string) (h : Webhook) (w : World)
  : gmap string pyval :=
  let p := test_envelope env h w in
  result_of wid h p (post_at env (length (posts w))
                       (request_of h p (serialised p test_data_text))).

(** The id and the row that [create_submission] makes in world [w]. *)
Definition new_submission_id (env : Env) (w : World) : string :=
  "sub_" +:+ strftime_compact (utcnow_at env (clock_reads w)) +:+ "_"
  +:+ String.substring 0 8 (uuid4_at env (uuid_draws w)).

Definition new_submission (env : Env) (f : string) (answers0 : list pyval)
           (sd : option (gmap string pyval)) (w : World) : Submission :=
  {| sub_form_id := f;
     answers := answers0;
     submitter_email := submitter_get sd "email";
     submitter_name := submitter_get sd "name";
     submitter_ip_hash := submitter_get sd "ip_hash";
     submitter_user_id := submitter_get sd "user_id";
     submitted_at := utcnow_at env (S (clock_reads w)) |}.

(** * More of the services *)

(** ** The rest of [WebhookService] ([app/webhooks/service.py]) *)

(** [uuid.UUID.hex]: the text of the uuid without its dashes. *)
Definition uuid_hex (u : string) : string :=
  string_of_list_ascii
    (List.filter (fun c => negb (Ascii.eqb c "-")) (list_ascii_of_string u)).

(** [class WebhookCreate(BaseModel)] of [app/webhooks/models.py]; the url
    is given as its text, [str(webhook_data.url)]. *)
Record WebhookCreate : Type := {
  wc_url : string;
  wc_events : list WebhookEvent;
  wc_secret : option string;
  wc_active : bool
}.

(** The row selected by the ownership checks: the form [form_id0] when it
    belongs to [owner]. *)
Definition owned_form (form_id0 : string) (owner : Z) (t : Tables) : option Form :=
  f ← forms t !! form_id0;
  if bool_decide (owner_id f = owner) then Some f else None.

(** The rows of [select(Webhook).where(Webhook.form_id == form_id)]. *)
Definition form_webhooks (form_id0 : string) (t : Tables) : list (string * Webhook) :=
  filter (fun p => form_id p.2 = form_id0) (map_to_list (webhooks t)).

Definition insert_webhook (wid : string) (h : Webhook) (w : World) : World :=
  set_session (set_webhooks (<[wid := h]> (webhooks (session w))) (session w)) w.

Section MoreServices.

Variable env : Env.

(** [generate_webhook_id()] *)
Definition generate_webhook_id : M string :=
  now ← utcnow env;
  u ← uuid4 env;
  mret ("webhook_" +:+ strftime_compact now +:+ "_" +:+ String.substring 0 8 u).

(** [generate_secret()] *)
Definition generate_secret : M string :=
  u ← uuid4 env;
  mret ("whsec_" +:+ String.substring 0 32 (uuid_hex u)).

(** [db.add(webhook)] followed by [await db.commit()].  Adding has no
    effect of its own before the flush; the commit inserts the row unless
    its primary key is already stored, and makes the session durable. *)
Definition db_add_commit_webhook (wid : string) (h : Webhook) : M unit :=
  _ ← db_call env;
  taken ← gets (fun w => bool_decide (is_Some (webhooks (stored w) !! wid)));
  if (taken : bool)
  then raise (PyException "IntegrityError" "duplicate key")
  else (_ ← modify (insert_webhook wid h); flush).

(** [create_webhook(db, form_id, webhook_data, owner_id)].  The result is
    the new webhook object with its [id]; [failure_count] and
    [last_triggered] hold the column defaults that the refresh loads. *)
Definition create_webhook (form_id0 : string) (webhook_data : WebhookCreate) (owner : Z)
  : M (option (string * Webhook)) :=
  form ← db_execute env (owned_form form_id0 owner);
  match form with
  | None => mret None
  | Some _ =>
      webhook_id ← generate_webhook_id;
      secret0 ← (match wc_secret webhook_data with
                 | Some s => if negb (String.eqb s "") then mret s else generate_secret
                 | None => generate_secret
                 end);
      _created_at ← utcnow env;
      let webhook :=
        {| form_id := form_id0;
           url := wc_url webhook_data;
           events := map event_value (wc_events webhook_data);
           secret := Some secret0;
           active := wc_active webhook_data;
           last_triggered := None;
           failure_count := 0 |} in
      _ ← db_add_commit_webhook webhook_id webhook;
      _ ← db_refresh env;
      mret (Some (webhook_id, webhook))
  end.

(** [get_form_webhooks(db, form_id, owner_id)] *)
Definition get_form_webhooks (form_id0 : string) (owner : Z) : M (list (string * Webhook)) :=
  form ← db_execute env (owned_form form_id0 owner);
  match form with
  | None => mret []
  | Some _ => db_execute env (form_webhooks form_id0)
  end.

(** [FormsService.generate_form_id()] of [app/database/services.py] *)
Definition generate_form_id : M string :=
  now ← utcnow env;
  u ← uuid4 env;
  mret ("form_" +:+ strftime_compact now +:+ "_" +:+ String.substring 0 8 u).

End MoreServices.

(** ** [app/public/routes.py] *)

(** [hash_ip(ip)] *)
Definition hash_ip (ip : string) : string :=
  String.substring 0 16 (hex (SHA256.digest (encode_utf8 ip))).

(** ** [app/webhooks/routes.py] *)

(** [for event in WebhookEvent]: the members in the order of the class. *)
Definition all_events : list WebhookEvent :=
  [SUBMISSION_CREATED; SUBMISSION_UPDATED; FORM_CREATED;
   FORM_UPDATED; FORM_DELETED; USER_REGISTERED].

(** The dict literal of descriptions in [list_webhook_events]. *)
Definition event_descriptions : gmap string string :=
  list_to_map
    [("submission.created", "Disparado quando uma nova resposta é submetida");
     ("submission.updated", "Disparado quando uma resposta é atualizada");
     ("form.created", "Disparado quando um formulário é criado");
     ("form.updated", "Disparado quando um formulário é atualizado");
     ("form.deleted", "Disparado quando um formulário é deletado");
     ("user.registered", "Disparado quando um usuário se registra")].

Definition event_entry (event : WebhookEvent) : pyval :=
  PDict [("name", PStr (event_value event));
         ("description",
          PStr (default "Evento webhook" (event_descriptions !! event_value event)))].

Definition webhook_guide : list (string * pyval) :=
  [("signature_header", PStr "X-Formerr-Signature");
   ("event_header", PStr "X-Formerr-Event");
   ("delivery_header", PStr "X-Formerr-Delivery");
   ("timestamp_header", PStr "X-Formerr-Timestamp");
   ("user_agent", PStr "Formerr-Webhooks/1.0 (BrunoV7)")].

Definition example_payload : list (string * pyval) :=
  [("event", PStr "submission.created");
   ("timestamp", PStr "2025-06-18T03:44:14Z");
   ("form_id", PStr "form_20250618_034414_abc123");
   ("data",
    PDict [("submission_id", PStr "sub_20250618_034414_xyz789");
           ("submitter_email", PStr "test@example.com");
           ("answers",
            PList [PDict [("question_id", PStr "q1");
                          ("question_type", PStr "text");
                          ("value", PStr "João Silva")]])]);
   ("delivery_id", PStr "del_uuid_here");
   ("source", PStr "formerr_brunov7_beast_mode")].

(** [list_webhook_events()] *)
Definition list_webhook_events : list (string * pyval) :=
  let events := map event_entry all_events in
  [("success", PBool true);
   ("events", PList events);
   ("total_events", PInt (Z.of_nat (length events)));
   ("webhook_guide", PDict webhook_guide);
   ("example_payload", PDict example_payload)].

(** * Derived notions for the further properties *)

(** The row of a visited webhook after its iteration of the loop of
    [trigger_webhooks]: [n] POSTs and [c] clock reads were made before it. *)
Definition row_after (env : Env) (ser : exn + string) (p : Envelope) (n c : nat)
           (kh : string * Webhook) (x : Webhook) : Webhook :=
  match ser with
  | inl _ => with_failure_count (failure_count x + 1) x
  | inr body =>
      if succeeded (post_at env n (request_of kh.2 p body))
      then with_failure_count 0 (with_last_triggered (utcnow_at env c) x)
      else with_failure_count (failure_count x + 1) (with_last_triggered (utcnow_at env c) x)
  end.

(** Two rows that differ at most in their delivery statistics. *)
Definition same_config (h h' : Webhook) : Prop :=
  form_id h' = form_id h ∧ url h' = url h ∧ events h' = events h
  ∧ secret h' = secret h ∧ active h' = active h.

(** The id, the secret and the row that [create_webhook] makes in world [w]. *)
Definition new_webhook_id (env : Env) (w : World) : string :=
  "webhook_" +:+ strftime_compact (utcnow_at env (clock_reads w)) +:+ "_"
  +:+ String.substring 0 8 (uuid4_at env (uuid_draws w)).

Definition secret_given (wc : WebhookCreate) : bool :=
  match wc_secret wc with
  | Some s => negb (String.eqb s "")
  | None => false
  end.

Definition new_webhook_secret (env : Env) (wc : WebhookCreate) (w : World) : string :=
  if secret_given wc
  then default "" (wc_secret wc)
  else "whsec_" +:+ String.substring 0 32 (uuid_hex (uuid4_at env (S (uuid_draws w)))).

Definition new_webhook (env : Env) (f : string) (wc : WebhookCreate) (w : World) : Webhook :=
  {| form_id := f;
     url := wc_url wc;
     events := map event_value (wc_events wc);
     secret := Some (new_webhook_secret env wc w);
     active := wc_active wc;
     last_triggered := None;
     failure_count := 0 |}.

(** The world in which [create_webhook] reaches its commit. *)
Definition before_add (wc : WebhookCreate) (w : World) : World :=
  tick ((if secret_given wc then (fun x => x) else draw) (draw (tick (bump_db w)))).

(** The dict that [create_submission] hands to [trigger_webhooks]. *)
Definition submission_payload (sid : string) (s : Submission) : list (string * pyval) :=
  [("submission_id", PStr sid);
   ("submitter_email", submitter_email s);
   ("submitter_name", submitter_name s);
   ("answers", PList (answers s));
   ("submitted_at", PStr (isoformat (submitted_at s)));
   ("total_answers", PInt (Z.of_nat (length (answers s))))].

(** The world in which [create_submission] reaches its first commit. *)
Definition before_save (env : Env) (f : string) (answers0 : list pyval)
           (sd : option (gmap string pyval)) (w : World) : World :=
  add_pending (new_submission_id env w) (new_submission env f answers0 sd w)
              (tick (draw (tick w))).

(** The form row after one more submission, counted at clock reading [now]. *)
Definition counted (now : datetime) (f : Form) : Form :=
  {| owner_id := owner_id f; submission_count := submission_count f + 1;
     last_submission := Some now |}.

(** The text of a string is made of lowercase hexadecimal digits. *)
Definition lower_hex (s : string) : Prop :=
  Forall (fun c => is_lower_hex c = true) (list_ascii_of_string s).

(** [n] successive calls of [trigger_webhooks] for the same form and event. *)
Fixpoint dispatch_times (env : Env) (f : string) (ev : WebhookEvent)
         (pl : list (string * pyval)) (n : nat) (w : World) : World :=
  match n with
  | O => w
  | S n' => dispatch_times env f ev pl n' (trigger_webhooks env f ev pl w).2
  end.

(** What of the clock and of the uuid enters a generated id: the time text
    to the second and the first eight characters of the uuid. *)
Definition id_parts (env : Env) (w : World) : string * string :=
  (strftime_compact (utcnow_at env (clock_reads w)),
   String.substring 0 8 (uuid4_at env (uuid_draws w))).

(** ** Further cases of the scenario *)

Module Cases.

(** The only form of the scenario. *)
Definition form_42 : Form :=
  {| owner_id := 7; submission_count := 0; last_submission := None |}.

(** A request to create a webhook without a secret. *)
Definition hook_request : WebhookCreate :=
  {| wc_url := "https://new.example/hook"; wc_events := [SUBMISSION_CREATED];
     wc_secret := None; wc_active := true |}.

(** The world after user 7 has created that webhook. *)
Definition world_with_hook : World :=
  (create_webhook Scenario.env "form_42" hook_request 7 Scenario.world).2.

(** A payload holding a [datetime], which [json.dumps] refuses. *)
Definition opaque_payload : list (string * pyval) :=
  [("submitted_at", PObject "datetime")].

(** A database that fails at every call. *)
Definition env_db_down : Env :=
  {| utcnow_at := utcnow_at Scenario.env; uuid4_at := uuid4_at Scenario.env;
     post_at := Scenario.network;
     db_fault_at := fun _ => Some "connection refused" |}.

(** The scenario with a submission already stored under the id that the
    next [create_submission] generates. *)
Definition old_submission : Submission :=
  {| sub_form_id := "form_42"; answers := []; submitter_email := PNone;
     submitter_name := PNone; submitter_ip_hash := PNone; submitter_user_id := PNone;
     submitted_at := Datetime 2025 1 2 3 4 0 250000 |}.

Definition tables_taken : Tables :=
  set_submissions {[ "sub_20250102_030400_3f2b8c1e" := old_submission ]} Scenario.tables.

Definition world_taken : World :=
  {| stored := tables_taken; session := tables_taken; pending := [];
     clock_reads := 0; uuid_draws := 0; db_calls := 0; posts := []; stdout := [] |}.

End Cases.

(** Case analysis on membership in a list literal. *)
Ltac list_member_cases H :=
  repeat (apply elem_of_cons in H as [H|H]; [try discriminate H|]);
  try (apply elem_of_nil in H; contradiction).

(** * Properties *)

(** ** Test vectors and examples of the library models *)

Example sha256_abc :
  hex (SHA256.digest (encode_utf8 "abc"))
  = "ba7816bf8f01cfea414140de5dae2223b00361a396177a9cb410ff61f20015ad".
Proof. vm_compute. reflexivity. Qed.

Example sha256_empty :
  hex (SHA256.digest [])
  = "e3b0c44298fc1c149afbf4c8996fb92427ae41e4649b934ca495991b7852b855".
Proof. vm_compute. reflexivity. Qed.

Example hmac_rfc4231_case2 :
  HMAC.hexdigest (encode_utf8 "Jefe") (encode_utf8 "what do ya want for nothing?")
  = "5bdcc146bf60754e6a042426089575c75a003f089d2739839dec58b964ec3843".
Proof. vm_compute. reflexivity. Qed.

Example dumps_example :
  Json.dumps (PDict [("a", PInt (-12)); ("b", PList [PBool true; PNone; PStr "x\y"]); ("c", PDict [])])
  = inr ("{" +:+ Json.dq +:+ "a" +:+ Json.dq +:+ ": -12, "
             +:+ Json.dq +:+ "b" +:+ Json.dq +:+ ": [true, null, "
             +:+ Json.dq +:+ "x\\y" +:+ Json.dq +:+ "], "
             +:+ Json.dq +:+ "c" +:+ Json.dq +:+ ": {}}").
Proof. vm_compute. reflexivity. Qed.

Example dumps_raises :
  Json.dumps (PList [PInt 1; PObject "datetime"])
  = inl (PyException "TypeError" "Object of type datetime is not JSON serializable").
Proof. vm_compute. reflexivity. Qed.

Example isoformat_example :
  isoformat (Datetime 2025 6 3 9 5 0 1234) = "2025-06-03T09:05:00.001234".
Proof. vm_compute. reflexivity. Qed.

(** ** Symbolic execution of one delivery *)

Lemma _send_webhook_run env wid h p w :
  _send_webhook env wid h p w =
  match Json.dumps (envelope_dict p) with
  | inl e => (inl e, w)
  | inr body =>
      let r := request_of h p body in
      (inr (result_of wid h p (post_at env (length (posts w)) r)), log_post r w)
  end.
Proof.
  unfold _send_webhook, mbind, M_bind, lift.
  destruct (Json.dumps (envelope_dict p)) as [e|body]; [reflexivity|].
  unfold mret, M_ret, try_except, http_post, request_of, log_post; cbn beta iota.
  destruct (post_at env _ _) as [code ms|m|c m]; reflexivity.
Qed.

Lemma result_success wid h p o :
  result_of wid h p o !! "success" = Some (PBool (succeeded o)).
Proof. destruct o; reflexivity. Qed.

Lemma loop_body_run env wid h p results w :
  loop_body env wid h p results w =
  match Json.dumps (envelope_dict p) with
  | inl e =>
      (inr (results ++ [raised_result wid h e]),
       alter_webhook wid (fun x => with_failure_count (failure_count x + 1) x) w)
  | inr body =>
      let r := request_of h p body in
      let o := post_at env (length (posts w)) r in
      let w1 := log_post r w in
      (inr (results ++ [result_of wid h p o]),
       alter_webhook wid
         (fun x => if succeeded o then with_failure_count 0 x
                   else with_failure_count (failure_count x + 1) x)
         (alter_webhook wid (with_last_triggered (utcnow_at env (clock_reads w1))) (tick w1)))
  end.
Proof.
  unfold loop_body, try_except, mbind, M_bind.
  rewrite _send_webhook_run.
  destruct (Json.dumps (envelope_dict p)) as [e|body]; [reflexivity|].
  cbn zeta. unfold getitem. rewrite result_success.
  destruct (post_at env _ _) as [code ms|m|c m]; cbn [succeeded truthy negb];
    [destruct (code <? 400)|..]; reflexivity.
Qed.

(** ** Serialising the envelope *)

Lemma dumps_dict kvs :
  Json.dumps (PDict kvs)
  = Json.enclose "{" "}"
      (Json.collect (map (fun kv => Json.keyed (fst kv) (Json.dumps (snd kv))) kvs)).
Proof. reflexivity. Qed.

(** The envelope serialises exactly when its [data] does. *)
Lemma dumps_envelope p :
  Json.dumps (envelope_dict p) =
  match Json.dumps (PDict (env_data p)) with
  | inl e => inl e
  | inr d => inr (serialised p d)
  end.
Proof.
  unfold envelope_dict. rewrite (dumps_dict (_ :: _)).
  cbn [map fst snd].
  change (Json.dumps (PStr ?s)) with (@inr exn string (Json.quote s)).
  cbn [Json.keyed].
  destruct (Json.dumps (PDict (env_data p))) as [e|d]; reflexivity.
Qed.

(** ** The loop *)

Lemma same_outside_refl w : same_outside_webhooks w w.
Proof. repeat split. Qed.

Lemma same_outside_trans w1 w2 w3 :
  same_outside_webhooks w1 w2 → same_outside_webhooks w2 w3 → same_outside_webhooks w1 w3.
Proof.
  unfold same_outside_webhooks. intros (?&?&?&?&?&?&?) (?&?&?&?&?&?&?).
  repeat split; congruence.
Qed.

Lemma loop_body_spec env wid h p results w :
  ∃ w', loop_body env wid h p results w
        = (inr (results ++ [attempt_result env (Json.dumps (envelope_dict p)) p
                              (length (posts w)) (wid, h)]), w')
        ∧ posts w' = posts w ++ attempt_posts (Json.dumps (envelope_dict p)) p (wid, h)
        ∧ same_outside_webhooks w w'
        ∧ ∃ g, webhooks (session w') = alter g wid (webhooks (session w))
               ∧ ∀ x, failure_count (g x)
                      = if attempt_ok env (Json.dumps (envelope_dict p)) p
                             (length (posts w)) (wid, h)
                        then 0 else failure_count x + 1.
Proof.
  rewrite loop_body_run.
  destruct (Json.dumps (envelope_dict p)) as [e|body].
  - eexists. split; [reflexivity|]. cbn. rewrite app_nil_r.
    split; [reflexivity|]. split; [repeat split|].
    eexists. split; [reflexivity|]. reflexivity.
  - cbn zeta. eexists. split; [reflexivity|].
    split; [reflexivity|]. split; [repeat split|].
    eexists. split.
    + cbn. rewrite alter_alter_eq. reflexivity.
    + intros x. cbn. destruct (succeeded _); reflexivity.
Qed.

Lemma send_each_spec env p ws : ∀ results w,
  ∃ w', send_each env ws p results w
        = (inr (results ++ imap (fun i => attempt_result env (Json.dumps (envelope_dict p)) p
                                            (length (posts w) + i)) ws), w')
        ∧ posts w' = posts w ++ concat (map (attempt_posts (Json.dumps (envelope_dict p)) p) ws)
        ∧ same_outside_webhooks w w'.
Proof.
  remember (Json.dumps (envelope_dict p)) as ser eqn:Hser.
  induction ws as [|[wid h] ws IH]; intros results w.
  - exists w. cbn. rewrite !app_nil_r. auto using same_outside_refl.
  - cbn [send_each]. unfold mbind, M_bind.
    pose proof (loop_body_spec env wid h p results w) as Hbody.
    rewrite <- Hser in Hbody. destruct Hbody as (w1 & -> & Hp1 & Hs1 & _).
    destruct (IH (results ++ [attempt_result env ser p (length (posts w)) (wid, h)]) w1)
      as (w' & -> & Hp & Hs).
    exists w'. split; [|split].
    + rewrite <- app_assoc. cbn [imap app]. rewrite Nat.add_0_r.
      do 4 f_equal. apply imap_ext. intros i kh _. unfold compose.
      destruct ser as [e|body]; [reflexivity|].
      unfold attempt_result. rewrite Hp1. cbn [attempt_posts].
      rewrite length_app. cbn [length].
      rewrite <- Nat.add_assoc. reflexivity.
    + rewrite Hp, Hp1. cbn [map concat]. rewrite app_assoc. reflexivity.
    + eauto using same_outside_trans.
Qed.

Lemma attempt_ok_shift env ser p w w1 kh0 i kh :
  posts w1 = posts w ++ attempt_posts ser p kh0 →
  attempt_ok env ser p (length (posts w1) + i) kh
  = attempt_ok env ser p (length (posts w) + S i) kh.
Proof.
  intros Hp. destruct ser as [e|body]; [reflexivity|].
  unfold attempt_ok. rewrite Hp. cbn [attempt_posts].
  rewrite length_app. cbn [length].
  rewrite <- Nat.add_assoc. reflexivity.
Qed.

(** The loop changes the failure counter of each webhook it visits exactly
    once, and of no other webhook.  The keys of the visited rows are
    distinct, as primary keys are. *)
Lemma send_each_counts env p ws : ∀ results w,
  NoDup ws.*1 →
  let w' := (send_each env ws p results w).2 in
  (∀ k, k ∉ ws.*1 → webhooks (session w') !! k = webhooks (session w) !! k)
  ∧ (∀ i k h, ws !! i = Some (k, h) →
       ∃ g, webhooks (session w') !! k = g <$> webhooks (session w) !! k
            ∧ ∀ x, failure_count (g x)
                   = if attempt_ok env (Json.dumps (envelope_dict p)) p
                          (length (posts w) + i) (k, h)
                     then 0 else failure_count x + 1).
Proof.
  remember (Json.dumps (envelope_dict p)) as ser eqn:Hser.
  induction ws as [|[wid h] ws IH]; intros results w Hnd; cbn zeta.
  - split; [reflexivity|]. intros i k h Hi. rewrite lookup_nil in Hi. discriminate.
  - rewrite fmap_cons in Hnd. apply NoDup_cons in Hnd as [Hwid Hnd].
    cbn [send_each]. unfold mbind, M_bind.
    pose proof (loop_body_spec env wid h p results w) as Hbody.
    rewrite <- Hser in Hbody.
    destruct Hbody as (w1 & -> & Hp1 & _ & g & Hg & Hcount).
    specialize (IH (results ++ [attempt_result env ser p (length (posts w)) (wid, h)]) w1 Hnd).
    cbn zeta in IH. destruct IH as [IHframe IHcount].
    split.
    + intros k Hk. rewrite fmap_cons, not_elem_of_cons in Hk. destruct Hk as [Hne Hk].
      rewrite (IHframe k Hk), Hg. apply lookup_alter_ne. intros ->. apply Hne. reflexivity.
    + intros [|i] k h' Hi.
      * cbn in Hi. injection Hi as <- <-.
        exists g. split.
        -- rewrite (IHframe wid Hwid), Hg. apply lookup_alter_eq.
        -- intros x. rewrite Nat.add_0_r. apply Hcount.
      * cbn in Hi.
        assert (k ∈ ws.*1) as Hin.
        { apply list_elem_of_fmap. exists (k, h'). split; [reflexivity|].
          eapply list_elem_of_lookup_2; eassumption. }
        destruct (IHcount i k h' Hi) as (g' & Hg' & Hcount').
        exists g'. split.
        -- rewrite Hg', Hg. f_equal. apply lookup_alter_ne. intros ->. contradiction.
        -- intros x. rewrite (Hcount' x).
           rewrite (attempt_ok_shift env ser p w w1 (wid, h) i (k, h') Hp1). reflexivity.
Qed.

(** ** Symbolic execution of [trigger_webhooks] *)

Lemma db_call_run env w :
  db_call env w
  = (match db_fault_at env (db_calls w) with
     | Some m => inl (db_error m)
     | None => inr tt
     end, bump_db w).
Proof. unfold db_call. destruct (db_fault_at env (db_calls w)); reflexivity. Qed.

Lemma db_commit_run env w :
  db_commit env w
  = match db_fault_at env (db_calls w) with
    | Some m => (inl (db_error m), bump_db w)
    | None => flush (bump_db w)
    end.
Proof.
  unfold db_commit, mbind, M_bind. rewrite db_call_run.
  destruct (db_fault_at env (db_calls w)); reflexivity.
Qed.

(** With nothing added to the session, a flush cannot fail: it makes the
    session's rows the stored ones. *)
Lemma flush_no_pending w :
  pending w = [] →
  ∃ w', flush w = (inr tt, w') ∧ stored w' = session w ∧ session w' = session w
        ∧ pending w' = [] ∧ posts w' = posts w ∧ stdout w' = stdout w
        ∧ db_calls w' = db_calls w ∧ clock_reads w' = clock_reads w
        ∧ uuid_draws w' = uuid_draws w.
Proof.
  intros Hp. unfold flush. rewrite Hp. cbn [existsb foldl].
  eexists. split; [reflexivity|]. cbn.
  destruct (session w); repeat split.
Qed.

Lemma trigger_webhooks_run env f ev pl w :
  trigger_webhooks env f ev pl w
  = match db_fault_at env (db_calls w) with
    | Some m => (inl (db_error m), bump_db w)
    | None =>
        match matching f ev (session w) with
        | [] => (inr [], bump_db w)
        | ws =>
            let sent := send_each env ws (trigger_envelope env f ev pl w) []
                                  (draw (tick (bump_db w))) in
            match sent.1 with
            | inl e => (inl e, sent.2)
            | inr results =>
                match db_commit env sent.2 with
                | (inl e, w') => (inl e, w')
                | (inr _, w') => (inr results, w')
                end
            end
        end
    end.
Proof.
  unfold trigger_webhooks, db_execute, mbind, M_bind. rewrite db_call_run.
  destruct (db_fault_at env (db_calls w)) as [m|]; [reflexivity|].
  unfold gets. cbn [bump_db session].
  destruct (matching f ev (session w)) as [|kh ws]; [reflexivity|].
  cbn [utcnow uuid4 clock_reads uuid_draws bump_db].
  change (send_each env (kh :: ws) _ [] _)
    with (send_each env (kh :: ws) (trigger_envelope env f ev pl w) []
                    (draw (tick (bump_db w)))).
  destruct (send_each env (kh :: ws) (trigger_envelope env f ev pl w) []
                      (draw (tick (bump_db w)))) as [[e|results] w4]; [reflexivity|].
  cbn [fst snd]. destruct (db_commit env w4) as [[e|[]] w5]; reflexivity.
Qed.

Lemma after_loop_spec env f ev pl w :
  posts (after_loop env f ev pl w) = posts w ++ trigger_posts env f ev pl w
  ∧ stored (after_loop env f ev pl w) = stored w
  ∧ pending (after_loop env f ev pl w) = pending w
  ∧ db_calls (after_loop env f ev pl w) = S (db_calls w)
  ∧ stdout (after_loop env f ev pl w) = stdout w
  ∧ forms (session (after_loop env f ev pl w)) = forms (session w)
  ∧ submissions (session (after_loop env f ev pl w)) = submissions (session w).
Proof.
  unfold after_loop, trigger_posts.
  destruct (send_each_spec env (trigger_envelope env f ev pl w)
              (matching f ev (session w)) [] (draw (tick (bump_db w))))
    as (w4 & -> & Hp & Hs & Hpe & Hdb & Hout & _ & Hf & Hsub).
  cbn [snd]. repeat split; assumption.
Qed.

(** When the select does not fail and rows match, the call is the loop
    followed by the commit; the loop itself never raises. *)
Lemma trigger_webhooks_commit env f ev pl w :
  db_fault_at env (db_calls w) = None →
  matching f ev (session w) ≠ [] →
  trigger_webhooks env f ev pl w
  = match db_commit env (after_loop env f ev pl w) with
    | (inl e, w') => (inl e, w')
    | (inr _, w') => (inr (trigger_results env f ev pl w), w')
    end.
Proof.
  intros Hsel Hne. rewrite trigger_webhooks_run, Hsel.
  unfold after_loop, trigger_results.
  destruct (matching f ev (session w)) as [|kh ws] eqn:Hws; [contradiction|].
  destruct (send_each_spec env (trigger_envelope env f ev pl w) (kh :: ws) []
                           (draw (tick (bump_db w)))) as (w4 & -> & _).
  reflexivity.
Qed.

Lemma trigger_webhooks_none env f ev pl w :
  db_fault_at env (db_calls w) = None →
  matching f ev (session w) = [] →
  trigger_webhooks env f ev pl w = (inr [], bump_db w).
Proof. intros Hsel Hws. rewrite trigger_webhooks_run, Hsel, Hws. reflexivity. Qed.

(** A commit that the database accepts, with nothing added to the session. *)
Lemma db_commit_ok env w :
  db_fault_at env (db_calls w) = None → pending w = [] →
  ∃ w', db_commit env w = (inr tt, w') ∧ stored w' = session w ∧ session w' = session w
        ∧ pending w' = [] ∧ posts w' = posts w ∧ stdout w' = stdout w.
Proof.
  intros Hc Hp. rewrite db_commit_run, Hc.
  destruct (flush_no_pending (bump_db w) Hp) as (w' & -> & ? & ? & ? & ? & ? & _).
  exists w'. repeat split; assumption.
Qed.

Lemma attempt_result_id env ser p n kh :
  attempt_result env ser p n kh !! "webhook_id" = Some (PStr kh.1).
Proof.
  unfold attempt_result. destruct ser; [reflexivity|].
  destruct (post_at env n _); reflexivity.
Qed.

Lemma trigger_results_ids env f ev pl w :
  (fun r : gmap string pyval => r !! "webhook_id") <$> trigger_results env f ev pl w
  = (fun kh : string * Webhook => Some (PStr kh.1)) <$> matching f ev (session w).
Proof.
  unfold trigger_results. apply list_eq. intros i.
  rewrite !list_lookup_fmap, list_lookup_imap.
  destruct (matching f ev (session w) !! i) as [kh|]; [|reflexivity].
  cbn. rewrite attempt_result_id. reflexivity.
Qed.

(** An exception that leaves [trigger_webhooks] is the one of a database
    call: the select, the commit, or the flush of a duplicate key. *)
Lemma trigger_webhooks_raises env f ev pl w e w' :
  trigger_webhooks env f ev pl w = (inl e, w') →
  (∃ m, e = PyException "SQLAlchemyError" m
        ∧ (db_fault_at env (db_calls w) = Some m
           ∨ db_fault_at env (S (db_calls w)) = Some m))
  ∨ (e = PyException "IntegrityError" "duplicate key" ∧ pending w ≠ []).
Proof.
  intros Hrun.
  destruct (db_fault_at env (db_calls w)) as [m|] eqn:Hsel.
  { rewrite trigger_webhooks_run, Hsel in Hrun. injection Hrun as <- _.
    left. exists m. auto. }
  destruct (matching f ev (session w)) as [|kh ws] eqn:Hws.
  { rewrite trigger_webhooks_none in Hrun by assumption. discriminate Hrun. }
  rewrite trigger_webhooks_commit in Hrun by (rewrite ?Hws; done).
  destruct (after_loop_spec env f ev pl w) as (_ & _ & Hpe & Hdb & _).
  rewrite db_commit_run, Hdb in Hrun.
  destruct (db_fault_at env (S (db_calls w))) as [m|] eqn:Hcommit.
  { injection Hrun as <- _. left. exists m. auto. }
  unfold flush in Hrun. cbn [pending stored bump_db] in Hrun.
  destruct (existsb _ (pending (after_loop env f ev pl w))) eqn:Hdup.
  - injection Hrun as <- _. right. split; [reflexivity|].
    intros Hnil. rewrite Hpe, Hnil in Hdup. discriminate Hdup.
  - discriminate Hrun.
Qed.

(** ** A concrete scenario *)

Example scenario_matching :
  (matching "form_42" SUBMISSION_CREATED Scenario.tables).*1 = ["wh_signed"; "wh_slow"]
  ∨ (matching "form_42" SUBMISSION_CREATED Scenario.tables).*1 = ["wh_slow"; "wh_signed"].
Proof. vm_compute. auto. Qed.

(** ** What is put on the wire *)

Lemma flush_log w : posts (flush w).2 = posts w ∧ stdout (flush w).2 = stdout w.
Proof. unfold flush. destruct (existsb _ _); split; reflexivity. Qed.

Lemma db_commit_log env w :
  posts (db_commit env w).2 = posts w ∧ stdout (db_commit env w).2 = stdout w.
Proof.
  rewrite db_commit_run. destruct (db_fault_at env (db_calls w)).
  - split; reflexivity.
  - apply (flush_log (bump_db w)).
Qed.

Lemma trigger_webhooks_log env f ev pl w :
  db_fault_at env (db_calls w) = None →
  posts (trigger_webhooks env f ev pl w).2 = posts w ++ trigger_posts env f ev pl w
  ∧ stdout (trigger_webhooks env f ev pl w).2 = stdout w.
Proof.
  intros Hsel.
  destruct (matching f ev (session w)) as [|kh ws] eqn:Hws.
  - rewrite trigger_webhooks_none by assumption.
    unfold trigger_posts. rewrite Hws. cbn. rewrite app_nil_r. split; reflexivity.
  - rewrite trigger_webhooks_commit by (rewrite ?Hws; done).
    destruct (after_loop_spec env f ev pl w) as (Hp & _ & _ & _ & Hout & _).
    destruct (db_commit_log env (after_loop env f ev pl w)) as [Hp' Hout'].
    destruct (db_commit env (after_loop env f ev pl w)) as [[e|[]] w'];
      cbn [snd] in *; split; congruence.
Qed.

Lemma request_of_delivery h p body :
  req_headers (request_of h p body) !! "X-Formerr-Delivery" = Some (env_delivery_id p).
Proof. unfold request_of. cbn [req_headers]. destruct (has_secret h); reflexivity. Qed.

Lemma trigger_posts_serialised env f ev pl w d :
  Json.dumps (PDict pl) = inr d →
  trigger_posts env f ev pl w
  = map (fun kh : string * Webhook =>
           request_of kh.2 (trigger_envelope env f ev pl w)
                      (serialised (trigger_envelope env f ev pl w) d))
        (matching f ev (session w)).
Proof.
  intros Hd. unfold trigger_posts. rewrite dumps_envelope.
  cbn [trigger_envelope env_data]. rewrite Hd.
  induction (matching f ev (session w)) as [|kh ws IH]; [reflexivity|].
  cbn [map concat attempt_posts app]. rewrite IH. reflexivity.
Qed.

(** C1, as the code has it.  One [trigger_webhooks] call draws one uuid
    and serialises one envelope: every POST of the fan-out, one per
    matching subscription, carries that same delivery id in
    [X-Formerr-Delivery] and the same body. *)
Theorem C1_one_delivery_id_per_call env f ev pl w d :
  db_fault_at env (db_calls w) = None →
  Json.dumps (PDict pl) = inr d →
  ∃ new,
    posts (trigger_webhooks env f ev pl w).2 = posts w ++ new
    ∧ length new = length (matching f ev (session w))
    ∧ Forall (fun r => req_headers r !! "X-Formerr-Delivery"
                         = Some (uuid4_at env (uuid_draws w))
                       ∧ req_content r
                         = serialised (trigger_envelope env f ev pl w) d) new.
Proof.
  intros Hsel Hd. eexists. split; [apply trigger_webhooks_log, Hsel|].
  rewrite (trigger_posts_serialised env f ev pl w d Hd).
  split; [apply length_map|].
  apply Forall_forall. intros r Hr.
  apply list_elem_of_fmap in Hr as (kh & -> & _).
  split; [apply request_of_delivery|reflexivity].
Qed.

Lemma C1_one_delivery_id_per_call_witness :
  db_fault_at Scenario.env (db_calls Scenario.world) = None
  ∧ Json.dumps (PDict Scenario.data)
    = inr (Scenario.data_text)
  ∧ ∃ new,
      posts (trigger_webhooks Scenario.env "form_42" SUBMISSION_CREATED
               Scenario.data Scenario.world).2
      = posts Scenario.world ++ new
      ∧ length new
        = length (matching "form_42" SUBMISSION_CREATED (session Scenario.world))
      ∧ Forall (fun r => req_headers r !! "X-Formerr-Delivery"
                           = Some (uuid4_at Scenario.env (uuid_draws Scenario.world))
                         ∧ req_content r
                           = serialised Scenario.envelope (Scenario.data_text)) new.
Proof.
  split; [reflexivity|]. split; [vm_compute; reflexivity|].
  apply (C1_one_delivery_id_per_call Scenario.env "form_42" SUBMISSION_CREATED
           Scenario.data Scenario.world);
    [reflexivity | vm_compute; reflexivity].
Defined.

(** C1, as stated, fails: the two deliveries of one fan-out carry the same
    delivery id. *)
Lemma C1_counterexample :
  length (posts (trigger_webhooks Scenario.env "form_42" SUBMISSION_CREATED
                   Scenario.data Scenario.world).2) = 2%nat
  ∧ ¬ NoDup ((fun r => req_headers r !! "X-Formerr-Delivery")
               <$> posts (trigger_webhooks Scenario.env "form_42" SUBMISSION_CREATED
                            Scenario.data Scenario.world).2).
Proof.
  split; [vm_compute; reflexivity|].
  intros Hnd.
  assert ((fun r => req_headers r !! "X-Formerr-Delivery")
            <$> posts (trigger_webhooks Scenario.env "form_42" SUBMISSION_CREATED
                         Scenario.data Scenario.world).2
          = [Some "3f2b8c1e-0000-4000-8000-000000000000";
             Some "3f2b8c1e-0000-4000-8000-000000000000"]) as E
    by (vm_compute; reflexivity).
  rewrite E in Hnd. apply NoDup_cons in Hnd as [Hin _].
  apply Hin. constructor.
Qed.

(** ** Lowercase hexadecimal digests *)

Lemma hex_digit_lower d : 0 ≤ d < 16 → is_lower_hex (hex_digit d) = true.
Proof.
  intros Hd.
  assert (d = 0 ∨ d = 1 ∨ d = 2 ∨ d = 3 ∨ d = 4 ∨ d = 5 ∨ d = 6 ∨ d = 7 ∨ d = 8
          ∨ d = 9 ∨ d = 10 ∨ d = 11 ∨ d = 12 ∨ d = 13 ∨ d = 14 ∨ d = 15) as Hcases by lia.
  repeat (destruct Hcases as [->|Hcases]; [reflexivity|]). subst d. reflexivity.
Qed.

Lemma hex_lower bs :
  Forall (fun b => 0 ≤ b < 256) bs →
  Forall (fun c => is_lower_hex c = true) (list_ascii_of_string (hex bs)).
Proof.
  induction 1 as [|b bs Hb _ IH]; [constructor|].
  cbn [hex list_ascii_of_string].
  constructor; [|constructor; [|exact IH]]; apply hex_digit_lower.
  - split; [apply Z.div_pos; lia | apply Z.div_lt_upper_bound; lia].
  - apply Z.mod_pos_bound. lia.
Qed.

Lemma be_bytes_range n x : Forall (fun b => 0 ≤ b < 256) (SHA256.be_bytes n x).
Proof.
  induction n as [|n IH]; [constructor|].
  cbn [SHA256.be_bytes]. constructor; [apply Z.mod_pos_bound; lia | exact IH].
Qed.

Lemma sha256_digest_range msg : Forall (fun b => 0 ≤ b < 256) (SHA256.digest msg).
Proof.
  unfold SHA256.digest. apply Forall_concat, Forall_forall.
  intros bs Hbs. apply list_elem_of_fmap in Hbs as (x & -> & _).
  apply be_bytes_range.
Qed.

Lemma hexdigest_lower key msg :
  Forall (fun c => is_lower_hex c = true) (list_ascii_of_string (HMAC.hexdigest key msg)).
Proof. apply hex_lower, sha256_digest_range. Qed.

Lemma has_secret_true h : has_secret h = true ↔ ∃ s, secret h = Some s ∧ s ≠ "".
Proof.
  unfold has_secret. destruct (secret h) as [s|].
  - rewrite negb_true_iff, String.eqb_neq. split.
    + intros Hs. exists s. auto.
    + intros (s' & [= <-] & Hs). exact Hs.
  - split; [discriminate|]. intros (s & [=] & _).
Qed.

(** When the envelope serialises, [_send_webhook] issues exactly one POST
    and returns the result built from its outcome, raising nothing. *)
Lemma _send_webhook_posts env wid h p w body :
  Json.dumps (envelope_dict p) = inr body →
  _send_webhook env wid h p w
  = (inr (result_of wid h p (post_at env (length (posts w)) (request_of h p body))),
     log_post (request_of h p body) w).
Proof. intros Hd. rewrite _send_webhook_run, Hd. reflexivity. Qed.

(** C2. For a webhook with a non-empty secret, the signature header of the
    POST is ["sha256="] followed by the lowercase hexadecimal HMAC-SHA256,
    keyed by the bytes of the secret, of the bytes of the body of that very
    POST: the envelope is serialised once, and that text is both signed
    and sent. *)
Theorem C2_signature_over_sent_body env wid h p w s body :
  secret h = Some s → s ≠ "" →
  Json.dumps (envelope_dict p) = inr body →
  ∃ r,
    posts (_send_webhook env wid h p w).2 = posts w ++ [r]
    ∧ req_content r = body
    ∧ req_headers r !! "X-Formerr-Signature"
      = Some ("sha256=" +:+ HMAC.hexdigest (encode_utf8 s) (wire_body r))
    ∧ Forall (fun c => is_lower_hex c = true)
             (list_ascii_of_string (HMAC.hexdigest (encode_utf8 s) (wire_body r))).
Proof.
  intros Hs Hne Hd. exists (request_of h p body).
  rewrite (_send_webhook_posts env wid h p w body Hd).
  split; [reflexivity|]. split; [reflexivity|]. split; [|apply hexdigest_lower].
  unfold request_of, wire_body. cbn [req_headers req_content].
  assert (has_secret h = true) as -> by (apply has_secret_true; eauto).
  rewrite Hs. cbn [default]. rewrite lookup_insert_eq. reflexivity.
Qed.

(** The end-to-end scenario of the specification: secret [whsec_abc]. *)
Lemma C2_signature_over_sent_body_witness :
  secret Scenario.wh_signed = Some "whsec_abc" ∧ "whsec_abc" ≠ ""
  ∧ Json.dumps (envelope_dict Scenario.envelope)
    = inr (serialised Scenario.envelope (Scenario.data_text))
  ∧ ∃ r,
      posts (_send_webhook Scenario.env "wh_signed" Scenario.wh_signed
               Scenario.envelope Scenario.world).2 = posts Scenario.world ++ [r]
      ∧ req_content r = serialised Scenario.envelope (Scenario.data_text)
      ∧ req_headers r !! "X-Formerr-Signature"
        = Some ("sha256=" +:+ HMAC.hexdigest (encode_utf8 "whsec_abc") (wire_body r))
      ∧ Forall (fun c => is_lower_hex c = true)
               (list_ascii_of_string (HMAC.hexdigest (encode_utf8 "whsec_abc") (wire_body r))).
Proof.
  split; [reflexivity|]. split; [discriminate|]. split; [vm_compute; reflexivity|].
  apply (C2_signature_over_sent_body Scenario.env "wh_signed" Scenario.wh_signed
           Scenario.envelope Scenario.world "whsec_abc");
    [reflexivity | discriminate | vm_compute; reflexivity].
Defined.

(** The value of that signature, as [hmac] and [json] of the Python
    library give it for this envelope and secret. *)
Example end_to_end_signature :
  (fun r => req_headers r !! "X-Formerr-Signature")
    <$> posts (_send_webhook Scenario.env "wh_signed" Scenario.wh_signed
                 Scenario.envelope Scenario.world).2
  = [Some "sha256=47eab2b88528bab7c383410f4535798383bbadbcd35d6fe7e0620fcd87d4771a"].
Proof. vm_compute. reflexivity. Qed.

(** C9. Every POST carries the five fixed headers, taken from the
    envelope, and the signature header exactly when the webhook has a
    non-empty secret; without one the header is absent, not empty. *)
Theorem C9_delivery_headers env wid h p w body :
  Json.dumps (envelope_dict p) = inr body →
  ∃ r,
    posts (_send_webhook env wid h p w).2 = posts w ++ [r]
    ∧ req_url r = url h
    ∧ req_headers r !! "Content-Type" = Some "application/json"
    ∧ req_headers r !! "User-Agent" = Some "Formerr-Webhooks/1.0 (BrunoV7)"
    ∧ req_headers r !! "X-Formerr-Event" = Some (env_event p)
    ∧ req_headers r !! "X-Formerr-Delivery" = Some (env_delivery_id p)
    ∧ req_headers r !! "X-Formerr-Timestamp" = Some (env_timestamp p)
    ∧ (is_Some (req_headers r !! "X-Formerr-Signature") ↔ ∃ s, secret h = Some s ∧ s ≠ "")
    ∧ dom (req_headers r)
      ⊆ {["Content-Type"; "User-Agent"; "X-Formerr-Event"; "X-Formerr-Delivery";
          "X-Formerr-Timestamp"; "X-Formerr-Signature"]}.
Proof.
  intros Hd. exists (request_of h p body).
  rewrite (_send_webhook_posts env wid h p w body Hd).
  split; [reflexivity|]. split; [reflexivity|].
  unfold request_of. cbn [req_headers].
  rewrite <- has_secret_true.
  destruct (has_secret h).
  - repeat (split; [reflexivity|]). split.
    + rewrite lookup_insert_eq. split; [reflexivity | intros _; eexists; reflexivity].
    + cbn [list_to_map foldr uncurry]. rewrite !dom_insert_L, dom_empty_L. set_solver.
  - repeat (split; [reflexivity|]). split.
    + split; [intros [x Hx]; discriminate Hx | discriminate].
    + cbn [list_to_map foldr uncurry]. rewrite !dom_insert_L, dom_empty_L. set_solver.
Qed.

Lemma C9_delivery_headers_witness :
  Json.dumps (envelope_dict Scenario.envelope)
  = inr (serialised Scenario.envelope (Scenario.data_text))
  ∧ ∃ r,
      posts (_send_webhook Scenario.env "wh_slow" Scenario.wh_slow
               Scenario.envelope Scenario.world).2 = posts Scenario.world ++ [r]
      ∧ req_url r = url Scenario.wh_slow
      ∧ req_headers r !! "Content-Type" = Some "application/json"
      ∧ req_headers r !! "User-Agent" = Some "Formerr-Webhooks/1.0 (BrunoV7)"
      ∧ req_headers r !! "X-Formerr-Event" = Some (env_event Scenario.envelope)
      ∧ req_headers r !! "X-Formerr-Delivery" = Some (env_delivery_id Scenario.envelope)
      ∧ req_headers r !! "X-Formerr-Timestamp" = Some (env_timestamp Scenario.envelope)
      ∧ (is_Some (req_headers r !! "X-Formerr-Signature")
         ↔ ∃ s, secret Scenario.wh_slow = Some s ∧ s ≠ "")
      ∧ dom (req_headers r)
        ⊆ {["Content-Type"; "User-Agent"; "X-Formerr-Event"; "X-Formerr-Delivery";
            "X-Formerr-Timestamp"; "X-Formerr-Signature"]}.
Proof.
  split; [vm_compute; reflexivity|].
  apply (C9_delivery_headers Scenario.env "wh_slow" Scenario.wh_slow
           Scenario.envelope Scenario.world
           (serialised Scenario.envelope (Scenario.data_text))).
  vm_compute; reflexivity.
Defined.

(** ** The outcome of one delivery *)

(** C6, as the code has it.  The result of a delivery records: for a
    response, whether its status is below 400, the status code and the
    elapsed milliseconds, and no error field, whatever the status; for a
    time-out, the error ["timeout"] and no status code; for any other
    exception raised by the POST, the text of the exception as the error
    and no status code. *)
Theorem C6_delivery_outcomes env wid h p w body :
  Json.dumps (envelope_dict p) = inr body →
  ∃ req r w',
    _send_webhook env wid h p w = (inr r, w')
    ∧ posts w' = posts w ++ [req]
    ∧ r !! "webhook_id" = Some (PStr wid)
    ∧ r !! "url" = Some (PStr (url h))
    ∧ match post_at env (length (posts w)) req with
      | Responded code ms =>
          r !! "success" = Some (PBool (code <? 400))
          ∧ r !! "status_code" = Some (PInt code)
          ∧ r !! "response_time_ms" = Some (PInt ms)
          ∧ r !! "delivery_id" = Some (PStr (env_delivery_id p))
          ∧ r !! "error" = None
      | TimedOut _ =>
          r !! "success" = Some (PBool false)
          ∧ r !! "error" = Some (PStr "timeout")
          ∧ r !! "status_code" = None
      | Failed _ m =>
          r !! "success" = Some (PBool false)
          ∧ r !! "error" = Some (PStr m)
          ∧ r !! "status_code" = None
      end.
Proof.
  intros Hd. eexists _, _, _. split; [apply _send_webhook_posts, Hd|].
  split; [reflexivity|].
  destruct (post_at env (length (posts w)) (request_of h p body)); repeat split.
Qed.

Lemma C6_delivery_outcomes_witness :
  Json.dumps (envelope_dict Scenario.envelope)
  = inr (serialised Scenario.envelope (Scenario.data_text))
  ∧ ∃ req r w',
      _send_webhook Scenario.env_rejecting "wh_signed" Scenario.wh_signed
                    Scenario.envelope Scenario.world = (inr r, w')
      ∧ posts w' = posts Scenario.world ++ [req]
      ∧ r !! "webhook_id" = Some (PStr "wh_signed")
      ∧ r !! "url" = Some (PStr (url Scenario.wh_signed))
      ∧ match post_at Scenario.env_rejecting (length (posts Scenario.world)) req with
        | Responded code ms =>
            r !! "success" = Some (PBool (code <? 400))
            ∧ r !! "status_code" = Some (PInt code)
            ∧ r !! "response_time_ms" = Some (PInt ms)
            ∧ r !! "delivery_id" = Some (PStr (env_delivery_id Scenario.envelope))
            ∧ r !! "error" = None
        | TimedOut _ =>
            r !! "success" = Some (PBool false)
            ∧ r !! "error" = Some (PStr "timeout")
            ∧ r !! "status_code" = None
        | Failed _ m =>
            r !! "success" = Some (PBool false)
            ∧ r !! "error" = Some (PStr m)
            ∧ r !! "status_code" = None
        end.
Proof.
  split; [vm_compute; reflexivity|].
  apply (C6_delivery_outcomes Scenario.env_rejecting "wh_signed" Scenario.wh_signed
           Scenario.envelope Scenario.world
           (serialised Scenario.envelope (Scenario.data_text))).
  vm_compute; reflexivity.
Defined.

(** C6, as stated, fails: a 500 response gives a result in which no field
    holds a classification ["non-2xx"] (there is no error field at all),
    and a connection failure gives a result whose error is the text of
    the exception, not ["network"]. *)
Lemma C6_counterexample :
  (_send_webhook Scenario.env_rejecting "wh_slow" Scenario.wh_slow
                 Scenario.envelope Scenario.world).1
  = inr (dict [("webhook_id", PStr "wh_slow"); ("success", PBool false);
               ("status_code", PInt 500); ("response_time_ms", PInt 7);
               ("url", PStr "https://slow.example/hook");
               ("delivery_id", PStr "3f2b8c1e-0000-4000-8000-000000000000")])
  ∧ no_field_holds "non-2xx"
      (dict [("webhook_id", PStr "wh_slow"); ("success", PBool false);
             ("status_code", PInt 500); ("response_time_ms", PInt 7);
             ("url", PStr "https://slow.example/hook");
             ("delivery_id", PStr "3f2b8c1e-0000-4000-8000-000000000000")])
  ∧ (_send_webhook Scenario.env_all_down "wh_slow" Scenario.wh_slow
                   Scenario.envelope Scenario.world).1
    = inr (dict [("webhook_id", PStr "wh_slow"); ("success", PBool false);
                 ("error", PStr "All connection attempts failed");
                 ("url", PStr "https://slow.example/hook")])
  ∧ no_field_holds "network"
      (dict [("webhook_id", PStr "wh_slow"); ("success", PBool false);
             ("error", PStr "All connection attempts failed");
             ("url", PStr "https://slow.example/hook")]).
Proof.
  assert (Json.dumps (envelope_dict Scenario.envelope)
          = inr (serialised Scenario.envelope (Scenario.data_text))) as Hd
    by (vm_compute; reflexivity).
  split; [rewrite (_send_webhook_posts _ _ _ _ _ _ Hd); reflexivity|].
  split; [|split; [rewrite (_send_webhook_posts _ _ _ _ _ _ Hd); reflexivity|]].
  - intros k Hk. apply elem_of_map_to_list in Hk. vm_compute in Hk.
    repeat (apply elem_of_cons in Hk as [Hk|Hk]; [discriminate Hk|]).
    inversion Hk.
  - intros k Hk. apply elem_of_map_to_list in Hk. vm_compute in Hk.
    repeat (apply elem_of_cons in Hk as [Hk|Hk]; [discriminate Hk|]).
    inversion Hk.
Qed.

(** ** The commit at the end of [trigger_webhooks] *)

(** A commit that the database refuses ends [trigger_webhooks] with that
    exception: the results are lost, nothing is stored, nothing is printed. *)
Lemma trigger_webhooks_commit_fault env f ev pl w m :
  db_fault_at env (db_calls w) = None →
  matching f ev (session w) ≠ [] →
  db_fault_at env (S (db_calls w)) = Some m →
  ∃ w', trigger_webhooks env f ev pl w = (inl (PyException "SQLAlchemyError" m), w')
        ∧ stored w' = stored w
        ∧ stdout w' = stdout w.
Proof.
  intros Hsel Hne Hcommit.
  rewrite trigger_webhooks_commit by assumption.
  destruct (after_loop_spec env f ev pl w) as (_ & Hst & _ & Hdb & Hout & _).
  rewrite db_commit_run, Hdb, Hcommit.
  eexists. split; [reflexivity|]. split; assumption.
Qed.

(** C4, as the code has it.  When the commit of the counters fails,
    [trigger_webhooks] does not catch it: the exception reaches the caller,
    no result list is returned, the counters are not stored and nothing is
    logged by [trigger_webhooks]. *)
Theorem C4_commit_failure_propagates env f ev pl w m :
  db_fault_at env (db_calls w) = None →
  matching f ev (session w) ≠ [] →
  db_fault_at env (S (db_calls w)) = Some m →
  ∃ w', trigger_webhooks env f ev pl w = (inl (PyException "SQLAlchemyError" m), w')
        ∧ stored w' = stored w
        ∧ stdout w' = stdout w.
Proof.
  intros Hsel Hne Hcommit.
  rewrite trigger_webhooks_commit by assumption.
  destruct (after_loop_spec env f ev pl w) as (_ & Hst & _ & Hdb & Hout & _).
  rewrite db_commit_run, Hdb, Hcommit.
  exists (bump_db (after_loop env f ev pl w)).
  split; [reflexivity|]. split; [exact Hst | exact Hout].
Qed.

Lemma scenario_matches : matching "form_42" SUBMISSION_CREATED Scenario.tables ≠ [].
Proof.
  intros H. apply (f_equal length) in H. vm_compute in H. discriminate H.
Qed.

Lemma C4_commit_failure_propagates_witness :
  db_fault_at Scenario.env_commit_fails (db_calls Scenario.world) = None
  ∧ matching "form_42" SUBMISSION_CREATED (session Scenario.world) ≠ []
  ∧ db_fault_at Scenario.env_commit_fails (S (db_calls Scenario.world)) = Some "connection lost"
  ∧ ∃ w', trigger_webhooks Scenario.env_commit_fails "form_42" SUBMISSION_CREATED []
                           Scenario.world
          = (inl (PyException "SQLAlchemyError" "connection lost"), w')
          ∧ stored w' = stored Scenario.world
          ∧ stdout w' = stdout Scenario.world.
Proof.
  split; [reflexivity|]. split; [exact scenario_matches|]. split; [reflexivity|].
  apply (C4_commit_failure_propagates Scenario.env_commit_fails "form_42"
           SUBMISSION_CREATED [] Scenario.world "connection lost");
    [reflexivity | exact scenario_matches | reflexivity].
Defined.

(** C4, as stated, fails: both deliveries are made, then the commit fails
    and the caller gets the exception instead of the result list; nothing
    was logged. *)
Lemma C4_counterexample :
  ∃ w', trigger_webhooks Scenario.env_commit_fails "form_42" SUBMISSION_CREATED []
                         Scenario.world
        = (inl (PyException "SQLAlchemyError" "connection lost"), w')
        ∧ length (posts w') = 2%nat
        ∧ stdout w' = [].
Proof.
  destruct (trigger_webhooks_commit_fault Scenario.env_commit_fails "form_42"
              SUBMISSION_CREATED [] Scenario.world "connection lost")
    as (w' & Hrun & _ & Hout); [reflexivity | exact scenario_matches | reflexivity |].
  exists w'. split; [exact Hrun|]. split; [|exact Hout].
  replace w' with (trigger_webhooks Scenario.env_commit_fails "form_42"
                     SUBMISSION_CREATED [] Scenario.world).2 by (rewrite Hrun; reflexivity).
  destruct (trigger_webhooks_log Scenario.env_commit_fails "form_42" SUBMISSION_CREATED []
              Scenario.world) as [-> _]; [reflexivity|].
  rewrite (trigger_posts_serialised _ _ _ _ _ "{}") by reflexivity.
  rewrite length_app, length_map. vm_compute. reflexivity.
Qed.

(** ** Delivery errors in the result list *)

Lemma trigger_results_lookup env f ev pl w d i k h :
  Json.dumps (PDict pl) = inr d →
  matching f ev (session w) !! i = Some (k, h) →
  trigger_results env f ev pl w !! i
  = Some (result_of k h (trigger_envelope env f ev pl w)
            (post_at env (length (posts w) + i)
               (request_of h (trigger_envelope env f ev pl w)
                  (serialised (trigger_envelope env f ev pl w) d)))).
Proof.
  intros Hd Hi. unfold trigger_results. rewrite list_lookup_imap, Hi.
  rewrite dumps_envelope. cbn [trigger_envelope env_data]. rewrite Hd. reflexivity.
Qed.

(** C3, as the code has it.  When the select and the commit of
    [trigger_webhooks] succeed, the call returns one result per matching
    subscription, in order, each tagged with the id of its subscription
    and with a success flag.  When the payload serialises, one POST per
    subscription is made and every delivery error is captured in the entry
    of its own subscription: a time-out gives [success] false and the
    error [timeout], any other exception of the POST gives [success] false
    and its message as error, and a response gives [success] by its status
    (false from 400 on) with the status code and no error.  No delivery
    error is ever raised to the caller: an exception that leaves the call
    is the one of a failed database call (the select or the commit). *)
Theorem C3_delivery_errors_are_results env f ev pl w :
  (db_fault_at env (db_calls w) = None →
   db_fault_at env (S (db_calls w)) = None →
   pending w = [] →
   ∃ results w',
     trigger_webhooks env f ev pl w = (inr results, w')
     ∧ length results = length (matching f ev (session w))
     ∧ (fun r : gmap string pyval => r !! "webhook_id") <$> results
       = (fun kh : string * Webhook => Some (PStr kh.1)) <$> matching f ev (session w)
     ∧ Forall (fun r : gmap string pyval => ∃ b, r !! "success" = Some (PBool b)) results
     ∧ ∀ d, Json.dumps (PDict pl) = inr d →
         posts w'
         = posts w
           ++ ((fun kh : string * Webhook =>
                  request_of kh.2 (trigger_envelope env f ev pl w)
                             (serialised (trigger_envelope env f ev pl w) d))
               <$> matching f ev (session w))
         ∧ ∀ i k h, matching f ev (session w) !! i = Some (k, h) →
             ∃ r, results !! i = Some r
                  ∧ r !! "webhook_id" = Some (PStr k)
                  ∧ r !! "url" = Some (PStr (url h))
                  ∧ match post_at env (length (posts w) + i)
                                  (request_of h (trigger_envelope env f ev pl w)
                                     (serialised (trigger_envelope env f ev pl w) d)) with
                    | Responded code ms =>
                        r !! "success" = Some (PBool (code <? 400))
                        ∧ r !! "status_code" = Some (PInt code)
                        ∧ r !! "error" = None
                    | TimedOut _ =>
                        r !! "success" = Some (PBool false)
                        ∧ r !! "error" = Some (PStr "timeout")
                        ∧ r !! "status_code" = None
                    | Failed _ m =>
                        r !! "success" = Some (PBool false)
                        ∧ r !! "error" = Some (PStr m)
                        ∧ r !! "status_code" = None
                    end)
  ∧ (∀ e w',
       trigger_webhooks env f ev pl w = (inl e, w') →
       (∃ m, e = PyException "SQLAlchemyError" m
             ∧ (db_fault_at env (db_calls w) = Some m
                ∨ db_fault_at env (S (db_calls w)) = Some m))
       ∨ (e = PyException "IntegrityError" "duplicate key" ∧ pending w ≠ [])).
Proof.
  split; [|apply trigger_webhooks_raises].
  intros Hsel Hcommit Hpending.
  destruct (matching f ev (session w)) as [|kh ws] eqn:Hws.
  - exists [], (bump_db w). rewrite trigger_webhooks_none by assumption.
    split; [reflexivity|]. split; [reflexivity|]. split; [reflexivity|].
    split; [constructor|]. intros d _. split; [cbn; rewrite app_nil_r; reflexivity|].
    intros i k h Hi. rewrite lookup_nil in Hi. discriminate Hi.
  - rewrite <- Hws.
    destruct (after_loop_spec env f ev pl w) as (Hposts & _ & Hpe & Hdb & _).
    destruct (db_commit_ok env (after_loop env f ev pl w))
      as (w' & Hc & _ & _ & _ & Hposts' & _).
    { rewrite Hdb. exact Hcommit. }
    { rewrite Hpe. exact Hpending. }
    exists (trigger_results env f ev pl w), w'.
    rewrite trigger_webhooks_commit, Hc by (rewrite ?Hws; done).
    split; [reflexivity|]. split; [|split; [|split]].
    + unfold trigger_results. rewrite length_imap. reflexivity.
    + apply trigger_results_ids.
    + unfold trigger_results. apply Forall_forall. intros r Hr.
      apply elem_of_lookup_imap_1 in Hr as (i & kh' & -> & _).
      unfold attempt_result.
      destruct (Json.dumps _); [eexists; reflexivity|].
      rewrite result_success. eexists; reflexivity.
    + intros d Hd. split.
      * rewrite Hposts', Hposts, (trigger_posts_serialised env f ev pl w d Hd).
        reflexivity.
      * intros i k h Hi.
        rewrite (trigger_results_lookup env f ev pl w d i k h Hd Hi).
        eexists. split; [reflexivity|].
        destruct (post_at env _ _) as [code ms|m|c m]; repeat split.
Qed.

(** The scenario: one endpoint times out, the other answers 200. *)
Lemma C3_delivery_errors_are_results_witness :
  db_fault_at Scenario.env (db_calls Scenario.world) = None
  ∧ db_fault_at Scenario.env (S (db_calls Scenario.world)) = None
  ∧ pending Scenario.world = []
  ∧ ∃ results w',
      trigger_webhooks Scenario.env "form_42" SUBMISSION_CREATED Scenario.data
                       Scenario.world
      = (inr results, w')
      ∧ length results
        = length (matching "form_42" SUBMISSION_CREATED (session Scenario.world))
      ∧ (fun r : gmap string pyval => r !! "webhook_id") <$> results
        = (fun kh : string * Webhook => Some (PStr kh.1))
            <$> matching "form_42" SUBMISSION_CREATED (session Scenario.world)
      ∧ Forall (fun r : gmap string pyval => ∃ b, r !! "success" = Some (PBool b)) results
      ∧ ∀ d, Json.dumps (PDict Scenario.data) = inr d →
          posts w'
          = posts Scenario.world
            ++ ((fun kh : string * Webhook =>
                   request_of kh.2 Scenario.envelope (serialised Scenario.envelope d))
                <$> matching "form_42" SUBMISSION_CREATED (session Scenario.world))
          ∧ ∀ i k h,
              matching "form_42" SUBMISSION_CREATED (session Scenario.world) !! i
              = Some (k, h) →
              ∃ r, results !! i = Some r
                   ∧ r !! "webhook_id" = Some (PStr k)
                   ∧ r !! "url" = Some (PStr (url h))
                   ∧ match post_at Scenario.env (length (posts Scenario.world) + i)
                                   (request_of h Scenario.envelope
                                      (serialised Scenario.envelope d)) with
                     | Responded code ms =>
                         r !! "success" = Some (PBool (code <? 400))
                         ∧ r !! "status_code" = Some (PInt code)
                         ∧ r !! "error" = None
                     | TimedOut _ =>
                         r !! "success" = Some (PBool false)
                         ∧ r !! "error" = Some (PStr "timeout")
                         ∧ r !! "status_code" = None
                     | Failed _ m =>
                         r !! "success" = Some (PBool false)
                         ∧ r !! "error" = Some (PStr m)
                         ∧ r !! "status_code" = None
                     end.
Proof.
  split; [reflexivity|]. split; [reflexivity|]. split; [reflexivity|].
  apply (proj1 (C3_delivery_errors_are_results Scenario.env "form_42" SUBMISSION_CREATED
                  Scenario.data Scenario.world)); reflexivity.
Defined.

(** In that scenario the endpoint that times out is reported in its own
    entry, and the other endpoint's success in its own. *)
Example timeout_is_an_entry :
  (fun r : gmap string pyval => (r !! "webhook_id", r !! "success", r !! "error"))
    <$> (trigger_results Scenario.env "form_42" SUBMISSION_CREATED Scenario.data
                         Scenario.world)
  = [(Some (PStr "wh_signed"), Some (PBool true), None);
     (Some (PStr "wh_slow"), Some (PBool false), Some (PStr "timeout"))].
Proof. vm_compute. reflexivity. Qed.

(** C3, as stated, fails in its last part: the caller does not always
    receive a list.  Both subscriptions match and both POSTs are made (one
    times out, one is answered), then the commit fails and the call ends
    with that exception: the two results are lost. *)
Lemma C3_counterexample :
  length (matching "form_42" SUBMISSION_CREATED (session Scenario.world)) = 2%nat
  ∧ ∃ e w',
      trigger_webhooks Scenario.env_commit_fails "form_42" SUBMISSION_CREATED Scenario.data
                       Scenario.world
      = (inl e, w')
      ∧ length (posts w') = 2%nat
      ∧ ∀ results w'',
          trigger_webhooks Scenario.env_commit_fails "form_42" SUBMISSION_CREATED
                           Scenario.data Scenario.world
          ≠ (inr results, w'').
Proof.
  split; [vm_compute; reflexivity|].
  destruct (trigger_webhooks_commit_fault Scenario.env_commit_fails "form_42"
              SUBMISSION_CREATED Scenario.data Scenario.world "connection lost")
    as (w' & Hrun & _ & _); [reflexivity | exact scenario_matches | reflexivity |].
  exists (PyException "SQLAlchemyError" "connection lost"), w'.
  split; [exact Hrun|]. split.
  - replace w' with (trigger_webhooks Scenario.env_commit_fails "form_42"
                       SUBMISSION_CREATED Scenario.data Scenario.world).2
      by (rewrite Hrun; reflexivity).
    destruct (trigger_webhooks_log Scenario.env_commit_fails "form_42" SUBMISSION_CREATED
                Scenario.data Scenario.world) as [-> _]; [reflexivity|].
    rewrite (trigger_posts_serialised _ _ _ _ _ Scenario.data_text)
      by (vm_compute; reflexivity).
    rewrite length_app, length_map. vm_compute. reflexivity.
  - intros results w'' Hok. rewrite Hrun in Hok. discriminate Hok.
Qed.

(** ** The failure counter *)

Lemma matching_NoDup f ev t : NoDup (matching f ev t).*1.
Proof.
  unfold matching. eapply sublist_NoDup; [apply (NoDup_fst_map_to_list (webhooks t))|].
  apply fmap_sublist, sublist_filter.
Qed.

Lemma matching_lookup f ev t i k h :
  matching f ev t !! i = Some (k, h) → webhooks t !! k = Some h.
Proof.
  intros Hi. apply list_elem_of_lookup_2 in Hi.
  unfold matching in Hi. apply list_elem_of_filter in Hi as [_ Hin].
  apply elem_of_map_to_list in Hin. exact Hin.
Qed.

Lemma attempt_result_success env ser p n kh :
  attempt_result env ser p n kh !! "success" = Some (PBool (attempt_ok env ser p n kh)).
Proof.
  unfold attempt_result, attempt_ok. destruct ser; [reflexivity|]. apply result_success.
Qed.

(** C7. After a [trigger_webhooks] call, the failure counter of every
    subscription it delivered to is zero when the delivery succeeded,
    whatever it was before, and one more than before when it failed; that
    is what the session holds and what the commit stored. *)
Theorem C7_failure_counter env f ev pl w :
  db_fault_at env (db_calls w) = None →
  db_fault_at env (S (db_calls w)) = None →
  pending w = [] →
  ∃ results w',
    trigger_webhooks env f ev pl w = (inr results, w')
    ∧ ∀ i k h, matching f ev (session w) !! i = Some (k, h) →
        ∃ r b h',
          results !! i = Some r
          ∧ r !! "success" = Some (PBool b)
          ∧ webhooks (session w') !! k = Some h'
          ∧ webhooks (stored w') !! k = Some h'
          ∧ failure_count h' = if b then 0 else failure_count h + 1.
Proof.
  intros Hsel Hcommit Hpending.
  destruct (matching f ev (session w)) as [|kh0 ws0] eqn:Hws.
  { exists [], (bump_db w). rewrite trigger_webhooks_none by assumption.
    split; [reflexivity|]. intros i k h Hi. rewrite lookup_nil in Hi. discriminate. }
  destruct (after_loop_spec env f ev pl w) as (_ & _ & Hpe & Hdb & _).
  destruct (db_commit_ok env (after_loop env f ev pl w)) as (w' & Hc & Hst & Hse & _).
  { rewrite Hdb. exact Hcommit. }
  { rewrite Hpe. exact Hpending. }
  exists (trigger_results env f ev pl w), w'.
  rewrite trigger_webhooks_commit, Hc by (rewrite ?Hws; done).
  split; [reflexivity|]. rewrite <- Hws. intros i k h Hi.
  pose proof (send_each_counts env (trigger_envelope env f ev pl w)
                (matching f ev (session w)) [] (draw (tick (bump_db w)))
                (matching_NoDup f ev (session w))) as [_ Hcount].
  destruct (Hcount i k h Hi) as (g & Hg & Hfc).
  fold (after_loop env f ev pl w) in Hg.
  cbn [draw tick bump_db session posts] in Hg, Hfc.
  rewrite (matching_lookup f ev (session w) i k h Hi) in Hg. cbn in Hg.
  eexists _, _, (g h).
  split; [unfold trigger_results; rewrite list_lookup_imap, Hi; reflexivity|].
  split; [apply attempt_result_success|].
  rewrite Hst, Hse. split; [exact Hg|]. split; [exact Hg|]. apply Hfc.
Qed.

Lemma C7_failure_counter_witness :
  db_fault_at Scenario.env (db_calls Scenario.world) = None
  ∧ db_fault_at Scenario.env (S (db_calls Scenario.world)) = None
  ∧ pending Scenario.world = []
  ∧ ∃ results w',
      trigger_webhooks Scenario.env "form_42" SUBMISSION_CREATED [] Scenario.world
      = (inr results, w')
      ∧ ∀ i k h,
          matching "form_42" SUBMISSION_CREATED (session Scenario.world) !! i = Some (k, h) →
          ∃ r b h',
            results !! i = Some r
            ∧ r !! "success" = Some (PBool b)
            ∧ webhooks (session w') !! k = Some h'
            ∧ webhooks (stored w') !! k = Some h'
            ∧ failure_count h' = if b then 0 else failure_count h + 1.
Proof.
  split; [reflexivity|]. split; [reflexivity|]. split; [reflexivity|].
  apply (C7_failure_counter Scenario.env "form_42" SUBMISSION_CREATED [] Scenario.world);
    reflexivity.
Defined.

(** The two cases of the specification: a counter at 3 is reset to 0 by a
    success, a counter at 0 becomes 1 after a failure. *)
Example counter_semantics :
  failure_count <$>
    webhooks (stored (trigger_webhooks Scenario.env "form_42" SUBMISSION_CREATED []
                                       Scenario.world).2) !! "wh_signed" = Some 0
  ∧ failure_count <$>
      webhooks (stored (trigger_webhooks Scenario.env "form_42" SUBMISSION_CREATED []
                                         Scenario.world).2) !! "wh_slow" = Some 1
  ∧ failure_count <$>
      webhooks (stored (trigger_webhooks Scenario.env "form_42" SUBMISSION_CREATED []
                                         Scenario.world).2) !! "wh_other" = Some 0.
Proof. vm_compute. repeat split. Qed.

(** ** Independence of the deliveries *)

(** The i-th result of a call is the one built from the outcome of the
    i-th POST alone. *)
(** C8. Take two subscriptions A and B matched by the same event, in either
    order, where A's endpoint never succeeds (it times out, fails or
    rejects) and B's endpoint answers with a status below 400.  The list
    returned holds A's failure at A's place and B's success at B's place:
    B's result is the one its own response determines. *)
Theorem C8_failure_isolation env f ev pl w d i j kA hA kB hB oA code ms :
  db_fault_at env (db_calls w) = None →
  db_fault_at env (S (db_calls w)) = None →
  pending w = [] →
  Json.dumps (PDict pl) = inr d →
  matching f ev (session w) !! i = Some (kA, hA) →
  matching f ev (session w) !! j = Some (kB, hB) →
  (∀ n r, req_url r = url hA → post_at env n r = oA) →
  succeeded oA = false →
  (∀ n r, req_url r = url hB → post_at env n r = Responded code ms) →
  code < 400 →
  ∃ results w' rA,
    trigger_webhooks env f ev pl w = (inr results, w')
    ∧ length results = length (matching f ev (session w))
    ∧ results !! i = Some rA
    ∧ rA !! "webhook_id" = Some (PStr kA)
    ∧ rA !! "success" = Some (PBool false)
    ∧ (∀ m, oA = TimedOut m → rA !! "error" = Some (PStr "timeout"))
    ∧ results !! j
      = Some (dict [("webhook_id", PStr kB); ("success", PBool true);
                    ("status_code", PInt code); ("response_time_ms", PInt ms);
                    ("url", PStr (url hB));
                    ("delivery_id", PStr (uuid4_at env (uuid_draws w)))]).
Proof.
  intros Hsel Hcommit Hpending Hd Hi Hj HA HoA HB Hcode.
  assert (matching f ev (session w) ≠ []) as Hne.
  { intros E. rewrite E, lookup_nil in Hi. discriminate. }
  destruct (after_loop_spec env f ev pl w) as (_ & _ & Hpe & Hdb & _).
  destruct (db_commit_ok env (after_loop env f ev pl w)) as (w' & Hc & _).
  { rewrite Hdb. exact Hcommit. }
  { rewrite Hpe. exact Hpending. }
  eexists (trigger_results env f ev pl w), w', _.
  rewrite trigger_webhooks_commit, Hc by assumption.
  split; [reflexivity|].
  split; [unfold trigger_results; apply length_imap|].
  rewrite (trigger_results_lookup env f ev pl w d i kA hA Hd Hi).
  rewrite (trigger_results_lookup env f ev pl w d j kB hB Hd Hj).
  rewrite HA, HB by reflexivity.
  split; [reflexivity|].
  split; [destruct oA; reflexivity|].
  split; [rewrite result_success, HoA; reflexivity|].
  split; [intros m ->; reflexivity|].
  cbn [result_of]. apply Z.ltb_lt in Hcode. rewrite Hcode. reflexivity.
Qed.

Lemma scenario_slow_times_out n r :
  req_url r = url Scenario.wh_slow → post_at Scenario.env n r = TimedOut "timed out".
Proof. intros Hr. cbn. unfold Scenario.network. rewrite Hr. reflexivity. Qed.

Lemma scenario_signed_answers n r :
  req_url r = url Scenario.wh_signed → post_at Scenario.env n r = Responded 200 12.
Proof. intros Hr. cbn. unfold Scenario.network. rewrite Hr. reflexivity. Qed.

(** The scenario of the specification: A ([wh_slow]) always times out, B
    ([wh_signed]) always succeeds. *)
Lemma C8_failure_isolation_witness :
  db_fault_at Scenario.env (db_calls Scenario.world) = None
  ∧ db_fault_at Scenario.env (S (db_calls Scenario.world)) = None
  ∧ pending Scenario.world = []
  ∧ Json.dumps (PDict Scenario.data) = inr Scenario.data_text
  ∧ matching "form_42" SUBMISSION_CREATED (session Scenario.world) !! 1%nat
    = Some ("wh_slow", Scenario.wh_slow)
  ∧ matching "form_42" SUBMISSION_CREATED (session Scenario.world) !! 0%nat
    = Some ("wh_signed", Scenario.wh_signed)
  ∧ succeeded (TimedOut "timed out") = false
  ∧ 200 < 400
  ∧ ∃ results w' rA,
      trigger_webhooks Scenario.env "form_42" SUBMISSION_CREATED Scenario.data Scenario.world
      = (inr results, w')
      ∧ length results
        = length (matching "form_42" SUBMISSION_CREATED (session Scenario.world))
      ∧ results !! 1%nat = Some rA
      ∧ rA !! "webhook_id" = Some (PStr "wh_slow")
      ∧ rA !! "success" = Some (PBool false)
      ∧ (∀ m, TimedOut "timed out" = TimedOut m → rA !! "error" = Some (PStr "timeout"))
      ∧ results !! 0%nat
        = Some (dict [("webhook_id", PStr "wh_signed"); ("success", PBool true);
                      ("status_code", PInt 200); ("response_time_ms", PInt 12);
                      ("url", PStr (url Scenario.wh_signed));
                      ("delivery_id",
                       PStr (uuid4_at Scenario.env (uuid_draws Scenario.world)))]).
Proof.
  split; [reflexivity|]. split; [reflexivity|]. split; [reflexivity|].
  split; [vm_compute; reflexivity|].
  split; [vm_compute; reflexivity|]. split; [vm_compute; reflexivity|].
  split; [reflexivity|]. split; [lia|].
  apply (C8_failure_isolation Scenario.env "form_42" SUBMISSION_CREATED Scenario.data
           Scenario.world Scenario.data_text 1%nat 0%nat
           "wh_slow" Scenario.wh_slow "wh_signed" Scenario.wh_signed
           (TimedOut "timed out") 200 12);
    [reflexivity | reflexivity | reflexivity | vm_compute; reflexivity
    | vm_compute; reflexivity | vm_compute; reflexivity
    | exact scenario_slow_times_out | reflexivity
    | exact scenario_signed_answers | lia].
Defined.

(** ** [test_webhook] *)

(** The test payload always serialises. *)
Lemma test_envelope_dumps env h w :
  Json.dumps (envelope_dict (test_envelope env h w))
  = inr (serialised (test_envelope env h w) test_data_text).
Proof.
  rewrite dumps_envelope. cbn [test_envelope env_data].
  replace (Json.dumps (PDict test_data)) with (@inr exn string test_data_text)
    by (vm_compute; reflexivity).
  reflexivity.
Qed.

Lemma test_webhook_run env wid owner w h :
  db_fault_at env (db_calls w) = None →
  owned_webhook wid owner (session w) = Some h →
  test_webhook env wid owner w
  = match db_commit env (test_before_commit env wid h w) with
    | (inl e, w') => (inl e, w')
    | (inr _, w') => (inr (test_result env wid h w), w')
    end.
Proof.
  intros Hsel Hfound.
  unfold test_webhook, db_execute, mbind, M_bind. rewrite db_call_run, Hsel.
  unfold gets. cbn [bump_db session]. rewrite Hfound.
  cbn [utcnow uuid4 clock_reads uuid_draws bump_db].
  rewrite _send_webhook_run.
  change (Json.dumps (envelope_dict _))
    with (Json.dumps (envelope_dict (test_envelope env h w))).
  rewrite test_envelope_dumps. cbn zeta iota.
  unfold getitem. rewrite result_success.
  unfold test_before_commit, test_result. cbn [posts bump_db draw tick].
  change (request_of h _ (serialised (test_envelope env h w) test_data_text))
    with (request_of h (test_envelope env h w)
            (serialised (test_envelope env h w) test_data_text)).
  destruct (succeeded (post_at env (length (posts w)) _));
    unfold update_webhook, modify, mret, M_ret; cbv [truthy negb];
    match goal with
    | |- _ = match db_commit env ?b with _ => _ end =>
        match goal with
        | |- context [db_commit env ?a] => change a with b
        end
    end;
    destruct (db_commit env _) as [[e|[]] w']; reflexivity.
Qed.

Lemma owned_webhook_lookup wid owner t h :
  owned_webhook wid owner t = Some h → webhooks t !! wid = Some h.
Proof.
  unfold owned_webhook. destruct (webhooks t !! wid) as [h0|]; [|discriminate].
  cbn. destruct (forms t !! form_id h0) as [f0|]; [|discriminate].
  cbn. case_bool_decide; [congruence|discriminate].
Qed.

Lemma test_before_commit_spec env wid h w :
  webhooks (session w) !! wid = Some h →
  pending (test_before_commit env wid h w) = pending w
  ∧ db_calls (test_before_commit env wid h w) = S (db_calls w)
  ∧ ∃ h', webhooks (session (test_before_commit env wid h w)) !! wid = Some h'
          ∧ failure_count h'
            = (if succeeded (post_at env (length (posts w))
                               (request_of h (test_envelope env h w)
                                  (serialised (test_envelope env h w) test_data_text)))
               then failure_count h else failure_count h + 1)
          ∧ last_triggered h' = Some (utcnow_at env (S (clock_reads w)))
          ∧ url h' = url h ∧ secret h' = secret h ∧ events h' = events h
          ∧ active h' = active h ∧ form_id h' = form_id h.
Proof.
  intros Hh. unfold test_before_commit. cbn zeta.
  destruct (succeeded _).
  - split; [reflexivity|]. split; [reflexivity|].
    eexists. split.
    { cbn. rewrite lookup_alter_eq, Hh. reflexivity. }
    repeat split.
  - split; [reflexivity|]. split; [reflexivity|].
    eexists. split.
    { cbn. rewrite !lookup_alter_eq, Hh. reflexivity. }
    repeat split.
Qed.

(** C10. A manual test that succeeds leaves the failure counter of the
    webhook as it was and only sets [last_triggered]; a test that fails
    adds one to the counter.  Nothing else of the row changes. *)
Theorem C10_test_keeps_failure_count env wid owner w h :
  db_fault_at env (db_calls w) = None →
  db_fault_at env (S (db_calls w)) = None →
  pending w = [] →
  owned_webhook wid owner (session w) = Some h →
  ∃ r b h' w',
    test_webhook env wid owner w = (inr r, w')
    ∧ r !! "success" = Some (PBool b)
    ∧ webhooks (session w') !! wid = Some h'
    ∧ webhooks (stored w') !! wid = Some h'
    ∧ failure_count h' = (if b then failure_count h else failure_count h + 1)
    ∧ last_triggered h' = Some (utcnow_at env (S (clock_reads w)))
    ∧ url h' = url h ∧ secret h' = secret h ∧ events h' = events h
    ∧ active h' = active h ∧ form_id h' = form_id h.
Proof.
  intros Hsel Hcommit Hpending Hfound.
  pose proof (owned_webhook_lookup wid owner (session w) h Hfound) as Hh.
  destruct (test_before_commit_spec env wid h w Hh) as (Hpe & Hdb & h' & Hh' & Hrest).
  destruct (db_commit_ok env (test_before_commit env wid h w)) as (w' & Hc & Hst & Hse & _).
  { rewrite Hdb. exact Hcommit. }
  { rewrite Hpe. exact Hpending. }
  eexists (test_result env wid h w), _, h', w'.
  rewrite (test_webhook_run env wid owner w h Hsel Hfound), Hc.
  split; [reflexivity|].
  split; [apply result_success|].
  rewrite Hst, Hse. split; [exact Hh'|]. split; [exact Hh'|]. exact Hrest.
Qed.

Lemma C10_test_keeps_failure_count_witness :
  db_fault_at Scenario.env (db_calls Scenario.world) = None
  ∧ db_fault_at Scenario.env (S (db_calls Scenario.world)) = None
  ∧ pending Scenario.world = []
  ∧ owned_webhook "wh_signed" 7 (session Scenario.world) = Some Scenario.wh_signed
  ∧ ∃ r b h' w',
      test_webhook Scenario.env "wh_signed" 7 Scenario.world = (inr r, w')
      ∧ r !! "success" = Some (PBool b)
      ∧ webhooks (session w') !! "wh_signed" = Some h'
      ∧ webhooks (stored w') !! "wh_signed" = Some h'
      ∧ failure_count h'
        = (if b then failure_count Scenario.wh_signed
           else failure_count Scenario.wh_signed + 1)
      ∧ last_triggered h' = Some (utcnow_at Scenario.env (S (clock_reads Scenario.world)))
      ∧ url h' = url Scenario.wh_signed ∧ secret h' = secret Scenario.wh_signed
      ∧ events h' = events Scenario.wh_signed
      ∧ active h' = active Scenario.wh_signed ∧ form_id h' = form_id Scenario.wh_signed.
Proof.
  split; [reflexivity|]. split; [reflexivity|]. split; [reflexivity|].
  split; [vm_compute; reflexivity|].
  apply (C10_test_keeps_failure_count Scenario.env "wh_signed" 7 Scenario.world
           Scenario.wh_signed);
    [reflexivity | reflexivity | reflexivity | vm_compute; reflexivity].
Defined.

(** The degraded webhook of the scenario passes a manual test and keeps
    its three failures, where a triggered delivery resets them. *)
Example test_keeps_three_failures :
  failure_count <$>
    webhooks (stored (test_webhook Scenario.env "wh_signed" 7 Scenario.world).2)
    !! "wh_signed" = Some 3.
Proof. vm_compute. reflexivity. Qed.

(** ** The submission write path *)




(** The first commit of [create_submission]: the added submission becomes
    a stored row. *)
Lemma db_commit_added env w sid s :
  pending w = [(sid, s)] →
  submissions (stored w) !! sid = None →
  db_fault_at env (db_calls w) = None →
  ∃ w', db_commit env w = (inr tt, w')
        ∧ pending w' = []
        ∧ db_calls w' = S (db_calls w)
        ∧ forms (session w') = forms (session w)
        ∧ submissions (session w') = <[sid := s]> (submissions (session w))
        ∧ submissions (stored w') = <[sid := s]> (submissions (session w)).
Proof.
  intros Hpending Hfresh Hcommit.
  rewrite db_commit_run, Hcommit. unfold flush. cbn [pending stored bump_db].
  rewrite Hpending. cbn [existsb fst snd foldl]. rewrite Hfresh.
  rewrite bool_decide_eq_false_2 by (intros [x Hx]; discriminate Hx).
  cbn [orb]. eexists. split; [reflexivity|]. cbn. repeat split.
Qed.



(** In that run both POSTs fail, the commit of the counters raises, the
    exception is caught and printed, and the submission is stored. *)
Example total_dispatch_failure :
  length (posts (create_submission Scenario.env_all_down "form_42"
                   [PDict [("q1", PStr "yes")]] None Scenario.world).2) = 2%nat
  ∧ stdout (create_submission Scenario.env_all_down "form_42"
              [PDict [("q1", PStr "yes")]] None Scenario.world).2
    = ["🚨 Erro ao disparar webhooks: connection lost"]
  ∧ (map_to_list
       (submissions (stored (create_submission Scenario.env_all_down "form_42"
                               [PDict [("q1", PStr "yes")]] None Scenario.world).2))).*1
    = ["sub_20250102_030400_3f2b8c1e"].
Proof. vm_compute. repeat split. Qed.

(** * Further properties *)

(** ** The rows after a dispatch *)

Lemma loop_body_row env wid h p results w :
  ∃ w', loop_body env wid h p results w
        = (inr (results ++ [attempt_result env (Json.dumps (envelope_dict p)) p
                              (length (posts w)) (wid, h)]), w')
        ∧ posts w' = posts w ++ attempt_posts (Json.dumps (envelope_dict p)) p (wid, h)
        ∧ clock_reads w'
          = (clock_reads w
             + length (attempt_posts (Json.dumps (envelope_dict p)) p (wid, h)))%nat
        ∧ webhooks (session w')
          = alter (row_after env (Json.dumps (envelope_dict p)) p
                             (length (posts w)) (clock_reads w) (wid, h))
                  wid (webhooks (session w)).
Proof.
  rewrite loop_body_run. unfold row_after.
  destruct (Json.dumps (envelope_dict p)) as [e|body].
  - eexists. split; [reflexivity|]. cbn. rewrite app_nil_r, Nat.add_0_r.
    repeat split.
  - cbn zeta. eexists. split; [reflexivity|]. split; [reflexivity|].
    split; [cbn; rewrite Nat.add_1_r; reflexivity|].
    cbn. rewrite alter_alter_eq. apply alter_ext. intros x _. cbn.
    destruct (succeeded _); reflexivity.
Qed.

Lemma row_after_shift env ser p w w1 kh0 i kh :
  posts w1 = posts w ++ attempt_posts ser p kh0 →
  clock_reads w1 = (clock_reads w + length (attempt_posts ser p kh0))%nat →
  row_after env ser p (length (posts w1) + i) (clock_reads w1 + i) kh
  = row_after env ser p (length (posts w) + S i) (clock_reads w + S i) kh.
Proof.
  intros Hp Hc. destruct ser as [e|body]; [reflexivity|].
  rewrite Hp, Hc. cbn [attempt_posts length].
  rewrite length_app. cbn [length].
  rewrite <- !Nat.add_assoc. reflexivity.
Qed.

(** Every row the loop visits is rewritten once, by [row_after]; no other
    row is touched. *)
Lemma send_each_rows env p ws : ∀ results w,
  NoDup ws.*1 →
  (∀ k, k ∉ ws.*1 →
     webhooks (session (send_each env ws p results w).2) !! k
     = webhooks (session w) !! k)
  ∧ (∀ i k h, ws !! i = Some (k, h) →
       webhooks (session (send_each env ws p results w).2) !! k
       = row_after env (Json.dumps (envelope_dict p)) p
                   (length (posts w) + i) (clock_reads w + i) (k, h)
           <$> webhooks (session w) !! k).
Proof.
  remember (Json.dumps (envelope_dict p)) as ser eqn:Hser.
  induction ws as [|[wid h] ws IH]; intros results w Hnd.
  - split; [reflexivity|]. intros i k h Hi. rewrite lookup_nil in Hi. discriminate.
  - rewrite fmap_cons in Hnd. apply NoDup_cons in Hnd as [Hwid Hnd].
    cbn [send_each]. unfold mbind, M_bind.
    pose proof (loop_body_row env wid h p results w) as Hbody.
    rewrite <- Hser in Hbody.
    destruct Hbody as (w1 & -> & Hp1 & Hc1 & Hrow).
    specialize (IH (results ++ [attempt_result env ser p (length (posts w)) (wid, h)]) w1 Hnd).
    destruct IH as [IHframe IHrow].
    split.
    + intros k Hk. rewrite fmap_cons, not_elem_of_cons in Hk. destruct Hk as [Hne Hk].
      rewrite (IHframe k Hk), Hrow. apply lookup_alter_ne. intros ->. apply Hne. reflexivity.
    + intros [|i] k h' Hi.
      * cbn in Hi. injection Hi as <- <-.
        rewrite (IHframe wid Hwid), Hrow, !Nat.add_0_r. apply lookup_alter_eq.
      * cbn in Hi.
        assert (k ∈ ws.*1) as Hin.
        { apply list_elem_of_fmap. exists (k, h'). split; [reflexivity|].
          eapply list_elem_of_lookup_2; eassumption. }
        rewrite (IHrow i k h' Hi), Hrow.
        rewrite (row_after_shift env ser p w w1 (wid, h) i (k, h')) by assumption.
        f_equal. apply lookup_alter_ne. intros ->. contradiction.
Qed.

Lemma db_commit_session_webhooks env w :
  webhooks (session (db_commit env w).2) = webhooks (session w).
Proof.
  rewrite db_commit_run. destruct (db_fault_at env (db_calls w)); [reflexivity|].
  unfold flush. destruct (existsb _ _); reflexivity.
Qed.

Lemma db_commit_stored env w :
  stored (db_commit env w).2 = stored w
  ∨ stored (db_commit env w).2 = session (db_commit env w).2.
Proof.
  rewrite db_commit_run. destruct (db_fault_at env (db_calls w)); [left; reflexivity|].
  unfold flush. destruct (existsb _ _); [left|right]; reflexivity.
Qed.

Lemma trigger_posts_unserialisable env f ev pl w e :
  Json.dumps (PDict pl) = inl e → trigger_posts env f ev pl w = [].
Proof.
  intros Hd. unfold trigger_posts. rewrite dumps_envelope.
  cbn [trigger_envelope env_data]. rewrite Hd.
  induction (matching f ev (session w)) as [|kh ws IH]; [reflexivity|exact IH].
Qed.

(** The session's webhooks after a call are those the loop left. *)
Lemma trigger_session_webhooks env f ev pl w :
  db_fault_at env (db_calls w) = None →
  webhooks (session (trigger_webhooks env f ev pl w).2)
  = webhooks (session (after_loop env f ev pl w)).
Proof.
  intros Hsel.
  destruct (matching f ev (session w)) as [|kh ws] eqn:Hws.
  - rewrite trigger_webhooks_none by assumption.
    unfold after_loop. rewrite Hws. reflexivity.
  - rewrite trigger_webhooks_commit by (rewrite ?Hws; done).
    pose proof (db_commit_session_webhooks env (after_loop env f ev pl w)) as Hc.
    destruct (db_commit env (after_loop env f ev pl w)) as [[e|[]] w']; exact Hc.
Qed.

Lemma trigger_rows env f ev pl w :
  db_fault_at env (db_calls w) = None →
  (∀ k, k ∉ (matching f ev (session w)).*1 →
     webhooks (session (trigger_webhooks env f ev pl w).2) !! k
     = webhooks (session w) !! k)
  ∧ (∀ i k h, matching f ev (session w) !! i = Some (k, h) →
       webhooks (session (trigger_webhooks env f ev pl w).2) !! k
       = Some (row_after env
                 (Json.dumps (envelope_dict (trigger_envelope env f ev pl w)))
                 (trigger_envelope env f ev pl w)
                 (length (posts w) + i) (S (clock_reads w) + i) (k, h) h)).
Proof.
  intros Hsel. rewrite (trigger_session_webhooks env f ev pl w Hsel).
  unfold after_loop.
  destruct (send_each_rows env (trigger_envelope env f ev pl w)
              (matching f ev (session w)) [] (draw (tick (bump_db w)))
              (matching_NoDup f ev (session w))) as [Hframe Hrow].
  split; [exact Hframe|].
  intros i k h Hi. rewrite (Hrow i k h Hi). cbn [draw tick bump_db session posts clock_reads].
  rewrite (matching_lookup f ev (session w) i k h Hi). reflexivity.
Qed.

Lemma row_after_same_config env ser p n c kh x :
  same_config x (row_after env ser p n c kh x).
Proof.
  unfold row_after, same_config. destruct ser as [e|body]; [repeat split|].
  destruct (succeeded _); repeat split.
Qed.

(** ** Who receives a delivery *)

(** X1. Every POST of a [trigger_webhooks] call goes to the url of a webhook of
    that form that is active and subscribed to the event: an inactive
    webhook, a webhook of another form or one subscribed to other events
    only never receives anything. *)
Theorem X1_trigger_posts_only_to_subscribers env f ev pl w :
  ∃ new,
    posts (trigger_webhooks env f ev pl w).2 = posts w ++ new
    ∧ Forall (fun r => ∃ k h, webhooks (session w) !! k = Some h
                              ∧ form_id h = f ∧ active h = true
                              ∧ event_value ev ∈ events h
                              ∧ req_url r = url h) new.
Proof.
  destruct (db_fault_at env (db_calls w)) as [m|] eqn:Hsel.
  { exists []. rewrite trigger_webhooks_run, Hsel. cbn. rewrite app_nil_r. auto. }
  destruct (trigger_webhooks_log env f ev pl w Hsel) as [Hp _].
  exists (trigger_posts env f ev pl w). split; [exact Hp|].
  destruct (Json.dumps (PDict pl)) as [e|d] eqn:Hd.
  { rewrite (trigger_posts_unserialisable env f ev pl w e Hd). constructor. }
  rewrite (trigger_posts_serialised env f ev pl w d Hd).
  apply Forall_forall. intros r Hr.
  apply list_elem_of_fmap in Hr as ([k h] & -> & Hin).
  unfold matching in Hin. apply list_elem_of_filter in Hin as [(Hf & Ha & He) Hin].
  apply elem_of_map_to_list in Hin.
  exists k, h. cbn in *. auto.
Qed.

(** X2. A form none of whose webhooks is active and subscribed to the event:
    the call returns the empty list and does nothing else than its select.
    No POST, no clock read, no uuid, and no commit: what the session holds
    is left as it is, stored or not. *)
Theorem X2_trigger_without_subscribers env f ev pl w :
  db_fault_at env (db_calls w) = None →
  (∀ k h, webhooks (session w) !! k = Some h →
          form_id h = f → active h = true → event_value ev ∉ events h) →
  ∃ w',
    trigger_webhooks env f ev pl w = (inr [], w')
    ∧ posts w' = posts w ∧ stored w' = stored w ∧ session w' = session w
    ∧ pending w' = pending w ∧ clock_reads w' = clock_reads w
    ∧ uuid_draws w' = uuid_draws w ∧ db_calls w' = S (db_calls w).
Proof.
  intros Hsel Hnone.
  assert (matching f ev (session w) = []) as Hws.
  { destruct (matching f ev (session w)) as [|[k h] ws] eqn:E; [reflexivity|].
    assert ((k, h) ∈ matching f ev (session w)) as Hin by (rewrite E; constructor).
    unfold matching in Hin. apply list_elem_of_filter in Hin as [(Hf & Ha & He) Hin].
    apply elem_of_map_to_list in Hin. cbn in *.
    exfalso. exact (Hnone k h Hin Hf Ha He). }
  exists (bump_db w). rewrite trigger_webhooks_none by assumption.
  repeat split.
Qed.

Lemma scenario_webhooks k h :
  webhooks (session Scenario.world) !! k = Some h →
  (k, h) ∈ [("wh_signed", Scenario.wh_signed); ("wh_slow", Scenario.wh_slow);
            ("wh_other", Scenario.wh_other)].
Proof. intros Hk. apply elem_of_list_to_map_2 in Hk. exact Hk. Qed.

Lemma scenario_no_deleted_subscriber k h :
  webhooks (session Scenario.world) !! k = Some h →
  form_id h = "form_42" → active h = true → event_value FORM_DELETED ∉ events h.
Proof.
  intros Hk _ _. apply scenario_webhooks in Hk.
  list_member_cases Hk; injection Hk as -> ->; cbn;
    repeat (apply not_elem_of_cons; split; [discriminate|]); apply not_elem_of_nil.
Qed.

Lemma X2_trigger_without_subscribers_witness :
  db_fault_at Scenario.env (db_calls Scenario.world) = None
  ∧ ∃ w',
      trigger_webhooks Scenario.env "form_42" FORM_DELETED Scenario.data Scenario.world
      = (inr [], w')
      ∧ posts w' = posts Scenario.world ∧ stored w' = stored Scenario.world
      ∧ session w' = session Scenario.world
      ∧ pending w' = pending Scenario.world ∧ clock_reads w' = clock_reads Scenario.world
      ∧ uuid_draws w' = uuid_draws Scenario.world
      ∧ db_calls w' = S (db_calls Scenario.world).
Proof.
  split; [reflexivity|].
  apply (X2_trigger_without_subscribers Scenario.env "form_42" FORM_DELETED Scenario.data
           Scenario.world); [reflexivity | exact scenario_no_deleted_subscriber].
Defined.

(** ** What a dispatch never changes *)

(** X3. Whatever happens (failed select, failed commit, any outcome of the
    POSTs), [trigger_webhooks] neither adds nor removes a webhook, and
    changes of a webhook only its failure counter and [last_triggered]:
    url, secret, events, form and the [active] flag stay, however many
    failures have accumulated.  Webhooks that did not match are not
    changed at all. *)
Theorem X3_trigger_keeps_configuration env f ev pl w k :
  match webhooks (session w) !! k,
        webhooks (session (trigger_webhooks env f ev pl w).2) !! k with
  | Some h, Some h' =>
      same_config h h' ∧ (k ∉ (matching f ev (session w)).*1 → h' = h)
  | None, None => True
  | _, _ => False
  end.
Proof.
  destruct (db_fault_at env (db_calls w)) as [m|] eqn:Hsel.
  { rewrite trigger_webhooks_run, Hsel. cbn.
    destruct (webhooks (session w) !! k); [|exact I].
    split; [repeat split | reflexivity]. }
  destruct (trigger_rows env f ev pl w Hsel) as [Hframe Hrow].
  destruct (decide (k ∈ (matching f ev (session w)).*1)) as [Hin|Hnotin].
  - apply list_elem_of_fmap in Hin as ([k' h] & Hk & Hin). cbn in Hk. subst k'.
    apply list_elem_of_lookup in Hin as [i Hi].
    rewrite (Hrow i k h Hi), (matching_lookup f ev (session w) i k h Hi).
    split; [apply row_after_same_config|].
    intros Hnot. exfalso. apply Hnot.
    apply list_elem_of_fmap. exists (k, h). split; [reflexivity|].
    eapply list_elem_of_lookup_2; eassumption.
  - rewrite (Hframe k Hnotin).
    destruct (webhooks (session w) !! k); [|exact I].
    split; [repeat split | reflexivity].
Qed.

(** ** [last_triggered] *)

(** X4. When the payload serialises, every webhook that matched is stamped
    with a clock read made after its own POST came back, whether that
    POST succeeded, was rejected, timed out or failed: the i-th webhook
    gets the (i+1)-th clock read after the one that dated the envelope. *)
Theorem X4_trigger_stamps_every_attempt env f ev pl w d i k h :
  db_fault_at env (db_calls w) = None →
  Json.dumps (PDict pl) = inr d →
  matching f ev (session w) !! i = Some (k, h) →
  ∃ h',
    webhooks (session (trigger_webhooks env f ev pl w).2) !! k = Some h'
    ∧ last_triggered h' = Some (utcnow_at env (S (clock_reads w) + i))
    ∧ env_timestamp (trigger_envelope env f ev pl w)
      = isoformat (utcnow_at env (clock_reads w)).
Proof.
  intros Hsel Hd Hi.
  destruct (trigger_rows env f ev pl w Hsel) as [_ Hrow].
  eexists. split; [apply (Hrow i k h Hi)|]. split; [|reflexivity].
  rewrite dumps_envelope. cbn [trigger_envelope env_data]. rewrite Hd.
  unfold row_after. destruct (succeeded _); reflexivity.
Qed.

Lemma X4_trigger_stamps_every_attempt_witness :
  db_fault_at Scenario.env (db_calls Scenario.world) = None
  ∧ Json.dumps (PDict Scenario.data) = inr Scenario.data_text
  ∧ matching "form_42" SUBMISSION_CREATED (session Scenario.world) !! 1%nat
    = Some ("wh_slow", Scenario.wh_slow)
  ∧ ∃ h',
      webhooks (session (trigger_webhooks Scenario.env "form_42" SUBMISSION_CREATED
                           Scenario.data Scenario.world).2) !! "wh_slow" = Some h'
      ∧ last_triggered h'
        = Some (utcnow_at Scenario.env (S (clock_reads Scenario.world) + 1))
      ∧ env_timestamp (trigger_envelope Scenario.env "form_42" SUBMISSION_CREATED
                         Scenario.data Scenario.world)
        = isoformat (utcnow_at Scenario.env (clock_reads Scenario.world)).
Proof.
  split; [reflexivity|]. split; [vm_compute; reflexivity|].
  split; [vm_compute; reflexivity|].
  apply (X4_trigger_stamps_every_attempt Scenario.env "form_42" SUBMISSION_CREATED
           Scenario.data Scenario.world Scenario.data_text 1%nat "wh_slow" Scenario.wh_slow);
    [reflexivity | vm_compute; reflexivity | vm_compute; reflexivity].
Defined.

(** ** A payload that [json.dumps] refuses *)

Lemma trigger_results_unserialisable env f ev pl w e :
  Json.dumps (PDict pl) = inl e →
  trigger_results env f ev pl w
  = map (fun kh : string * Webhook =>
           dict [("webhook_id", PStr kh.1); ("success", PBool false);
                 ("error", PStr (str_exn e)); ("url", PStr (url kh.2))])
        (matching f ev (session w)).
Proof.
  intros Hd. unfold trigger_results. rewrite dumps_envelope.
  cbn [trigger_envelope env_data]. rewrite Hd.
  apply list_eq. intros i. rewrite list_lookup_imap, list_lookup_fmap.
  destruct (matching f ev (session w) !! i); reflexivity.
Qed.

(** X5. When the payload holds a value that [json.dumps] cannot serialise, no
    request is sent at all, yet every matching webhook is reported as failed
    with the text of the exception and its failure counter goes up by one;
    [last_triggered] is not touched. *)
Theorem X5_trigger_unserialisable_payload env f ev pl w e :
  db_fault_at env (db_calls w) = None →
  db_fault_at env (S (db_calls w)) = None →
  pending w = [] →
  Json.dumps (PDict pl) = inl e →
  ∃ w',
    trigger_webhooks env f ev pl w
    = (inr (map (fun kh : string * Webhook =>
                   dict [("webhook_id", PStr kh.1); ("success", PBool false);
                         ("error", PStr (str_exn e)); ("url", PStr (url kh.2))])
                (matching f ev (session w))), w')
    ∧ posts w' = posts w
    ∧ ∀ i k h, matching f ev (session w) !! i = Some (k, h) →
        ∃ h', webhooks (stored w') !! k = Some h'
              ∧ failure_count h' = failure_count h + 1
              ∧ last_triggered h' = last_triggered h.
Proof.
  intros Hsel Hcommit Hpending Hd.
  destruct (matching f ev (session w)) as [|kh0 ws0] eqn:Hws.
  { exists (bump_db w). rewrite trigger_webhooks_none by assumption.
    split; [reflexivity|]. split; [reflexivity|].
    intros i k h Hi. rewrite lookup_nil in Hi. discriminate. }
  rewrite <- Hws.
  destruct (after_loop_spec env f ev pl w) as (Hposts & _ & Hpe & Hdb & _).
  destruct (db_commit_ok env (after_loop env f ev pl w))
    as (w' & Hc & Hst & Hse & _ & Hposts' & _).
  { rewrite Hdb. exact Hcommit. }
  { rewrite Hpe. exact Hpending. }
  exists w'.
  assert (trigger_webhooks env f ev pl w = (inr (trigger_results env f ev pl w), w')) as Hrun.
  { rewrite trigger_webhooks_commit, Hc by (rewrite ?Hws; done). reflexivity. }
  rewrite Hrun, (trigger_results_unserialisable env f ev pl w e Hd).
  split; [reflexivity|].
  split.
  { rewrite Hposts', Hposts, (trigger_posts_unserialisable env f ev pl w e Hd).
    apply app_nil_r. }
  intros i k h Hi.
  destruct (trigger_rows env f ev pl w Hsel) as [_ Hrow].
  specialize (Hrow i k h Hi). rewrite Hrun in Hrow. cbn [snd] in Hrow.
  rewrite Hse in Hrow. rewrite Hst.
  eexists. split; [exact Hrow|].
  rewrite dumps_envelope. cbn [trigger_envelope env_data]. rewrite Hd.
  split; reflexivity.
Qed.

Lemma X5_trigger_unserialisable_payload_witness :
  db_fault_at Scenario.env (db_calls Scenario.world) = None
  ∧ db_fault_at Scenario.env (S (db_calls Scenario.world)) = None
  ∧ pending Scenario.world = []
  ∧ Json.dumps (PDict Cases.opaque_payload) = inl (Json.not_serializable "datetime")
  ∧ ∃ w',
      trigger_webhooks Scenario.env "form_42" SUBMISSION_CREATED Cases.opaque_payload
                       Scenario.world
      = (inr (map (fun kh : string * Webhook =>
                     dict [("webhook_id", PStr kh.1); ("success", PBool false);
                           ("error", PStr (str_exn (Json.not_serializable "datetime")));
                           ("url", PStr (url kh.2))])
                  (matching "form_42" SUBMISSION_CREATED (session Scenario.world))), w')
      ∧ posts w' = posts Scenario.world
      ∧ ∀ i k h,
          matching "form_42" SUBMISSION_CREATED (session Scenario.world) !! i = Some (k, h) →
          ∃ h', webhooks (stored w') !! k = Some h'
                ∧ failure_count h' = failure_count h + 1
                ∧ last_triggered h' = last_triggered h.
Proof.
  split; [reflexivity|]. split; [reflexivity|]. split; [reflexivity|].
  split; [reflexivity|].
  apply (X5_trigger_unserialisable_payload Scenario.env "form_42" SUBMISSION_CREATED
           Cases.opaque_payload Scenario.world (Json.not_serializable "datetime"));
    reflexivity.
Defined.

(** X6. [_send_webhook] raises exactly when the data of the envelope does not
    serialise, with the exception of [json.dumps], and then nothing was
    sent; no answer of the network makes it raise. *)
Theorem X6_send_webhook_raises_iff env wid h p w e w' :
  _send_webhook env wid h p w = (inl e, w')
  ↔ Json.dumps (PDict (env_data p)) = inl e ∧ w' = w.
Proof.
  rewrite _send_webhook_run, dumps_envelope.
  destruct (Json.dumps (PDict (env_data p))) as [e0|d].
  - split.
    + intros [= -> ->]. auto.
    + intros [[= ->] ->]. reflexivity.
  - cbn zeta. split; [discriminate|]. intros [[=] _].
Qed.

(** ** [test_webhook] for a webhook that is not the caller's *)

(** X7. A webhook that does not exist and a webhook whose form belongs to
    someone else get the same answer: the structured failure
    "Webhook not found", with no request sent, no row changed, no commit. *)
Theorem X7_test_webhook_not_owner env wid owner w :
  db_fault_at env (db_calls w) = None →
  (webhooks (session w) !! wid = None
   ∨ ∃ h fm, webhooks (session w) !! wid = Some h
             ∧ forms (session w) !! form_id h = Some fm
             ∧ owner_id fm ≠ owner) →
  ∃ w',
    test_webhook env wid owner w
    = (inr (dict [("success", PBool false); ("error", PStr "Webhook not found")]), w')
    ∧ posts w' = posts w ∧ session w' = session w ∧ stored w' = stored w
    ∧ clock_reads w' = clock_reads w ∧ uuid_draws w' = uuid_draws w.
Proof.
  intros Hsel Hcase.
  assert (owned_webhook wid owner (session w) = None) as Hnone.
  { unfold owned_webhook. destruct Hcase as [->|(h & fm & -> & Hfm & Hne)]; [reflexivity|].
    cbn. rewrite Hfm. cbn. rewrite bool_decide_eq_false_2 by exact Hne. reflexivity. }
  exists (bump_db w).
  unfold test_webhook, db_execute, mbind, M_bind. rewrite db_call_run, Hsel.
  unfold gets. cbn [bump_db session]. rewrite Hnone.
  repeat split.
Qed.

Lemma X7_test_webhook_not_owner_witness :
  db_fault_at Scenario.env (db_calls Scenario.world) = None
  ∧ (webhooks (session Scenario.world) !! "wh_signed" = None
     ∨ ∃ h fm, webhooks (session Scenario.world) !! "wh_signed" = Some h
               ∧ forms (session Scenario.world) !! form_id h = Some fm
               ∧ owner_id fm ≠ 8)
  ∧ ∃ w',
      test_webhook Scenario.env "wh_signed" 8 Scenario.world
      = (inr (dict [("success", PBool false); ("error", PStr "Webhook not found")]), w')
      ∧ posts w' = posts Scenario.world ∧ session w' = session Scenario.world
      ∧ stored w' = stored Scenario.world
      ∧ clock_reads w' = clock_reads Scenario.world
      ∧ uuid_draws w' = uuid_draws Scenario.world.
Proof.
  assert (webhooks (session Scenario.world) !! "wh_signed" = None
          ∨ ∃ h fm, webhooks (session Scenario.world) !! "wh_signed" = Some h
                    ∧ forms (session Scenario.world) !! form_id h = Some fm
                    ∧ owner_id fm ≠ 8) as Hcase.
  { right. exists Scenario.wh_signed, Cases.form_42.
    split; [vm_compute; reflexivity|]. split; [vm_compute; reflexivity|]. discriminate. }
  split; [reflexivity|]. split; [exact Hcase|].
  apply (X7_test_webhook_not_owner Scenario.env "wh_signed" 8 Scenario.world);
    [reflexivity | exact Hcase].
Defined.

(** X8. When the commit at the end of [test_webhook] fails, the caller gets
    the exception although the test request has been sent; the stamp and
    the counter are not stored. *)
Theorem X8_test_webhook_commit_failure env wid owner w h m :
  db_fault_at env (db_calls w) = None →
  owned_webhook wid owner (session w) = Some h →
  db_fault_at env (S (db_calls w)) = Some m →
  ∃ w' r,
    test_webhook env wid owner w = (inl (PyException "SQLAlchemyError" m), w')
    ∧ posts w' = posts w ++ [r]
    ∧ req_url r = url h
    ∧ stored w' = stored w.
Proof.
  intros Hsel Hfound Hcommit.
  rewrite (test_webhook_run env wid owner w h Hsel Hfound), db_commit_run.
  assert (db_calls (test_before_commit env wid h w) = S (db_calls w)) as ->.
  { unfold test_before_commit. cbn zeta. destruct (succeeded _); reflexivity. }
  rewrite Hcommit. eexists _, _. split; [reflexivity|].
  unfold test_before_commit. cbn zeta. destruct (succeeded _); repeat split.
Qed.

Lemma X8_test_webhook_commit_failure_witness :
  db_fault_at Scenario.env_commit_fails (db_calls Scenario.world) = None
  ∧ owned_webhook "wh_signed" 7 (session Scenario.world) = Some Scenario.wh_signed
  ∧ db_fault_at Scenario.env_commit_fails (S (db_calls Scenario.world))
    = Some "connection lost"
  ∧ ∃ w' r,
      test_webhook Scenario.env_commit_fails "wh_signed" 7 Scenario.world
      = (inl (PyException "SQLAlchemyError" "connection lost"), w')
      ∧ posts w' = posts Scenario.world ++ [r]
      ∧ req_url r = url Scenario.wh_signed
      ∧ stored w' = stored Scenario.world.
Proof.
  split; [reflexivity|]. split; [vm_compute; reflexivity|]. split; [reflexivity|].
  apply (X8_test_webhook_commit_failure Scenario.env_commit_fails "wh_signed" 7
           Scenario.world Scenario.wh_signed "connection lost");
    [reflexivity | vm_compute; reflexivity | reflexivity].
Defined.

(** ** [create_webhook] *)

Lemma create_webhook_run env f wc owner w :
  create_webhook env f wc owner w
  = match db_fault_at env (db_calls w) with
    | Some m => (inl (db_error m), bump_db w)
    | None =>
        match owned_form f owner (session w) with
        | None => (inr None, bump_db w)
        | Some _ =>
            match db_fault_at env (S (db_calls w)) with
            | Some m => (inl (db_error m), bump_db (before_add wc w))
            | None =>
                if bool_decide (is_Some (webhooks (stored w) !! new_webhook_id env w))
                then (inl (PyException "IntegrityError" "duplicate key"),
                      bump_db (before_add wc w))
                else
                  match flush (insert_webhook (new_webhook_id env w)
                                 (new_webhook env f wc w) (bump_db (before_add wc w))) with
                  | (inl e, w') => (inl e, w')
                  | (inr _, w') =>
                      match db_fault_at env (db_calls w') with
                      | Some m => (inl (db_error m), bump_db w')
                      | None =>
                          (inr (Some (new_webhook_id env w, new_webhook env f wc w)),
                           bump_db w')
                      end
                  end
            end
        end
    end.
Proof.
  unfold create_webhook, db_execute, mbind, M_bind. rewrite db_call_run.
  destruct (db_fault_at env (db_calls w)) as [m|]; [reflexivity|].
  unfold gets. cbn [bump_db session].
  destruct (owned_form f owner (session w)) as [fm|]; [|reflexivity].
  unfold generate_webhook_id, generate_secret, db_add_commit_webhook, db_refresh,
    mbind, M_bind, gets, modify, raise.
  cbn [utcnow uuid4 mret M_ret].
  unfold new_webhook, new_webhook_secret, before_add, secret_given.
  destruct (wc_secret wc) as [s|]; [destruct (negb (String.eqb s ""))|];
    cbv beta iota zeta delta [mret M_ret utcnow uuid4 default from_option id];
    rewrite db_call_run; cbn [db_calls tick draw bump_db stored uuid_draws clock_reads];
    (destruct (db_fault_at env (S (db_calls w))) as [m|]; [reflexivity|]);
    fold (new_webhook_id env w);
    (destruct (bool_decide (is_Some (webhooks (stored w) !! new_webhook_id env w)));
       [reflexivity|]);
    match goal with |- context [flush ?a] => destruct (flush a) as [[e|[]] w'] end;
    try reflexivity;
    rewrite db_call_run; destruct (db_fault_at env (db_calls w')); reflexivity.
Qed.

Lemma flush_ok_inv w w' :
  flush w = (inr tt, w') →
  webhooks (session w') = webhooks (session w)
  ∧ forms (session w') = forms (session w)
  ∧ stored w' = session w' ∧ posts w' = posts w ∧ pending w' = []
  ∧ db_calls w' = db_calls w ∧ clock_reads w' = clock_reads w
  ∧ uuid_draws w' = uuid_draws w.
Proof.
  unfold flush. destruct (existsb _ _); [discriminate|].
  intros [= <-]. repeat split.
Qed.

Lemma new_webhook_secret_nonempty env wc w : new_webhook_secret env wc w ≠ "".
Proof.
  unfold new_webhook_secret, secret_given.
  destruct (wc_secret wc) as [s|]; [|discriminate].
  destruct (String.eqb s "") eqn:E; cbn; [discriminate|].
  apply String.eqb_neq. exact E.
Qed.

(** What a successful [create_webhook] has done. *)
Lemma create_webhook_inv env f wc owner w wid h w1 :
  create_webhook env f wc owner w = (inr (Some (wid, h)), w1) →
  wid = new_webhook_id env w ∧ h = new_webhook env f wc w
  ∧ is_Some (owned_form f owner (session w))
  ∧ webhooks (stored w) !! wid = None
  ∧ webhooks (session w1) = <[wid := h]> (webhooks (session w))
  ∧ forms (session w1) = forms (session w)
  ∧ stored w1 = session w1 ∧ posts w1 = posts w ∧ pending w1 = [].
Proof.
  rewrite create_webhook_run.
  destruct (db_fault_at env (db_calls w)); [discriminate|].
  destruct (owned_form f owner (session w)) as [fm|]; [|discriminate].
  destruct (db_fault_at env (S (db_calls w))); [discriminate|].
  case_bool_decide as Htaken; [discriminate|].
  destruct (flush _) as [[e|[]] w'] eqn:Hflush; [discriminate|].
  destruct (db_fault_at env (db_calls w')); [discriminate|].
  intros [= <- <- <-].
  apply flush_ok_inv in Hflush as (Hw & Hf & Hst & Hp & Hpe & _).
  split; [reflexivity|]. split; [reflexivity|]. split; [eexists; reflexivity|].
  split; [apply eq_None_not_Some; exact Htaken|].
  cbn [bump_db session stored posts pending]. rewrite Hw, Hf, Hst, Hp, Hpe.
  unfold before_add. destruct (secret_given wc); repeat split.
Qed.

(** X9. For the owner of the form, with a fresh id and a database that answers,
    [create_webhook] stores and returns the new webhook: it has a non-empty
    secret (the one supplied, or a generated one when none or an empty one
    was supplied), no failure, no [last_triggered]; the other webhooks are
    not changed. *)
Theorem X9_create_webhook_stores env f wc owner w fm :
  db_fault_at env (db_calls w) = None →
  db_fault_at env (S (db_calls w)) = None →
  db_fault_at env (S (S (db_calls w))) = None →
  pending w = [] →
  forms (session w) !! f = Some fm →
  owner_id fm = owner →
  webhooks (stored w) !! new_webhook_id env w = None →
  ∃ h w' s,
    create_webhook env f wc owner w = (inr (Some (new_webhook_id env w, h)), w')
    ∧ webhooks (stored w') !! new_webhook_id env w = Some h
    ∧ secret h = Some s ∧ s ≠ ""
    ∧ (∀ s0, wc_secret wc = Some s0 → s0 ≠ "" → s = s0)
    ∧ form_id h = f ∧ url h = wc_url wc ∧ active h = wc_active wc
    ∧ events h = map event_value (wc_events wc)
    ∧ failure_count h = 0 ∧ last_triggered h = None
    ∧ ∀ k, k ≠ new_webhook_id env w →
        webhooks (stored w') !! k = webhooks (session w) !! k.
Proof.
  intros Hsel Hcommit Hrefresh Hpending Hfm Howner Hfresh.
  rewrite create_webhook_run, Hsel. unfold owned_form. rewrite Hfm. cbn [mbind option_bind].
  rewrite bool_decide_eq_true_2 by exact Howner.
  rewrite Hcommit, Hfresh.
  rewrite bool_decide_eq_false_2 by (intros [x Hx]; discriminate Hx).
  match goal with |- context [flush ?a] =>
    destruct (flush_no_pending a) as (w1 & -> & Hst & Hse & _ & _ & _ & Hdb & _)
  end.
  { unfold before_add. destruct (secret_given wc); cbn; exact Hpending. }
  assert (db_calls w1 = S (S (db_calls w))) as ->.
  { rewrite Hdb. unfold before_add. destruct (secret_given wc); reflexivity. }
  rewrite Hrefresh.
  exists (new_webhook env f wc w), (bump_db w1), (new_webhook_secret env wc w).
  split; [reflexivity|].
  cbn [bump_db stored]. rewrite Hst.
  assert (webhooks (session (insert_webhook (new_webhook_id env w) (new_webhook env f wc w)
                               (bump_db (before_add wc w))))
          = <[new_webhook_id env w := new_webhook env f wc w]> (webhooks (session w))) as Hins.
  { unfold before_add. destruct (secret_given wc); reflexivity. }
  rewrite Hins.
  split; [apply lookup_insert_eq|].
  split; [reflexivity|]. split; [apply new_webhook_secret_nonempty|].
  split.
  { intros s0 Hs0 Hne. unfold new_webhook_secret, secret_given. rewrite Hs0.
    apply String.eqb_neq in Hne. rewrite Hne. reflexivity. }
  repeat (split; [reflexivity|]).
  intros k Hk. apply lookup_insert_ne. congruence.
Qed.

Lemma X9_create_webhook_stores_witness :
  db_fault_at Scenario.env (db_calls Scenario.world) = None
  ∧ db_fault_at Scenario.env (S (db_calls Scenario.world)) = None
  ∧ db_fault_at Scenario.env (S (S (db_calls Scenario.world))) = None
  ∧ pending Scenario.world = []
  ∧ forms (session Scenario.world) !! "form_42" = Some Cases.form_42
  ∧ owner_id Cases.form_42 = 7
  ∧ webhooks (stored Scenario.world) !! new_webhook_id Scenario.env Scenario.world = None
  ∧ ∃ h w' s,
      create_webhook Scenario.env "form_42" Cases.hook_request 7 Scenario.world
      = (inr (Some (new_webhook_id Scenario.env Scenario.world, h)), w')
      ∧ webhooks (stored w') !! new_webhook_id Scenario.env Scenario.world = Some h
      ∧ secret h = Some s ∧ s ≠ ""
      ∧ (∀ s0, wc_secret Cases.hook_request = Some s0 → s0 ≠ "" → s = s0)
      ∧ form_id h = "form_42" ∧ url h = wc_url Cases.hook_request
      ∧ active h = wc_active Cases.hook_request
      ∧ events h = map event_value (wc_events Cases.hook_request)
      ∧ failure_count h = 0 ∧ last_triggered h = None
      ∧ ∀ k, k ≠ new_webhook_id Scenario.env Scenario.world →
          webhooks (stored w') !! k = webhooks (session Scenario.world) !! k.
Proof.
  split; [reflexivity|]. split; [reflexivity|]. split; [reflexivity|].
  split; [reflexivity|]. split; [vm_compute; reflexivity|]. split; [reflexivity|].
  split; [vm_compute; reflexivity|].
  apply (X9_create_webhook_stores Scenario.env "form_42" Cases.hook_request 7 Scenario.world
           Cases.form_42);
    [reflexivity | reflexivity | reflexivity | reflexivity | vm_compute; reflexivity
    | reflexivity | vm_compute; reflexivity].
Defined.

(** X10. For a form that does not exist or belongs to someone else,
    [create_webhook] returns [None] and does nothing: no id or secret is
    generated, nothing is added, nothing is committed. *)
Theorem X10_create_webhook_not_owner env f wc owner w :
  db_fault_at env (db_calls w) = None →
  (forms (session w) !! f = None
   ∨ ∃ fm, forms (session w) !! f = Some fm ∧ owner_id fm ≠ owner) →
  ∃ w',
    create_webhook env f wc owner w = (inr None, w')
    ∧ session w' = session w ∧ stored w' = stored w ∧ posts w' = posts w
    ∧ clock_reads w' = clock_reads w ∧ uuid_draws w' = uuid_draws w
    ∧ db_calls w' = S (db_calls w).
Proof.
  intros Hsel Hcase. rewrite create_webhook_run, Hsel.
  assert (owned_form f owner (session w) = None) as ->.
  { unfold owned_form. destruct Hcase as [->|(fm & -> & Hne)]; [reflexivity|].
    cbn. rewrite bool_decide_eq_false_2 by exact Hne. reflexivity. }
  exists (bump_db w). repeat split.
Qed.

Lemma X10_create_webhook_not_owner_witness :
  db_fault_at Scenario.env (db_calls Scenario.world) = None
  ∧ (forms (session Scenario.world) !! "form_42" = None
     ∨ ∃ fm, forms (session Scenario.world) !! "form_42" = Some fm ∧ owner_id fm ≠ 8)
  ∧ ∃ w',
      create_webhook Scenario.env "form_42" Cases.hook_request 8 Scenario.world
      = (inr None, w')
      ∧ session w' = session Scenario.world ∧ stored w' = stored Scenario.world
      ∧ posts w' = posts Scenario.world
      ∧ clock_reads w' = clock_reads Scenario.world
      ∧ uuid_draws w' = uuid_draws Scenario.world
      ∧ db_calls w' = S (db_calls Scenario.world).
Proof.
  assert (forms (session Scenario.world) !! "form_42" = None
          ∨ ∃ fm, forms (session Scenario.world) !! "form_42" = Some fm ∧ owner_id fm ≠ 8)
    as Hcase.
  { right. exists Cases.form_42. split; [vm_compute; reflexivity|discriminate]. }
  split; [reflexivity|]. split; [exact Hcase|].
  apply (X10_create_webhook_not_owner Scenario.env "form_42" Cases.hook_request 8
           Scenario.world); [reflexivity | exact Hcase].
Defined.

(** ** [get_form_webhooks] *)

Lemma form_webhooks_elem f t k h :
  (k, h) ∈ form_webhooks f t ↔ webhooks t !! k = Some h ∧ form_id h = f.
Proof.
  unfold form_webhooks. rewrite list_elem_of_filter, elem_of_map_to_list. cbn.
  split; intros [? ?]; auto.
Qed.

Lemma owned_form_Some f owner t :
  is_Some (owned_form f owner t) ↔ ∃ fm, forms t !! f = Some fm ∧ owner_id fm = owner.
Proof.
  unfold owned_form. destruct (forms t !! f) as [fm|]; cbn.
  - case_bool_decide as Ho.
    + split; [intros _; eauto | intros _; eexists; reflexivity].
    + split; [intros [x Hx]; discriminate Hx | intros (fm' & [= <-] & Hfm); contradiction].
  - split; [intros [x Hx]; discriminate Hx | intros (fm' & [=] & _)].
Qed.

Lemma get_form_webhooks_run env f owner w :
  get_form_webhooks env f owner w
  = match db_fault_at env (db_calls w) with
    | Some m => (inl (db_error m), bump_db w)
    | None =>
        match owned_form f owner (session w) with
        | None => (inr [], bump_db w)
        | Some _ =>
            match db_fault_at env (S (db_calls w)) with
            | Some m => (inl (db_error m), bump_db (bump_db w))
            | None => (inr (form_webhooks f (session w)), bump_db (bump_db w))
            end
        end
    end.
Proof.
  unfold get_form_webhooks, db_execute, mbind, M_bind. rewrite db_call_run.
  destruct (db_fault_at env (db_calls w)); [reflexivity|].
  unfold gets. cbn [bump_db session].
  destruct (owned_form f owner (session w)); [|reflexivity].
  rewrite db_call_run. cbn [db_calls bump_db].
  destruct (db_fault_at env (S (db_calls w))); reflexivity.
Qed.

Lemma form_webhooks_NoDup f t : NoDup (form_webhooks f t).*1.
Proof.
  unfold form_webhooks.
  eapply sublist_NoDup; [apply (NoDup_fst_map_to_list (webhooks t))|].
  apply fmap_sublist, sublist_filter.
Qed.

(** X11. [get_form_webhooks] lists a webhook exactly when the caller owns the
    form and the webhook belongs to it, active or not, each one once; a
    caller who does not own the form gets the empty list.  It changes no
    row and sends nothing. *)
Theorem X11_get_form_webhooks_lists_own env f owner w :
  db_fault_at env (db_calls w) = None →
  db_fault_at env (S (db_calls w)) = None →
  ∃ l w',
    get_form_webhooks env f owner w = (inr l, w')
    ∧ (∀ k h, (k, h) ∈ l
              ↔ (∃ fm, forms (session w) !! f = Some fm ∧ owner_id fm = owner)
                ∧ webhooks (session w) !! k = Some h ∧ form_id h = f)
    ∧ NoDup l.*1
    ∧ session w' = session w ∧ stored w' = stored w ∧ posts w' = posts w.
Proof.
  intros Hsel1 Hsel2. rewrite get_form_webhooks_run, Hsel1, Hsel2.
  pose proof (owned_form_Some f owner (session w)) as Hown.
  destruct (owned_form f owner (session w)) as [fm|].
  - eexists _, _. split; [reflexivity|]. split; [|split; [apply form_webhooks_NoDup|]].
    + intros k h. rewrite form_webhooks_elem.
      split; [intros [? ?]; split; [apply Hown; eexists; reflexivity|auto]
             |intros (_ & ? & ?); auto].
    + repeat split.
  - eexists _, _. split; [reflexivity|]. split; [|split; [constructor|repeat split]].
    intros k h. split; [intros Hin; inversion Hin|].
    intros (Hfm & _). apply Hown in Hfm. destruct Hfm as [x Hx]. discriminate Hx.
Qed.

Lemma X11_get_form_webhooks_lists_own_witness :
  db_fault_at Scenario.env (db_calls Scenario.world) = None
  ∧ db_fault_at Scenario.env (S (db_calls Scenario.world)) = None
  ∧ ∃ l w',
      get_form_webhooks Scenario.env "form_42" 7 Scenario.world = (inr l, w')
      ∧ (∀ k h, (k, h) ∈ l
                ↔ (∃ fm, forms (session Scenario.world) !! "form_42" = Some fm
                         ∧ owner_id fm = 7)
                  ∧ webhooks (session Scenario.world) !! k = Some h
                  ∧ form_id h = "form_42")
      ∧ NoDup l.*1
      ∧ session w' = session Scenario.world ∧ stored w' = stored Scenario.world
      ∧ posts w' = posts Scenario.world.
Proof.
  split; [reflexivity|]. split; [reflexivity|].
  apply (X11_get_form_webhooks_lists_own Scenario.env "form_42" 7 Scenario.world); reflexivity.
Defined.

(** X12. Every webhook a dispatch for a form can deliver to is among those
    [get_form_webhooks] shows to the owner of that form. *)
Theorem X12_delivery_targets_are_listed env f ev w fm :
  db_fault_at env (db_calls w) = None →
  db_fault_at env (S (db_calls w)) = None →
  forms (session w) !! f = Some fm →
  ∃ l w',
    get_form_webhooks env f (owner_id fm) w = (inr l, w')
    ∧ ∀ kh, kh ∈ matching f ev (session w) → kh ∈ l.
Proof.
  intros Hsel1 Hsel2 Hfm. rewrite get_form_webhooks_run, Hsel1, Hsel2.
  destruct (proj2 (owned_form_Some f (owner_id fm) (session w))) as [fm' ->]; [eauto|].
  eexists _, _. split; [reflexivity|].
  intros [k h] Hin. apply form_webhooks_elem.
  unfold matching in Hin. apply list_elem_of_filter in Hin as [(Hf & _) Hin].
  apply elem_of_map_to_list in Hin. cbn in *. auto.
Qed.

Lemma X12_delivery_targets_are_listed_witness :
  db_fault_at Scenario.env (db_calls Scenario.world) = None
  ∧ db_fault_at Scenario.env (S (db_calls Scenario.world)) = None
  ∧ forms (session Scenario.world) !! "form_42" = Some Cases.form_42
  ∧ ∃ l w',
      get_form_webhooks Scenario.env "form_42" (owner_id Cases.form_42) Scenario.world
      = (inr l, w')
      ∧ ∀ kh, kh ∈ matching "form_42" SUBMISSION_CREATED (session Scenario.world) → kh ∈ l.
Proof.
  split; [reflexivity|]. split; [reflexivity|]. split; [vm_compute; reflexivity|].
  apply (X12_delivery_targets_are_listed Scenario.env "form_42" SUBMISSION_CREATED
           Scenario.world Cases.form_42);
    [reflexivity | reflexivity | vm_compute; reflexivity].
Defined.

(** ** A created webhook in use *)

(** X13. A webhook that [create_webhook] returned is listed for its owner. *)
Theorem X13_created_webhook_is_listed env f wc owner w wid h w1 :
  create_webhook env f wc owner w = (inr (Some (wid, h)), w1) →
  db_fault_at env (db_calls w1) = None →
  db_fault_at env (S (db_calls w1)) = None →
  ∃ l w2,
    get_form_webhooks env f owner w1 = (inr l, w2)
    ∧ (wid, h) ∈ l.
Proof.
  intros Hcreate Hsel1 Hsel2.
  apply create_webhook_inv in Hcreate
    as (-> & -> & Hown & _ & Hw1 & Hf1 & _).
  rewrite get_form_webhooks_run, Hsel1, Hsel2.
  assert (is_Some (owned_form f owner (session w1))) as [fm' ->].
  { apply owned_form_Some. rewrite Hf1. apply owned_form_Some, Hown. }
  eexists _, _. split; [reflexivity|].
  apply form_webhooks_elem. rewrite Hw1.
  split; [apply lookup_insert_eq | reflexivity].
Qed.

Lemma scenario_create_webhook :
  create_webhook Scenario.env "form_42" Cases.hook_request 7 Scenario.world
  = (inr (Some (new_webhook_id Scenario.env Scenario.world,
                new_webhook Scenario.env "form_42" Cases.hook_request Scenario.world)),
     Cases.world_with_hook).
Proof. vm_compute. reflexivity. Qed.

Lemma X13_created_webhook_is_listed_witness :
  create_webhook Scenario.env "form_42" Cases.hook_request 7 Scenario.world
  = (inr (Some (new_webhook_id Scenario.env Scenario.world,
                new_webhook Scenario.env "form_42" Cases.hook_request Scenario.world)),
     Cases.world_with_hook)
  ∧ db_fault_at Scenario.env (db_calls Cases.world_with_hook) = None
  ∧ db_fault_at Scenario.env (S (db_calls Cases.world_with_hook)) = None
  ∧ ∃ l w2,
      get_form_webhooks Scenario.env "form_42" 7 Cases.world_with_hook = (inr l, w2)
      ∧ (new_webhook_id Scenario.env Scenario.world,
         new_webhook Scenario.env "form_42" Cases.hook_request Scenario.world) ∈ l.
Proof.
  split; [exact scenario_create_webhook|]. split; [reflexivity|]. split; [reflexivity|].
  apply (X13_created_webhook_is_listed Scenario.env "form_42" Cases.hook_request 7
           Scenario.world (new_webhook_id Scenario.env Scenario.world)
           (new_webhook Scenario.env "form_42" Cases.hook_request Scenario.world)
           Cases.world_with_hook);
    [exact scenario_create_webhook | reflexivity | reflexivity].
Defined.

(** X14. A webhook that [create_webhook] returned, created active and subscribed
    to an event, receives the next dispatch of that event for its form, at
    its url and signed with its secret: creation never leaves a webhook
    unsigned. *)
Theorem X14_created_webhook_receives_signed env f wc owner w wid h w1 ev pl d :
  create_webhook env f wc owner w = (inr (Some (wid, h)), w1) →
  wc_active wc = true →
  ev ∈ wc_events wc →
  db_fault_at env (db_calls w1) = None →
  Json.dumps (PDict pl) = inr d →
  ∃ new r s,
    posts (trigger_webhooks env f ev pl w1).2 = posts w1 ++ new
    ∧ r ∈ new
    ∧ req_url r = wc_url wc
    ∧ secret h = Some s ∧ s ≠ ""
    ∧ req_headers r !! "X-Formerr-Signature"
      = Some ("sha256=" +:+ HMAC.hexdigest (encode_utf8 s) (wire_body r)).
Proof.
  intros Hcreate Hactive Hev Hsel Hd.
  apply create_webhook_inv in Hcreate as (-> & -> & _ & _ & Hw1 & _).
  destruct (trigger_webhooks_log env f ev pl w1 Hsel) as [Hp _].
  rewrite (trigger_posts_serialised env f ev pl w1 d Hd) in Hp.
  eexists _, (request_of (new_webhook env f wc w) (trigger_envelope env f ev pl w1)
                (serialised (trigger_envelope env f ev pl w1) d)),
            (new_webhook_secret env wc w).
  split; [exact Hp|].
  split.
  { apply (list_elem_of_fmap_2
             (fun kh : string * Webhook =>
                request_of kh.2 (trigger_envelope env f ev pl w1)
                  (serialised (trigger_envelope env f ev pl w1) d))
             _ (new_webhook_id env w, new_webhook env f wc w)).
    unfold matching. apply list_elem_of_filter. split.
    - cbn. split; [reflexivity|]. split; [exact Hactive|].
      apply list_elem_of_fmap. exists ev. auto.
    - apply elem_of_map_to_list. rewrite Hw1. apply lookup_insert_eq. }
  split; [reflexivity|]. split; [reflexivity|].
  split; [apply new_webhook_secret_nonempty|].
  unfold request_of, wire_body. cbn [req_headers req_content].
  assert (has_secret (new_webhook env f wc w) = true) as ->.
  { apply has_secret_true. eexists. split; [reflexivity|apply new_webhook_secret_nonempty]. }
  cbn [new_webhook secret default from_option]. rewrite lookup_insert_eq. reflexivity.
Qed.

Lemma X14_created_webhook_receives_signed_witness :
  create_webhook Scenario.env "form_42" Cases.hook_request 7 Scenario.world
  = (inr (Some (new_webhook_id Scenario.env Scenario.world,
                new_webhook Scenario.env "form_42" Cases.hook_request Scenario.world)),
     Cases.world_with_hook)
  ∧ wc_active Cases.hook_request = true
  ∧ SUBMISSION_CREATED ∈ wc_events Cases.hook_request
  ∧ db_fault_at Scenario.env (db_calls Cases.world_with_hook) = None
  ∧ Json.dumps (PDict Scenario.data) = inr Scenario.data_text
  ∧ ∃ new r s,
      posts (trigger_webhooks Scenario.env "form_42" SUBMISSION_CREATED Scenario.data
               Cases.world_with_hook).2 = posts Cases.world_with_hook ++ new
      ∧ r ∈ new
      ∧ req_url r = wc_url Cases.hook_request
      ∧ secret (new_webhook Scenario.env "form_42" Cases.hook_request Scenario.world)
        = Some s
      ∧ s ≠ ""
      ∧ req_headers r !! "X-Formerr-Signature"
        = Some ("sha256=" +:+ HMAC.hexdigest (encode_utf8 s) (wire_body r)).
Proof.
  split; [exact scenario_create_webhook|]. split; [reflexivity|].
  split; [constructor|]. split; [reflexivity|]. split; [vm_compute; reflexivity|].
  apply (X14_created_webhook_receives_signed Scenario.env "form_42" Cases.hook_request 7
           Scenario.world (new_webhook_id Scenario.env Scenario.world)
           (new_webhook Scenario.env "form_42" Cases.hook_request Scenario.world)
           Cases.world_with_hook SUBMISSION_CREATED Scenario.data Scenario.data_text);
    [exact scenario_create_webhook | reflexivity | constructor | reflexivity
    | vm_compute; reflexivity].
Defined.

(** ** Lengths of digests and of their prefixes *)

Lemma compress_length h blk : length h = 8%nat → length (SHA256.compress h blk) = 8%nat.
Proof.
  intros Hh. unfold SHA256.compress. cbn zeta.
  rewrite length_map, length_combine, Hh. reflexivity.
Qed.

Lemma fold_compress_length blocks : ∀ h,
  length h = 8%nat → length (fold_left SHA256.compress blocks h) = 8%nat.
Proof.
  induction blocks as [|blk blocks IH]; intros h Hh; [exact Hh|].
  cbn [fold_left]. apply IH, compress_length, Hh.
Qed.

Lemma be_bytes_length n x : length (SHA256.be_bytes n x) = n.
Proof. induction n as [|n IH]; [reflexivity|]. cbn [SHA256.be_bytes length]. rewrite IH. reflexivity. Qed.

Lemma concat_words_length (ws : list Z) :
  length (concat (map (SHA256.be_bytes 4) ws)) = (4 * length ws)%nat.
Proof.
  induction ws as [|x ws IH]; [reflexivity|].
  cbn [map concat]. rewrite length_app, be_bytes_length, IH. cbn [length]. lia.
Qed.

Lemma sha256_digest_length msg : length (SHA256.digest msg) = 32%nat.
Proof.
  unfold SHA256.digest. cbn zeta. rewrite concat_words_length.
  rewrite fold_compress_length; reflexivity.
Qed.

Lemma hex_length bs : String.length (hex bs) = (2 * length bs)%nat.
Proof.
  induction bs as [|b bs IH]; [reflexivity|].
  cbn [hex String.length length]. rewrite IH. lia.
Qed.

Lemma substring_prefix_length n : ∀ s,
  (n ≤ String.length s)%nat → String.length (String.substring 0 n s) = n.
Proof.
  induction n as [|n IH]; intros s Hn.
  - destruct s; reflexivity.
  - destruct s as [|c s]; [cbn in Hn; lia|].
    cbn [String.substring String.length]. rewrite IH; [reflexivity|]. cbn in Hn. lia.
Qed.

Lemma substring_prefix_Forall (P : ascii → Prop) n : ∀ s,
  Forall P (list_ascii_of_string s) →
  Forall P (list_ascii_of_string (String.substring 0 n s)).
Proof.
  induction n as [|n IH]; intros s Hs.
  - destruct s; constructor.
  - destruct s as [|c s]; [constructor|].
    cbn [String.substring list_ascii_of_string] in *.
    apply Forall_cons in Hs as [Hc Hs]. constructor; [exact Hc|]. apply IH, Hs.
Qed.

Lemma substring_whole n : ∀ s, String.length s = n → String.substring 0 n s = s.
Proof.
  induction n as [|n IH]; intros s Hs.
  - destruct s; [reflexivity|discriminate].
  - destruct s as [|c s]; [discriminate|].
    cbn [String.substring]. rewrite IH; [reflexivity|]. cbn in Hs. lia.
Qed.

Lemma append_cons c s t : String c s +:+ t = String c (s +:+ t).
Proof. reflexivity. Qed.

Lemma append_nil_l s : "" +:+ s = s.
Proof. reflexivity. Qed.

Lemma append_length s : ∀ t,
  String.length (s +:+ t) = (String.length s + String.length t)%nat.
Proof.
  induction s as [|c s IH]; intros t; [reflexivity|].
  rewrite append_cons. cbn [String.length]. rewrite IH. reflexivity.
Qed.

Lemma list_ascii_of_append s : ∀ t,
  list_ascii_of_string (s +:+ t) = list_ascii_of_string s ++ list_ascii_of_string t.
Proof.
  induction s as [|c s IH]; intros t; [reflexivity|].
  rewrite append_cons. cbn [list_ascii_of_string]. rewrite IH. reflexivity.
Qed.

(** X15. [hash_ip] gives exactly 16 lowercase hexadecimal digits, whatever the
    text of the address (also for [unknown] or an empty header). *)
Theorem X15_hash_ip_shape ip :
  String.length (hash_ip ip) = 16%nat
  ∧ Forall (fun c => is_lower_hex c = true) (list_ascii_of_string (hash_ip ip)).
Proof.
  unfold hash_ip. split.
  - apply substring_prefix_length. rewrite hex_length, sha256_digest_length. lia.
  - apply substring_prefix_Forall, hex_lower, sha256_digest_range.
Qed.

(** X16. A signature is always [sha256=] followed by exactly 64 lowercase
    hexadecimal digits, 71 characters in all, whatever the payload and the
    secret. *)
Theorem X16_create_signature_shape payload secret0 :
  ∃ digits,
    create_signature payload secret0 = "sha256=" +:+ digits
    ∧ String.length digits = 64%nat
    ∧ Forall (fun c => is_lower_hex c = true) (list_ascii_of_string digits)
    ∧ String.length (create_signature payload secret0) = 71%nat.
Proof.
  exists (HMAC.hexdigest (encode_utf8 secret0) (encode_utf8 payload)).
  assert (String.length (HMAC.hexdigest (encode_utf8 secret0) (encode_utf8 payload)) = 64%nat)
    as Hlen.
  { unfold HMAC.hexdigest, HMAC.digest. cbn zeta.
    rewrite hex_length, sha256_digest_length. reflexivity. }
  split; [reflexivity|]. split; [exact Hlen|]. split; [apply hexdigest_lower|].
  unfold create_signature. cbn zeta. rewrite append_length, Hlen. reflexivity.
Qed.

(** ** Generated secrets and ids *)

Lemma lower_hex_not_dash c : is_lower_hex c = true → negb (Ascii.eqb c "-") = true.
Proof.
  intros Hc. destruct (Ascii.eqb_spec c "-") as [->|]; [|reflexivity].
  vm_compute in Hc. discriminate Hc.
Qed.

Lemma filter_lower_hex l :
  Forall (fun c => is_lower_hex c = true) l →
  List.filter (fun c => negb (Ascii.eqb c "-")) l = l.
Proof.
  induction 1 as [|c l Hc _ IH]; [reflexivity|].
  cbn [List.filter]. rewrite (lower_hex_not_dash c Hc), IH. reflexivity.
Qed.

Lemma string_of_list_app l : ∀ k,
  string_of_list_ascii (l ++ k) = string_of_list_ascii l +:+ string_of_list_ascii k.
Proof.
  induction l as [|c l IH]; intros k; [reflexivity|].
  cbn [app string_of_list_ascii]. rewrite IH. reflexivity.
Qed.

Lemma uuid_hex_lower s : lower_hex s → uuid_hex s = s.
Proof.
  intros Hs. unfold uuid_hex. rewrite (filter_lower_hex _ Hs).
  apply string_of_list_ascii_of_string.
Qed.

Lemma uuid_hex_append s t : uuid_hex (s +:+ t) = uuid_hex s +:+ uuid_hex t.
Proof.
  unfold uuid_hex. rewrite list_ascii_of_append, List.filter_app.
  apply string_of_list_app.
Qed.

(** X17. The secret that [generate_secret] makes from a uuid in the canonical
    8-4-4-4-12 text form is [whsec_] followed by the 32 hexadecimal digits
    of the uuid, hyphens removed: 38 characters. *)
Theorem X17_generate_secret_format env w a b c d e :
  uuid4_at env (uuid_draws w) = a +:+ "-" +:+ b +:+ "-" +:+ c +:+ "-" +:+ d +:+ "-" +:+ e →
  lower_hex a → lower_hex b → lower_hex c → lower_hex d → lower_hex e →
  String.length (a +:+ b +:+ c +:+ d +:+ e) = 32%nat →
  generate_secret env w = (inr ("whsec_" +:+ a +:+ b +:+ c +:+ d +:+ e), draw w)
  ∧ String.length ("whsec_" +:+ a +:+ b +:+ c +:+ d +:+ e) = 38%nat.
Proof.
  intros Hu Ha Hb Hc Hd He Hlen. split.
  - unfold generate_secret, mbind, M_bind, uuid4, mret, M_ret. rewrite Hu.
    rewrite !uuid_hex_append.
    rewrite (uuid_hex_lower a Ha), (uuid_hex_lower b Hb), (uuid_hex_lower c Hc),
      (uuid_hex_lower d Hd), (uuid_hex_lower e He).
    change (uuid_hex "-") with "". rewrite !append_nil_l.
    rewrite (substring_whole 32 _ Hlen). reflexivity.
  - rewrite append_length, Hlen. reflexivity.
Qed.

Lemma X17_generate_secret_format_witness :
  uuid4_at Scenario.env (uuid_draws Scenario.world)
  = "3f2b8c1e" +:+ "-" +:+ "0000" +:+ "-" +:+ "4000" +:+ "-" +:+ "8000" +:+ "-"
    +:+ "000000000000"
  ∧ lower_hex "3f2b8c1e" ∧ lower_hex "0000" ∧ lower_hex "4000" ∧ lower_hex "8000"
  ∧ lower_hex "000000000000"
  ∧ String.length ("3f2b8c1e" +:+ "0000" +:+ "4000" +:+ "8000" +:+ "000000000000") = 32%nat
  ∧ generate_secret Scenario.env Scenario.world
    = (inr ("whsec_" +:+ "3f2b8c1e" +:+ "0000" +:+ "4000" +:+ "8000" +:+ "000000000000"),
       draw Scenario.world)
  ∧ String.length ("whsec_" +:+ "3f2b8c1e" +:+ "0000" +:+ "4000" +:+ "8000"
                   +:+ "000000000000") = 38%nat.
Proof.
  split; [vm_compute; reflexivity|].
  split; [repeat constructor|]. split; [repeat constructor|].
  split; [repeat constructor|]. split; [repeat constructor|].
  split; [repeat constructor|]. split; [reflexivity|].
  apply (X17_generate_secret_format Scenario.env Scenario.world
           "3f2b8c1e" "0000" "4000" "8000" "000000000000");
    [vm_compute; reflexivity | repeat constructor | repeat constructor
    | repeat constructor | repeat constructor | repeat constructor | reflexivity].
Defined.

Lemma append_inj_suffix x : ∀ x' y y',
  String.length y = String.length y' → x +:+ y = x' +:+ y' → x = x' ∧ y = y'.
Proof.
  induction x as [|c x IH]; intros [|c' x'] y y' Hlen Heq.
  - split; [reflexivity|exact Heq].
  - change ("" +:+ y) with y in Heq. subst y.
    rewrite append_cons in Hlen. cbn [String.length] in Hlen.
    rewrite append_length in Hlen. lia.
  - change ("" +:+ y') with y' in Heq. subst y'.
    rewrite append_cons in Hlen. cbn [String.length] in Hlen.
    rewrite append_length in Hlen. lia.
  - rewrite !append_cons in Heq. injection Heq as -> Heq.
    destruct (IH x' y y' Hlen Heq) as [-> ->]. split; reflexivity.
Qed.

Lemma tagged_id_inj pre stamp stamp' u u' :
  String.length u = String.length u' →
  (pre +:+ stamp +:+ "_" +:+ u = pre +:+ stamp' +:+ "_" +:+ u' ↔ stamp = stamp' ∧ u = u').
Proof.
  intros Hlen. split.
  - intros Heq. apply String.app_inj in Heq.
    change (stamp +:+ "_" +:+ u) with (stamp +:+ String "_" u) in Heq.
    change (stamp' +:+ "_" +:+ u') with (stamp' +:+ String "_" u') in Heq.
    apply append_inj_suffix in Heq as [-> Heq]; [|cbn [String.length]; lia].
    injection Heq as ->. split; reflexivity.
  - intros [-> ->]. reflexivity.
Qed.

(** X18. Two generated ids (of a submission, a webhook or a form) are equal
    exactly when their second-resolution time texts agree and the two uuids
    share their first eight characters; nothing else of the clock or of the
    uuid enters the id. *)
Theorem X18_generated_ids_collide env env' w w' :
  (8 ≤ String.length (uuid4_at env (uuid_draws w)))%nat →
  (8 ≤ String.length (uuid4_at env' (uuid_draws w')))%nat →
  ((generate_submission_id env w).1 = (generate_submission_id env' w').1
   ↔ id_parts env w = id_parts env' w')
  ∧ ((generate_webhook_id env w).1 = (generate_webhook_id env' w').1
     ↔ id_parts env w = id_parts env' w')
  ∧ ((generate_form_id env w).1 = (generate_form_id env' w').1
     ↔ id_parts env w = id_parts env' w').
Proof.
  intros Hu Hu'.
  assert (String.length (String.substring 0 8 (uuid4_at env (uuid_draws w)))
          = String.length (String.substring 0 8 (uuid4_at env' (uuid_draws w')))) as Hlen.
  { rewrite !substring_prefix_length by assumption. reflexivity. }
  unfold generate_submission_id, generate_webhook_id, generate_form_id,
    mbind, M_bind, utcnow, uuid4, mret, M_ret, id_parts.
  cbn [fst clock_reads uuid_draws tick].
  assert (∀ pre : string,
            (inr (pre +:+ strftime_compact (utcnow_at env (clock_reads w)) +:+ "_"
                  +:+ String.substring 0 8 (uuid4_at env (uuid_draws w))) : exn + string)
            = inr (pre +:+ strftime_compact (utcnow_at env' (clock_reads w')) +:+ "_"
                   +:+ String.substring 0 8 (uuid4_at env' (uuid_draws w')))
            ↔ (strftime_compact (utcnow_at env (clock_reads w)),
               String.substring 0 8 (uuid4_at env (uuid_draws w)))
              = (strftime_compact (utcnow_at env' (clock_reads w')),
                 String.substring 0 8 (uuid4_at env' (uuid_draws w')))) as Hiff.
  { intros pre. split.
    - intros Heq. injection Heq as Heq.
      apply (tagged_id_inj pre _ _ _ _ Hlen) in Heq as [-> ->]. reflexivity.
    - intros [= Hs Hp]. f_equal. apply (tagged_id_inj pre _ _ _ _ Hlen). auto. }
  split; [apply Hiff|]. split; apply Hiff.
Qed.

Lemma X18_generated_ids_collide_witness :
  (8 ≤ String.length (uuid4_at Scenario.env (uuid_draws Scenario.world)))%nat
  ∧ (8 ≤ String.length (uuid4_at Scenario.env (uuid_draws (draw Scenario.world))))%nat
  ∧ ((generate_submission_id Scenario.env Scenario.world).1
     = (generate_submission_id Scenario.env (draw Scenario.world)).1
     ↔ id_parts Scenario.env Scenario.world = id_parts Scenario.env (draw Scenario.world))
  ∧ ((generate_webhook_id Scenario.env Scenario.world).1
     = (generate_webhook_id Scenario.env (draw Scenario.world)).1
     ↔ id_parts Scenario.env Scenario.world = id_parts Scenario.env (draw Scenario.world))
  ∧ ((generate_form_id Scenario.env Scenario.world).1
     = (generate_form_id Scenario.env (draw Scenario.world)).1
     ↔ id_parts Scenario.env Scenario.world = id_parts Scenario.env (draw Scenario.world)).
Proof.
  split; [vm_compute; lia|]. split; [vm_compute; lia|].
  apply (X18_generated_ids_collide Scenario.env Scenario.env Scenario.world
           (draw Scenario.world)); vm_compute; lia.
Defined.

(** ** More of the submission write path *)

Lemma create_submission_run env f answers0 sd w :
  create_submission env f answers0 sd w
  = match db_commit env (before_save env f answers0 sd w) with
    | (inl e, w1) => (inl e, w1)
    | (inr _, w1) =>
        match db_refresh env w1 with
        | (inl e, w2) => (inl e, w2)
        | (inr _, w2) =>
            match increment_submission_count env f w2 with
            | (inl e, w3) => (inl e, w3)
            | (inr _, w3) =>
                match try_except
                        (_ ← trigger_webhooks env f SUBMISSION_CREATED
                               (submission_payload (new_submission_id env w)
                                                   (new_submission env f answers0 sd w));
                         mret tt)
                        (fun e => print ("🚨 Erro ao disparar webhooks: " +:+ str_exn e)) w3
                with
                | (inl e, w4) => (inl e, w4)
                | (inr _, w4) =>
                    (inr (new_submission_id env w, new_submission env f answers0 sd w), w4)
                end
            end
        end
    end.
Proof. reflexivity. Qed.

Lemma flush_taken w sid s :
  is_Some (submissions (stored w) !! sid) →
  flush (add_pending sid s w)
  = (inl (PyException "IntegrityError" "duplicate key"), add_pending sid s w).
Proof.
  intros Htaken. unfold flush. cbn [pending stored add_pending].
  rewrite existsb_app. cbn [existsb fst].
  rewrite (bool_decide_eq_true_2 _ Htaken), orb_true_r. reflexivity.
Qed.

(** X19. When the generated id is already the key of a stored submission, the
    commit of [create_submission] is refused: the call raises, the stored
    rows stay as they were (the old submission is not overwritten), the
    form's counter is not touched and no webhook is sent. *)
Theorem X19_create_submission_duplicate_id env f answers0 sd w old :
  db_fault_at env (db_calls w) = None →
  submissions (stored w) !! new_submission_id env w = Some old →
  ∃ w' msg,
    create_submission env f answers0 sd w = (inl (PyException "IntegrityError" msg), w')
    ∧ stored w' = stored w
    ∧ forms (session w') = forms (session w)
    ∧ posts w' = posts w
    ∧ db_calls w' = S (db_calls w).
Proof.
  intros Hcommit Hold.
  rewrite create_submission_run, db_commit_run. unfold before_save.
  cbn [db_calls add_pending tick draw]. rewrite Hcommit.
  change (bump_db (add_pending ?a ?b ?c)) with (add_pending a b (bump_db c)).
  rewrite flush_taken by (cbn; rewrite Hold; eauto).
  eexists _, _. split; [reflexivity|]. cbn. repeat split.
Qed.

Lemma X19_create_submission_duplicate_id_witness :
  db_fault_at Scenario.env (db_calls Cases.world_taken) = None
  ∧ submissions (stored Cases.world_taken) !! new_submission_id Scenario.env Cases.world_taken
    = Some Cases.old_submission
  ∧ ∃ w' msg,
      create_submission Scenario.env "form_42" [PDict [("q1", PStr "yes")]] None
                        Cases.world_taken
      = (inl (PyException "IntegrityError" msg), w')
      ∧ stored w' = stored Cases.world_taken
      ∧ forms (session w') = forms (session Cases.world_taken)
      ∧ posts w' = posts Cases.world_taken
      ∧ db_calls w' = S (db_calls Cases.world_taken).
Proof.
  split; [reflexivity|]. split; [vm_compute; reflexivity|].
  apply (X19_create_submission_duplicate_id Scenario.env "form_42" [PDict [("q1", PStr "yes")]]
           None Cases.world_taken Cases.old_submission);
    [reflexivity | vm_compute; reflexivity].
Defined.

(** X20. When the commit that saves the submission fails, [create_submission]
    raises that error at once: nothing is stored, the form's counter is not
    touched, and no webhook is sent. *)
Theorem X20_create_submission_commit_failure env f answers0 sd w m :
  db_fault_at env (db_calls w) = Some m →
  ∃ w',
    create_submission env f answers0 sd w = (inl (db_error m), w')
    ∧ stored w' = stored w
    ∧ forms (session w') = forms (session w)
    ∧ posts w' = posts w
    ∧ db_calls w' = S (db_calls w).
Proof.
  intros Hcommit.
  rewrite create_submission_run, db_commit_run. unfold before_save.
  cbn [db_calls add_pending tick draw]. rewrite Hcommit.
  eexists. split; [reflexivity|]. cbn. repeat split.
Qed.

Lemma X20_create_submission_commit_failure_witness :
  db_fault_at Cases.env_db_down (db_calls Scenario.world) = Some "connection refused"
  ∧ ∃ w',
      create_submission Cases.env_db_down "form_42" [PDict [("q1", PStr "yes")]] None
                        Scenario.world
      = (inl (db_error "connection refused"), w')
      ∧ stored w' = stored Scenario.world
      ∧ forms (session w') = forms (session Scenario.world)
      ∧ posts w' = posts Scenario.world
      ∧ db_calls w' = S (db_calls Scenario.world).
Proof.
  split; [reflexivity|].
  apply (X20_create_submission_commit_failure Cases.env_db_down "form_42"
           [PDict [("q1", PStr "yes")]] None Scenario.world "connection refused").
  reflexivity.
Defined.

(** X21. When the commit succeeds but the refresh that follows it fails,
    [create_submission] raises although the submission is already stored;
    the form's counter is not incremented and no webhook is sent. *)
Theorem X21_create_submission_refresh_failure env f answers0 sd w m :
  pending w = [] →
  submissions (stored w) !! new_submission_id env w = None →
  db_fault_at env (db_calls w) = None →
  db_fault_at env (S (db_calls w)) = Some m →
  ∃ w',
    create_submission env f answers0 sd w = (inl (db_error m), w')
    ∧ submissions (stored w') !! new_submission_id env w
      = Some (new_submission env f answers0 sd w)
    ∧ forms (stored w') = forms (session w)
    ∧ posts w' = posts w.
Proof.
  intros Hpending Hfresh Hcommit Hrefresh.
  rewrite create_submission_run.
  destruct (db_commit_added env (before_save env f answers0 sd w)
              (new_submission_id env w) (new_submission env f answers0 sd w))
    as (w1 & Hrun & Hpe1 & Hdb1 & Hf1 & Hse1 & Hst1);
    [cbn; rewrite Hpending; reflexivity | exact Hfresh | exact Hcommit |].
  pose proof (db_commit_log env (before_save env f answers0 sd w)) as [Hposts _].
  assert (forms (stored w1) = forms (session w)) as Hforms.
  { revert Hrun. rewrite db_commit_run. cbn [db_calls before_save add_pending tick draw].
    rewrite Hcommit. unfold flush. destruct (existsb _ _); [discriminate|].
    intros [= <-]. reflexivity. }
  rewrite Hrun in Hposts |- *. cbn [snd] in Hposts.
  unfold db_refresh. rewrite db_call_run, Hdb1. cbn [db_calls before_save add_pending tick draw].
  rewrite Hrefresh. eexists. split; [reflexivity|]. cbn [stored posts bump_db].
  rewrite Hst1. split; [apply lookup_insert_eq|]. split; [exact Hforms|exact Hposts].
Qed.

Lemma X21_create_submission_refresh_failure_witness :
  pending Scenario.world = []
  ∧ submissions (stored Scenario.world)
      !! new_submission_id Scenario.env_commit_fails Scenario.world = None
  ∧ db_fault_at Scenario.env_commit_fails (db_calls Scenario.world) = None
  ∧ db_fault_at Scenario.env_commit_fails (S (db_calls Scenario.world))
    = Some "connection lost"
  ∧ ∃ w',
      create_submission Scenario.env_commit_fails "form_42" [PDict [("q1", PStr "yes")]]
                        None Scenario.world
      = (inl (db_error "connection lost"), w')
      ∧ submissions (stored w') !! new_submission_id Scenario.env_commit_fails Scenario.world
        = Some (new_submission Scenario.env_commit_fails "form_42"
                  [PDict [("q1", PStr "yes")]] None Scenario.world)
      ∧ forms (stored w') = forms (session Scenario.world)
      ∧ posts w' = posts Scenario.world.
Proof.
  split; [reflexivity|]. split; [apply lookup_empty|].
  split; [reflexivity|]. split; [reflexivity|].
  apply (X21_create_submission_refresh_failure Scenario.env_commit_fails "form_42"
           [PDict [("q1", PStr "yes")]] None Scenario.world "connection lost");
    [reflexivity | apply lookup_empty | reflexivity | reflexivity].
Defined.






Lemma increment_submission_count_known env f w form :
  pending w = [] →
  forms (session w) !! f = Some form →
  db_fault_at env (db_calls w) = None →
  db_fault_at env (S (db_calls w)) = None →
  ∃ w',
    increment_submission_count env f w = (inr tt, w')
    ∧ forms (stored w') = <[f := counted (utcnow_at env (clock_reads w)) form]> (forms (session w))
    ∧ webhooks (stored w') = webhooks (session w)
    ∧ submissions (stored w') = submissions (session w)
    ∧ session w' = stored w'
    ∧ pending w' = []
    ∧ posts w' = posts w.
Proof.
  intros Hpending Hform Hsel Hcommit.
  unfold increment_submission_count, db_execute, mbind, M_bind.
  rewrite db_call_run, Hsel. unfold gets. cbn [bump_db session]. rewrite Hform.
  unfold update_form, modify, utcnow. cbn beta iota.
  rewrite db_commit_run. cbn -[flush alter]. rewrite Hcommit.
  match goal with |- context [flush ?a] =>
    destruct (flush_no_pending a) as (w' & -> & Hst & Hse & Hpe & Hpo & _);
      [cbn; exact Hpending|]
  end.
  exists w'. split; [reflexivity|]. rewrite Hst, Hse. cbn -[alter] in Hpo |- *.
  split.
  - rewrite alter_alter_eq. apply map_eq. intros k.
    destruct (decide (k = f)) as [->|Hk].
    + rewrite lookup_alter_eq, lookup_insert_eq, Hform. reflexivity.
    + rewrite lookup_alter_ne, lookup_insert_ne by congruence. reflexivity.
  - repeat split; assumption.
Qed.

(** X23. For a form that exists, [increment_submission_count] adds one to its
    counter, stamps [last_submission] with the clock and commits; the other
    forms, the webhooks and the submissions are as before, and nothing is
    sent. *)
Theorem X23_increment_submission_count_counts env f w form :
  pending w = [] →
  forms (session w) !! f = Some form →
  db_fault_at env (db_calls w) = None →
  db_fault_at env (S (db_calls w)) = None →
  ∃ w',
    increment_submission_count env f w = (inr tt, w')
    ∧ forms (stored w') !! f = Some (counted (utcnow_at env (clock_reads w)) form)
    ∧ (∀ f', f' ≠ f → forms (stored w') !! f' = forms (session w) !! f')
    ∧ webhooks (stored w') = webhooks (session w)
    ∧ submissions (stored w') = submissions (session w)
    ∧ posts w' = posts w.
Proof.
  intros Hpending Hform Hsel Hcommit.
  destruct (increment_submission_count_known env f w form Hpending Hform Hsel Hcommit)
    as (w' & Hrun & Hforms & Hw & Hs & _ & _ & Hp).
  exists w'. split; [exact Hrun|]. rewrite Hforms.
  split; [apply lookup_insert_eq|].
  split; [intros f' Hne; apply lookup_insert_ne; congruence|].
  auto.
Qed.

Lemma X23_increment_submission_count_counts_witness :
  pending Scenario.world = []
  ∧ forms (session Scenario.world) !! "form_42" = Some Cases.form_42
  ∧ db_fault_at Scenario.env (db_calls Scenario.world) = None
  ∧ db_fault_at Scenario.env (S (db_calls Scenario.world)) = None
  ∧ ∃ w',
      increment_submission_count Scenario.env "form_42" Scenario.world = (inr tt, w')
      ∧ forms (stored w') !! "form_42"
        = Some (counted (utcnow_at Scenario.env (clock_reads Scenario.world)) Cases.form_42)
      ∧ (∀ f', f' ≠ "form_42" →
               forms (stored w') !! f' = forms (session Scenario.world) !! f')
      ∧ webhooks (stored w') = webhooks (session Scenario.world)
      ∧ submissions (stored w') = submissions (session Scenario.world)
      ∧ posts w' = posts Scenario.world.
Proof.
  split; [reflexivity|]. split; [vm_compute; reflexivity|].
  split; [reflexivity|]. split; [reflexivity|].
  apply (X23_increment_submission_count_counts Scenario.env "form_42" Scenario.world
           Cases.form_42);
    [reflexivity | vm_compute; reflexivity | reflexivity | reflexivity].
Defined.



(** ** A webhook whose endpoint keeps failing *)

Lemma matching_elem f ev t k h :
  (k, h) ∈ matching f ev t
  ↔ webhooks t !! k = Some h ∧ form_id h = f ∧ active h = true
    ∧ event_value ev ∈ events h.
Proof.
  unfold matching. rewrite list_elem_of_filter, elem_of_map_to_list. cbn. tauto.
Qed.

Lemma same_config_trans h1 h2 h3 :
  same_config h1 h2 → same_config h2 h3 → same_config h1 h3.
Proof.
  unfold same_config. intros (? & ? & ? & ? & ?) (? & ? & ? & ? & ?).
  repeat split; congruence.
Qed.

Lemma failed_dispatch env f ev pl w k h :
  db_fault_at env (db_calls w) = None →
  db_fault_at env (S (db_calls w)) = None →
  pending w = [] →
  webhooks (session w) !! k = Some h →
  form_id h = f → active h = true → event_value ev ∈ events h →
  (∀ i r, req_url r = url h → succeeded (post_at env i r) = false) →
  ∃ h1,
    webhooks (session (trigger_webhooks env f ev pl w).2) !! k = Some h1
    ∧ failure_count h1 = failure_count h + 1
    ∧ same_config h h1
    ∧ stored (trigger_webhooks env f ev pl w).2 = session (trigger_webhooks env f ev pl w).2
    ∧ pending (trigger_webhooks env f ev pl w).2 = []
    ∧ db_calls (trigger_webhooks env f ev pl w).2 = S (S (db_calls w)).
Proof.
  intros Hsel Hcommit Hpending Hk Hf Ha He Hfail.
  assert ((k, h) ∈ matching f ev (session w)) as Hin by (apply matching_elem; auto).
  apply list_elem_of_lookup_1 in Hin as [i Hi].
  destruct (trigger_rows env f ev pl w Hsel) as [_ Hrow].
  rewrite (Hrow i k h Hi). eexists. split; [reflexivity|].
  split.
  { unfold row_after. destruct (Json.dumps _) as [e|body]; [reflexivity|].
    rewrite Hfail by reflexivity. reflexivity. }
  split; [apply row_after_same_config|].
  rewrite trigger_webhooks_commit by (try assumption; intros E; rewrite E in Hi; discriminate).
  destruct (after_loop_spec env f ev pl w) as (_ & _ & Hpe & Hdb & _).
  rewrite db_commit_run, Hdb, Hcommit.
  destruct (flush_no_pending (bump_db (after_loop env f ev pl w)))
    as (w' & -> & Hst & Hse & Hpe' & _ & _ & Hdb' & _).
  { cbn. rewrite Hpe. exact Hpending. }
  cbn [snd]. rewrite Hst, Hse, Hdb'. cbn. rewrite Hdb. auto.
Qed.

(** X25. A webhook whose endpoint fails every time is still selected by every
    later dispatch: after [n] calls its failure counter is [n] higher, and
    it is as active and as subscribed as before.  No count of failures
    disables a webhook. *)
Theorem X25_repeated_failures_accumulate env f ev pl n : ∀ w k h,
  (∀ i, db_fault_at env i = None) →
  pending w = [] →
  webhooks (session w) !! k = Some h →
  form_id h = f → active h = true → event_value ev ∈ events h →
  (∀ i r, req_url r = url h → succeeded (post_at env i r) = false) →
  ∃ h',
    webhooks (session (dispatch_times env f ev pl n w)) !! k = Some h'
    ∧ failure_count h' = failure_count h + Z.of_nat n
    ∧ same_config h h'
    ∧ (n ≠ 0%nat → webhooks (stored (dispatch_times env f ev pl n w)) !! k = Some h').
Proof.
  induction n as [|n IH]; intros w k h Hdb Hpending Hk Hf Ha He Hfail.
  - exists h. cbn [dispatch_times]. split; [exact Hk|]. split; [lia|].
    split; [repeat split|]. intros Hn. contradiction.
  - cbn [dispatch_times].
    destruct (failed_dispatch env f ev pl w k h (Hdb _) (Hdb _) Hpending Hk Hf Ha He Hfail)
      as (h1 & Hk1 & Hfc1 & Hcfg1 & Hst1 & Hpe1 & _).
    destruct Hcfg1 as (Hf1 & Hu1 & He1 & Hs1 & Ha1).
    destruct (IH (trigger_webhooks env f ev pl w).2 k h1 Hdb Hpe1 Hk1)
      as (h' & Hk' & Hfc' & Hcfg' & Hst'); try congruence.
    { intros i r Hr. apply Hfail. congruence. }
    exists h'. split; [exact Hk'|]. split; [lia|].
    split; [apply (same_config_trans h h1 h'); [repeat split; assumption|exact Hcfg']|].
    intros _. destruct n as [|n]; [|apply Hst'; discriminate].
    cbn [dispatch_times] in Hk' |- *. rewrite Hst1. exact Hk'.
Qed.

Lemma scenario_never_faults i : db_fault_at Scenario.env i = None.
Proof. reflexivity. Qed.

Lemma scenario_slow_fails i r :
  req_url r = url Scenario.wh_slow → succeeded (post_at Scenario.env i r) = false.
Proof. intros Hr. rewrite (scenario_slow_times_out i r Hr). reflexivity. Qed.

Lemma X25_repeated_failures_accumulate_witness :
  (∀ i, db_fault_at Scenario.env i = None)
  ∧ pending Scenario.world = []
  ∧ webhooks (session Scenario.world) !! "wh_slow" = Some Scenario.wh_slow
  ∧ form_id Scenario.wh_slow = "form_42"
  ∧ active Scenario.wh_slow = true
  ∧ event_value SUBMISSION_CREATED ∈ events Scenario.wh_slow
  ∧ (∀ i r, req_url r = url Scenario.wh_slow →
            succeeded (post_at Scenario.env i r) = false)
  ∧ ∃ h',
      webhooks (session (dispatch_times Scenario.env "form_42" SUBMISSION_CREATED
                           Scenario.data 3 Scenario.world)) !! "wh_slow" = Some h'
      ∧ failure_count h' = failure_count Scenario.wh_slow + Z.of_nat 3
      ∧ same_config Scenario.wh_slow h'
      ∧ (3%nat ≠ 0%nat →
         webhooks (stored (dispatch_times Scenario.env "form_42" SUBMISSION_CREATED
                             Scenario.data 3 Scenario.world)) !! "wh_slow" = Some h').
Proof.
  split; [exact scenario_never_faults|]. split; [reflexivity|].
  split; [vm_compute; reflexivity|]. split; [reflexivity|]. split; [reflexivity|].
  split; [constructor|]. split; [exact scenario_slow_fails|].
  apply (X25_repeated_failures_accumulate Scenario.env "form_42" SUBMISSION_CREATED
           Scenario.data 3 Scenario.world "wh_slow" Scenario.wh_slow);
    [exact scenario_never_faults | reflexivity | vm_compute; reflexivity | reflexivity
    | reflexivity | constructor | exact scenario_slow_fails].
Defined.

(** ** The event catalogue ([app/webhooks/routes.py]) *)

(** X26. The guide that [list_webhook_events] publishes agrees with what
    [_send_webhook] sends: every header it names is on every POST (the
    signature header when the webhook has a secret), the user agent is the
    one sent, and the example payload has the keys of a real envelope, in
    the same order. *)
Theorem X26_webhook_guide_matches_requests env wid h p w body :
  Json.dumps (envelope_dict p) = inr body →
  ∃ r,
    posts (_send_webhook env wid h p w).2 = posts w ++ [r]
    ∧ (∀ guide, ("webhook_guide", PDict guide) ∈ list_webhook_events →
         (∀ k name, (k, PStr name) ∈ guide → k ≠ "user_agent" →
                    (k = "signature_header" → has_secret h = true) →
                    is_Some (req_headers r !! name))
         ∧ (∀ ua, ("user_agent", PStr ua) ∈ guide → req_headers r !! "User-Agent" = Some ua))
    ∧ (∀ example kvs, ("example_payload", PDict example) ∈ list_webhook_events →
         envelope_dict p = PDict kvs → kvs.*1 = example.*1).
Proof.
  intros Hd. exists (request_of h p body).
  rewrite (_send_webhook_posts env wid h p w body Hd).
  split; [reflexivity|]. split.
  - intros guide Hg. unfold list_webhook_events in Hg. cbn zeta in Hg.
    list_member_cases Hg. injection Hg as ->.
    unfold request_of. cbn [req_headers]. split.
    + intros k name Hk Hua Hsig. unfold webhook_guide in Hk.
      list_member_cases Hk; injection Hk as -> ->.
      * rewrite Hsig by reflexivity. rewrite lookup_insert_eq. eauto.
      * destruct (has_secret h); eexists; reflexivity.
      * destruct (has_secret h); eexists; reflexivity.
      * destruct (has_secret h); eexists; reflexivity.
      * contradiction.
    + intros ua Hk. unfold webhook_guide in Hk.
      list_member_cases Hk. injection Hk as ->.
      destruct (has_secret h); reflexivity.
  - intros example kvs Hex Hkvs. unfold list_webhook_events in Hex. cbn zeta in Hex.
    list_member_cases Hex. injection Hex as ->.
    unfold envelope_dict in Hkvs. injection Hkvs as <-. reflexivity.
Qed.

Lemma X26_webhook_guide_matches_requests_witness :
  Json.dumps (envelope_dict Scenario.envelope)
  = inr (serialised Scenario.envelope Scenario.data_text)
  ∧ ∃ r,
      posts (_send_webhook Scenario.env "wh_signed" Scenario.wh_signed Scenario.envelope
               Scenario.world).2 = posts Scenario.world ++ [r]
      ∧ (∀ guide, ("webhook_guide", PDict guide) ∈ list_webhook_events →
           (∀ k name, (k, PStr name) ∈ guide → k ≠ "user_agent" →
                      (k = "signature_header" → has_secret Scenario.wh_signed = true) →
                      is_Some (req_headers r !! name))
           ∧ (∀ ua, ("user_agent", PStr ua) ∈ guide →
                    req_headers r !! "User-Agent" = Some ua))
      ∧ (∀ example kvs, ("example_payload", PDict example) ∈ list_webhook_events →
           envelope_dict Scenario.envelope = PDict kvs → kvs.*1 = example.*1).
Proof.
  split; [vm_compute; reflexivity|].
  apply (X26_webhook_guide_matches_requests Scenario.env "wh_signed" Scenario.wh_signed
           Scenario.envelope Scenario.world
           (serialised Scenario.envelope Scenario.data_text)).
  vm_compute; reflexivity.
Defined.

(** X27. [list_webhook_events] lists every member of [WebhookEvent], each with
    a description of its own from the table (the fallback text is never
    used), and [total_events] counts them: six. *)
Theorem X27_list_webhook_events_complete events total :
  ("events", PList events) ∈ list_webhook_events →
  ("total_events", PInt total) ∈ list_webhook_events →
  total = Z.of_nat (length events)
  ∧ total = 6
  ∧ ∀ ev : WebhookEvent,
      ∃ desc, desc ≠ "Evento webhook"
              ∧ PDict [("name", PStr (event_value ev)); ("description", PStr desc)]
                ∈ events.
Proof.
  intros Hev Htot. unfold list_webhook_events in Hev, Htot. cbn zeta in Hev, Htot.
  list_member_cases Hev. injection Hev as ->.
  list_member_cases Htot. injection Htot as ->.
  split; [reflexivity|]. split; [reflexivity|].
  intros ev. destruct ev; eexists; (split; [|unfold all_events; cbn [map];
    unfold event_entry; repeat constructor]); discriminate.
Qed.

Lemma X27_list_webhook_events_complete_witness :
  ("events", PList (map event_entry all_events)) ∈ list_webhook_events
  ∧ ("total_events", PInt 6) ∈ list_webhook_events
  ∧ 6 = Z.of_nat (length (map event_entry all_events))
  ∧ 6 = 6
  ∧ ∀ ev : WebhookEvent,
      ∃ desc, desc ≠ "Evento webhook"
              ∧ PDict [("name", PStr (event_value ev)); ("description", PStr desc)]
                ∈ map event_entry all_events.
Proof.
  split; [unfold list_webhook_events; repeat constructor|].
  split; [unfold list_webhook_events; repeat constructor|].
  apply (X27_list_webhook_events_complete (map event_entry all_events) 6);
    unfold list_webhook_events; repeat constructor.
Defined.
